(** * ansible-dcnm: a shallow embedding of the polling, validation and
      push logic of the DCNM/NDFC modules

    The development follows the Python sources file by file:

    - [Py]: the fragment of Python's data model the modules rely on
      (dynamically typed values, truthiness, [str.lower], substring search,
      exceptions) and a small state-and-exception monad;
    - [WaitForControllerDone]:
      plugins/module_utils/image_upgrade/wait_for_controller_done.py;
    - [ImageValidate]:
      plugins/module_utils/image_upgrade/image_validate.py;
    - [FabricConfigSave]: plugins/module_utils/fabric/config_save.py;
    - [VerifyPlaybookParams]:
      plugins/module_utils/fabric/verify_playbook_params.py;
    - [DcnmNetworkv2]: plugins/modules/dcnm_networkv2.py.

    Every method that mutates [self] is a computation over an explicit
    state; every method that talks to the controller appends an event to a
    log and reads the controller's answer from an oracle, so that "issues no
    REST request" is a statement about the log.  Loops whose exit depends on
    the controller take a fuel argument and report [OutOfFuel] when it is
    used up while the loop condition still holds. *)

From Stdlib Require Import ZArith String Ascii List Bool Lia.
From stdpp Require Import base gmap strings list fin_maps.

Set Warnings "-register-all".

Local Open Scope string_scope.
Local Open Scope Z_scope.

(** ** Python values, exceptions and effects *)

Module Py.

(** Values assigned to properties or found in JSON bodies.  [PFloat m e] is
    the float [m * 2^e]; sets only ever hold strings in these modules. *)
Inductive pyval : Type :=
| PNone
| PBool (b : bool)
| PInt (z : Z)
| PFloat (m e : Z)
| PStr (s : string)
| PList (l : list pyval)
| PDict (d : list (string * pyval))
| PSet (s : gset string).

(** [isinstance(value, bool)] *)
Definition is_bool (v : pyval) : bool :=
  match v with PBool _ => true | _ => false end.

(** [isinstance(value, int)]: [bool] is a subclass of [int]. *)
Definition is_int (v : pyval) : bool :=
  match v with PBool _ | PInt _ => true | _ => false end.

(** [isinstance(value, dict)] and [isinstance(value, list)] *)
Definition is_dict (v : pyval) : bool :=
  match v with PDict _ => true | _ => false end.

Definition is_list (v : pyval) : bool :=
  match v with PList _ => true | _ => false end.

(** The integer an [int] instance stands for ([True] is 1, [False] is 0). *)
Definition int_value (v : pyval) : option Z :=
  match v with
  | PInt z => Some z
  | PBool b => Some (if b then 1 else 0)
  | _ => None
  end.

(** [bool(value)] *)
Definition truthy (v : pyval) : bool :=
  match v with
  | PNone => false
  | PBool b => b
  | PInt z => negb (z =? 0)
  | PFloat m _ => negb (m =? 0)
  | PStr s => negb (String.eqb s "")
  | PList l => match l with [] => false | _ => true end
  | PDict d => match d with [] => false | _ => true end
  | PSet s => negb (bool_decide (s = ∅))
  end.

(** A dict with string keys, in insertion order. *)
Definition dict : Type := list (string * pyval).

(** [d.get(key, None)] on a dict kept as an association list. *)
Fixpoint dict_get (key : string) (d : dict) : option pyval :=
  match d with
  | [] => None
  | (k, v) :: rest => if String.eqb k key then Some v else dict_get key rest
  end.

(** [str.lower] on ASCII text. *)
Definition lower_ascii (c : ascii) : ascii :=
  let n := nat_of_ascii c in
  if (65 <=? n)%nat && (n <=? 90)%nat then ascii_of_nat (n + 32) else c.

Fixpoint lower (s : string) : string :=
  match s with
  | EmptyString => EmptyString
  | String c rest => String (lower_ascii c) (lower rest)
  end.

(** [needle in hay] for strings. *)
Definition contains (needle hay : string) : bool :=
  match index 0 needle hay with Some _ => true | None => false end.

(** Exceptions.  Messages keep the static part of the source's text; the
    interpolated class, method and value names are left out. *)
Inductive exn : Type :=
| ValueError (msg : string)
| TypeError (msg : string)
| KeyError (key : string)
| AttributeError (attr : string)
| FailJson (msg : string).

(** How a call ends: it returns, it raises, or the fuel given to one of its
    loops ran out while the loop was still running. *)
Inductive outcome (A : Type) : Type :=
| Ret (a : A)
| Raise (e : exn)
| OutOfFuel.

Arguments Ret {A} a.
Arguments Raise {A} e.
Arguments OutOfFuel {A}.

(** Computations over a mutable state [S]: the state survives a raise, as
    attributes assigned before a Python exception do. *)
Definition M (S A : Type) : Type := S -> outcome A * S.

Definition ret {S A} (a : A) : M S A := fun s => (Ret a, s).

Definition bind {S A B} (m : M S A) (k : A -> M S B) : M S B :=
  fun s =>
    match m s with
    | (Ret a, s') => k a s'
    | (Raise e, s') => (Raise e, s')
    | (OutOfFuel, s') => (OutOfFuel, s')
    end.

Definition raise {S A} (e : exn) : M S A := fun s => (Raise e, s).

Definition out_of_fuel {S A} : M S A := fun s => (OutOfFuel, s).

Definition get {S} : M S S := fun s => (Ret s, s).

Definition modify {S} (f : S -> S) : M S unit := fun s => (Ret tt, f s).

(** [for x in xs: body x] *)
Fixpoint for_each {S A} (xs : list A) (body : A -> M S unit) : M S unit :=
  match xs with
  | [] => ret tt
  | x :: rest => bind (body x) (fun _ => for_each rest body)
  end.

(** What a module does to the outside world, oldest event first. *)
Inductive event : Type :=
| EvSleep (seconds : Z)
| EvRefresh
| EvSend (verb path : string).

End Py.

Import Py.

Notation "'let*' x ':=' m 'in' k" := (bind m (fun x => k))
  (at level 10, x name, m at level 100, k at level 200).
Notation "m1 ';;' m2" := (bind m1 (fun _ => m2))
  (at level 100, m2 at level 200, right associativity).

(** ** The controller's ISSU details (SwitchIssuDetails)

    The [SwitchIssuDetails*] classes are imported by the sources but are not
    part of them.  They are used through [refresh()], which fetches the
    details of every switch from the controller, [filter = item], which
    selects one switch, and read-only properties of the selected switch.
    The controller is therefore an oracle: what each successive [refresh()]
    retrieves for each filter value. *)

Module SwitchIssuDetails.

Record details : Type := {
  actions_in_progress : bool;
  validated : string;
  validated_percent : Z;
  serial_number : string;
  ip_address : string;
  device_name : string;
  policy : string
}.

(** [ctl k item]: the details of [item] retrieved by the [k]-th
    [refresh()], counting from 1. *)
Definition controller : Type := nat -> string -> details.

(** The outside world as the image-upgrade classes see it: the event log and
    the number of [refresh()] calls made so far. *)
Record world : Type := {
  events : list event;
  refreshes : nat
}.

Definition world0 : world := {| events := []; refreshes := 0 |}.

Definition sleep (seconds : Z) (w : world) : world :=
  {| events := events w ++ [EvSleep seconds]; refreshes := refreshes w |}.

Definition refresh (w : world) : world :=
  {| events := events w ++ [EvRefresh]; refreshes := S (refreshes w) |}.

Definition send (verb path : string) (w : world) : world :=
  {| events := events w ++ [EvSend verb path]; refreshes := refreshes w |}.

End SwitchIssuDetails.

Import SwitchIssuDetails.

(** ** wait_for_controller_done.py *)

Module WaitForControllerDone.

(** The [RestSend] object: only [unit_test] is read by this class. *)
Record rest_send_t : Type := { unit_test : bool }.

Record t : Type := {
  done : gset string;
  todo : gset string;
  _check_interval : Z;
  _check_timeout : Z;
  _items : option (gset string);
  _item_type : option string;
  _rest_send : option rest_send_t
}.

Definition _valid_item_types : list string :=
  ["device_name"; "ipv4_address"; "serial_number"].

Definition __init__ : t := {|
  done := ∅;
  todo := ∅;
  _check_interval := 10;
  _check_timeout := 1800;
  _items := None;
  _item_type := None;
  _rest_send := None
|}.

(** The instance together with the world it acts on. *)
Record cfg : Type := { self : t; w : world }.

Definition set_done (d : gset string) (c : cfg) : cfg :=
  {| self := {| done := d; todo := todo (self c);
                _check_interval := _check_interval (self c);
                _check_timeout := _check_timeout (self c);
                _items := _items (self c);
                _item_type := _item_type (self c);
                _rest_send := _rest_send (self c) |};
     w := w c |}.

Definition set_todo (d : gset string) (c : cfg) : cfg :=
  {| self := {| done := done (self c); todo := d;
                _check_interval := _check_interval (self c);
                _check_timeout := _check_timeout (self c);
                _items := _items (self c);
                _item_type := _item_type (self c);
                _rest_send := _rest_send (self c) |};
     w := w c |}.

Definition set_world (f : world -> world) (c : cfg) : cfg :=
  {| self := self c; w := f (w c) |}.

(** Property setters.  Each takes the assigned value and the instance and
    returns the outcome with the instance as the assignment leaves it. *)
Definition check_interval_setter (value : pyval) : M t unit :=
  if is_bool value then raise (TypeError "must be a positive integer or zero. ")
  else if negb (is_int value) then raise (TypeError "must be a positive integer or zero. ")
  else match value with
       | PInt z =>
           if z <? 0 then raise (ValueError "must be a positive integer or zero. ")
           else modify (fun s =>
                  {| done := done s; todo := todo s;
                     _check_interval := z;
                     _check_timeout := _check_timeout s;
                     _items := _items s;
                     _item_type := _item_type s;
                     _rest_send := _rest_send s |})
       | _ => raise (TypeError "must be a positive integer or zero. ")
       end.

Definition check_timeout_setter (value : pyval) : M t unit :=
  if is_bool value then raise (TypeError "must be a positive integer or zero. ")
  else if negb (is_int value) then raise (TypeError "must be a positive integer or zero. ")
  else match value with
       | PInt z =>
           if z <? 0 then raise (ValueError "must be a positive integer or zero. ")
           else modify (fun s =>
                  {| done := done s; todo := todo s;
                     _check_interval := _check_interval s;
                     _check_timeout := z;
                     _items := _items s;
                     _item_type := _item_type s;
                     _rest_send := _rest_send s |})
       | _ => raise (TypeError "must be a positive integer or zero. ")
       end.

Definition items_setter (value : pyval) : M t unit :=
  match value with
  | PSet s =>
      modify (fun x =>
        {| done := done x; todo := todo x;
           _check_interval := _check_interval x;
           _check_timeout := _check_timeout x;
           _items := Some s;
           _item_type := _item_type x;
           _rest_send := _rest_send x |})
  | _ => raise (ValueError "items must be a set")
  end.

Definition item_type_setter (value : string) : M t unit :=
  if negb (existsb (String.eqb value) _valid_item_types)
  then raise (ValueError "item_type must be one of device_name,ipv4_address,serial_number.")
  else modify (fun x =>
         {| done := done x; todo := todo x;
            _check_interval := _check_interval x;
            _check_timeout := _check_timeout x;
            _items := _items x;
            _item_type := Some value;
            _rest_send := _rest_send x |}).

(** The [rest_send] property comes from the [Properties.add_rest_send]
    decorator; assigning a [RestSend] instance stores it. *)
Definition rest_send_setter (value : rest_send_t) : M t unit :=
  modify (fun x =>
    {| done := done x; todo := todo x;
       _check_interval := _check_interval x;
       _check_timeout := _check_timeout x;
       _items := _items x;
       _item_type := _item_type x;
       _rest_send := Some value |}).

Definition verify_commit_parameters : M cfg unit :=
  let* c := get in
  match _items (self c) with
  | None => raise (ValueError "items must be set before calling commit().")
  | Some _ =>
      match _item_type (self c) with
      | None => raise (ValueError "item_type must be set before calling commit().")
      | Some _ =>
          match _rest_send (self c) with
          | None => raise (ValueError "rest_send must be set before calling commit().")
          | Some _ => ret tt
          end
      end
  end.

(** The body of [for item in self.todo]: an item not yet done is added to
    [done] when the controller reports no action in progress for it. *)
Definition mark_item (snapshot : string -> details) (d : gset string) (item : string)
  : gset string :=
  if bool_decide (item ∈ d) then d
  else if negb (actions_in_progress (snapshot item)) then d ∪ {[item]}
  else d.

Definition mark_done (snapshot : string -> details) (d todo_items : gset string)
  : gset string :=
  foldl (mark_item snapshot) d (elements todo_items).

(** [while self.done != self.todo and timeout > 0: ...] *)
Fixpoint wait_loop (fuel : nat) (ctl : controller) (rs : rest_send_t)
    (timeout : Z) (c : cfg) : outcome unit * cfg :=
  if bool_decide (done (self c) ≠ todo (self c)) && (0 <? timeout) then
    match fuel with
    | O => (OutOfFuel, c)
    | S fuel' =>
        let c1 := if negb (unit_test rs)
                  then set_world (sleep (_check_interval (self c))) c
                  else c in
        let timeout' := timeout - _check_interval (self c) in
        let c2 := set_world refresh c1 in
        let snapshot := ctl (refreshes (w c2)) in
        let c3 := set_done (mark_done snapshot (done (self c2)) (todo (self c2))) c2 in
        wait_loop fuel' ctl rs timeout' c3
    end
  else (Ret tt, c).

Definition commit (fuel : nat) (ctl : controller) : M cfg unit :=
  verify_commit_parameters ;;
  let* c := get in
  match _items (self c), _rest_send (self c) with
  | Some items, Some rs =>
      if (size items =? 0)%nat then ret tt
      else
        modify (set_todo items) ;;
        let* c := get in
        let timeout := _check_timeout (self c) in
        wait_loop fuel ctl rs timeout ;;
        let* c := get in
        if bool_decide (done (self c) ≠ todo (self c))
        then raise (ValueError "Timed out waiting for controller actions to complete. ")
        else ret tt
  | _, _ => raise (ValueError "must be set before calling commit().")
  end.

End WaitForControllerDone.

(** ** image_validate.py *)

Module ImageValidate.

(** The [RestSend] object as this class uses it: the request it is handed
    before [commit()]. *)
Record rest_send_t : Type := {
  rs_verb : option string;
  rs_path : option string;
  rs_payload : option dict;
  rs_check_mode : bool
}.

(** What [commit()] reports: attributes of [self] that are only written. *)
Record outputs : Type := {
  response_current : dict;
  result_current : dict;
  response : dict;
  result : dict;
  response_data : pyval;
  properties : dict;
  diff : list dict
}.

(** [_serial_numbers] is [None] until the property is first assigned.
    [_check_interval], [_check_timeout], [unit_test] and [check_mode] are
    given to the instance by code outside this file. *)
Record t : Type := {
  _serial_numbers : option (list string);
  serial_numbers_done : gset string;
  payload : dict;
  _non_disruptive : pyval;
  _check_interval : Z;
  _check_timeout : Z;
  unit_test : bool;
  check_mode : bool;
  method_name : string;
  rest_send : rest_send_t;
  out : outputs
}.

Record cfg : Type := { self : t; w : world }.

(** What the controller does: the ISSU details per [refresh()], and the
    pair ([response_current], [result_current]) that [RestSend.commit()]
    leaves for a request. *)
Record remote : Type := {
  issu : controller;
  rest_reply : string -> string -> dict * dict
}.

(** [EpImageValidate]: the endpoint named in the class docstring. *)
Definition ep_path : string :=
  "/appcenter/cisco/ndfc/api/v1/imagemanagement/rest/stagingmanagement/validate-image".

Definition ep_verb : string := "POST".

Definition with_serial_numbers (v : option (list string)) (x : t) : t :=
  {| _serial_numbers := v; serial_numbers_done := serial_numbers_done x;
     payload := payload x; _non_disruptive := _non_disruptive x;
     _check_interval := _check_interval x; _check_timeout := _check_timeout x;
     unit_test := unit_test x; check_mode := check_mode x;
     method_name := method_name x; rest_send := rest_send x; out := out x |}.

Definition with_done (d : gset string) (x : t) : t :=
  {| _serial_numbers := _serial_numbers x; serial_numbers_done := d;
     payload := payload x; _non_disruptive := _non_disruptive x;
     _check_interval := _check_interval x; _check_timeout := _check_timeout x;
     unit_test := unit_test x; check_mode := check_mode x;
     method_name := method_name x; rest_send := rest_send x; out := out x |}.

Definition with_payload (d : dict) (x : t) : t :=
  {| _serial_numbers := _serial_numbers x; serial_numbers_done := serial_numbers_done x;
     payload := d; _non_disruptive := _non_disruptive x;
     _check_interval := _check_interval x; _check_timeout := _check_timeout x;
     unit_test := unit_test x; check_mode := check_mode x;
     method_name := method_name x; rest_send := rest_send x; out := out x |}.

Definition with_check_interval (z : Z) (x : t) : t :=
  {| _serial_numbers := _serial_numbers x; serial_numbers_done := serial_numbers_done x;
     payload := payload x; _non_disruptive := _non_disruptive x;
     _check_interval := z; _check_timeout := _check_timeout x;
     unit_test := unit_test x; check_mode := check_mode x;
     method_name := method_name x; rest_send := rest_send x; out := out x |}.

Definition with_check_timeout (z : Z) (x : t) : t :=
  {| _serial_numbers := _serial_numbers x; serial_numbers_done := serial_numbers_done x;
     payload := payload x; _non_disruptive := _non_disruptive x;
     _check_interval := _check_interval x; _check_timeout := z;
     unit_test := unit_test x; check_mode := check_mode x;
     method_name := method_name x; rest_send := rest_send x; out := out x |}.

Definition with_method_name (m : string) (x : t) : t :=
  {| _serial_numbers := _serial_numbers x; serial_numbers_done := serial_numbers_done x;
     payload := payload x; _non_disruptive := _non_disruptive x;
     _check_interval := _check_interval x; _check_timeout := _check_timeout x;
     unit_test := unit_test x; check_mode := check_mode x;
     method_name := m; rest_send := rest_send x; out := out x |}.

Definition with_rest_send (r : rest_send_t) (x : t) : t :=
  {| _serial_numbers := _serial_numbers x; serial_numbers_done := serial_numbers_done x;
     payload := payload x; _non_disruptive := _non_disruptive x;
     _check_interval := _check_interval x; _check_timeout := _check_timeout x;
     unit_test := unit_test x; check_mode := check_mode x;
     method_name := method_name x; rest_send := r; out := out x |}.

Definition with_out (o : outputs) (x : t) : t :=
  {| _serial_numbers := _serial_numbers x; serial_numbers_done := serial_numbers_done x;
     payload := payload x; _non_disruptive := _non_disruptive x;
     _check_interval := _check_interval x; _check_timeout := _check_timeout x;
     unit_test := unit_test x; check_mode := check_mode x;
     method_name := method_name x; rest_send := rest_send x; out := o |}.

Definition on_self (f : t -> t) (c : cfg) : cfg := {| self := f (self c); w := w c |}.

Definition on_world (f : world -> world) (c : cfg) : cfg := {| self := self c; w := f (w c) |}.

(** *** Property setters *)

(** The text of the elements of a list of serial numbers.  The source
    stores the list object as it is; a list holding anything but [str]
    fails later, when an element is used as a filter, and is outside this
    model, which then keeps the [str] elements only. *)
Definition str_elements (l : list pyval) : list string :=
  omap (fun v => match v with PStr s => Some s | _ => None end) l.

Definition serial_numbers_setter (value : pyval) : M t unit :=
  modify (with_method_name "serial_numbers") ;;
  match value with
  | PList l => modify (with_serial_numbers (Some (str_elements l)))
  | _ => raise (TypeError "instance.serial_numbers must be a python list of switch serial numbers. ")
  end.

Definition check_interval_setter (value : pyval) : M t unit :=
  if is_bool value then raise (TypeError "must be a positive integer or zero. ")
  else if negb (is_int value) then raise (TypeError "must be a positive integer or zero. ")
  else match value with
       | PInt z =>
           if z <? 0 then raise (ValueError "must be a positive integer or zero. ")
           else modify (with_check_interval z)
       | _ => raise (TypeError "must be a positive integer or zero. ")
       end.

Definition check_timeout_setter (value : pyval) : M t unit :=
  if is_bool value then raise (TypeError "must be a positive integer or zero. ")
  else if negb (is_int value) then raise (TypeError "must be a positive integer or zero. ")
  else match value with
       | PInt z =>
           if z <? 0 then raise (ValueError "must be a positive integer or zero. ")
           else modify (with_check_timeout z)
       | _ => raise (TypeError "must be a positive integer or zero. ")
       end.

(** The getter: reading [serial_numbers] before it was assigned is an
    [AttributeError]. *)
Definition serial_numbers : M cfg (list string) :=
  let* c := get in
  match _serial_numbers (self c) with
  | Some l => ret l
  | None => raise (AttributeError "_serial_numbers")
  end.

(** *** Methods *)

(** [list.remove(x)]: drop the first occurrence, [ValueError] if there is
    none. *)
Fixpoint list_remove (x : string) (l : list string) : option (list string) :=
  match l with
  | [] => None
  | y :: rest =>
      if String.eqb y x then Some rest
      else match list_remove x rest with
           | Some rest' => Some (y :: rest')
           | None => None
           end
  end.

Definition prune_serial_numbers (ctl : remote) : M cfg unit :=
  modify (on_world refresh) ;;
  let* c := get in
  let snapshot := issu ctl (refreshes (w c)) in
  let* serial_numbers_copy := serial_numbers in
  for_each serial_numbers_copy (fun sn =>
    if String.eqb (validated (snapshot sn)) "Success" then
      let* current := serial_numbers in
      match list_remove (serial_number (snapshot sn)) current with
      | Some l => modify (on_self (with_serial_numbers (Some l)))
      | None => raise (ValueError "list.remove(x): x not in list")
      end
    else ret tt).

Definition validate_serial_numbers (ctl : remote) : M cfg unit :=
  modify (on_self (with_method_name "validate_serial_numbers")) ;;
  modify (on_world refresh) ;;
  let* c := get in
  let snapshot := issu ctl (refreshes (w c)) in
  let* sns := serial_numbers in
  for_each sns (fun sn =>
    if String.eqb (validated (snapshot sn)) "Failed"
    then raise (ValueError "image validation is failing for the following switch: ")
    else ret tt).

Definition build_payload : M cfg unit :=
  modify (on_self (with_method_name "build_payload")) ;;
  let* sns := serial_numbers in
  let* c := get in
  modify (on_self (with_payload
    [("serialNum", PList (List.map PStr sns));
     ("nonDisruptive", _non_disruptive (self c))])).

(** The body of [for serial_number in self.serial_numbers] in the first
    wait loop. *)
Definition mark_idle (snapshot : string -> details) (d : gset string) (sn : string)
  : gset string :=
  if bool_decide (sn ∈ d) then d
  else if negb (actions_in_progress (snapshot sn)) then d ∪ {[sn]}
  else d.

(** [while self.serial_numbers_done != serial_numbers_todo and timeout > 0]
    of [_wait_for_current_actions_to_complete]. *)
Fixpoint actions_loop (fuel : nat) (ctl : remote) (sns : list string)
    (serial_numbers_todo : gset string) (timeout : Z) (c : cfg)
  : outcome unit * cfg :=
  if bool_decide (serial_numbers_done (self c) ≠ serial_numbers_todo) && (0 <? timeout) then
    match fuel with
    | O => (OutOfFuel, c)
    | S fuel' =>
        let c1 := if negb (unit_test (self c))
                  then on_world (sleep (_check_interval (self c))) c
                  else c in
        let timeout' := timeout - _check_interval (self c) in
        let c2 := on_world refresh c1 in
        let snapshot := issu ctl (refreshes (w c2)) in
        let c3 := on_self (with_done
                    (foldl (mark_idle snapshot) (serial_numbers_done (self c2)) sns)) c2 in
        actions_loop fuel' ctl sns serial_numbers_todo timeout' c3
    end
  else (Ret tt, c).

Definition _wait_for_current_actions_to_complete (fuel : nat) (ctl : remote)
  : M cfg unit :=
  modify (on_self (with_method_name "_wait_for_current_actions_to_complete")) ;;
  let* c := get in
  (if negb (unit_test (self c)) then modify (on_self (with_done ∅)) else ret tt) ;;
  let* sns := serial_numbers in
  let serial_numbers_todo : gset string := list_to_set sns in
  let* c := get in
  let timeout := _check_timeout (self c) in
  actions_loop fuel ctl sns serial_numbers_todo timeout ;;
  let* c := get in
  if bool_decide (serial_numbers_done (self c) ≠ serial_numbers_todo)
  then raise (ValueError "Timed out waiting for actions to complete. ")
  else ret tt.

(** The body of [for serial_number in self.serial_numbers] in the second
    wait loop: a failed validation raises at once. *)
Definition mark_validated (snapshot : string -> details) (sn : string) : M cfg unit :=
  let* c := get in
  if bool_decide (sn ∈ serial_numbers_done (self c)) then ret tt
  else if String.eqb (validated (snapshot sn)) "Failed"
  then raise (ValueError "validate image Failed for ")
  else if String.eqb (validated (snapshot sn)) "Success"
  then modify (on_self (with_done (serial_numbers_done (self c) ∪ {[sn]})))
  else ret tt.

(** The [while] loop of [_wait_for_image_validate_to_complete]. *)
Fixpoint validate_loop (fuel : nat) (ctl : remote) (sns : list string)
    (serial_numbers_todo : gset string) (timeout : Z) (c : cfg)
  : outcome unit * cfg :=
  if bool_decide (serial_numbers_done (self c) ≠ serial_numbers_todo) && (0 <? timeout) then
    match fuel with
    | O => (OutOfFuel, c)
    | S fuel' =>
        let c1 := if negb (unit_test (self c))
                  then on_world (sleep (_check_interval (self c))) c
                  else c in
        let timeout' := timeout - _check_interval (self c) in
        let c2 := on_world refresh c1 in
        let snapshot := issu ctl (refreshes (w c2)) in
        match for_each sns (mark_validated snapshot) c2 with
        | (Ret _, c3) => validate_loop fuel' ctl sns serial_numbers_todo timeout' c3
        | (Raise e, c3) => (Raise e, c3)
        | (OutOfFuel, c3) => (OutOfFuel, c3)
        end
    end
  else (Ret tt, c).

Definition _wait_for_image_validate_to_complete (fuel : nat) (ctl : remote)
  : M cfg unit :=
  modify (on_self (with_method_name "_wait_for_image_validate_to_complete")) ;;
  modify (on_self (with_done ∅)) ;;
  let* c := get in
  let timeout := _check_timeout (self c) in
  let* sns := serial_numbers in
  let serial_numbers_todo : gset string := list_to_set sns in
  validate_loop fuel ctl sns serial_numbers_todo timeout ;;
  let* c := get in
  if bool_decide (serial_numbers_done (self c) ≠ serial_numbers_todo)
  then raise (ValueError "Timed out waiting for image validation to complete. ")
  else ret tt.

(** The dict recorded per validated switch at the end of [commit()]. *)
Definition diff_entry (snapshot : string -> details) (sn : string) : dict :=
  [("action", PStr "validate");
   ("ip_address", PStr (ip_address (snapshot sn)));
   ("logical_name", PStr (device_name (snapshot sn)));
   ("policy", PStr (policy (snapshot sn)));
   ("serial_number", PStr sn)].

(** [self.diff = ...] is a setter defined outside this file; it is taken to
    record each assigned dict. *)
Definition record_diff (d : dict) (o : outputs) : outputs :=
  {| response_current := response_current o; result_current := result_current o;
     response := response o; result := result o;
     response_data := response_data o; properties := properties o;
     diff := diff o ++ [d] |}.

Definition commit (fuel : nat) (ctl : remote) : M cfg unit :=
  let* sns := serial_numbers in
  if (length sns =? 0)%nat then
    let msg := PStr "No serial numbers to validate." in
    modify (on_self (fun x => with_out
      {| response_current := [("response", msg)];
         result_current := [("success", PBool true)];
         response := [("response", msg)];
         result := [("success", PBool true)];
         response_data := PDict [("response", msg)];
         properties := properties (out x);
         diff := diff (out x) |} x))
  else
    prune_serial_numbers ctl ;;
    validate_serial_numbers ctl ;;
    _wait_for_current_actions_to_complete fuel ctl ;;
    build_payload ;;
    let* c := get in
    modify (on_self (with_rest_send
      {| rs_verb := Some ep_verb; rs_path := Some ep_path;
         rs_payload := Some (payload (self c));
         rs_check_mode := check_mode (self c) |})) ;;
    modify (on_world (send ep_verb ep_path)) ;;
    let reply := rest_reply ctl ep_verb ep_path in
    modify (on_self (fun x => with_out
      {| response_current := fst reply;
         result_current := snd reply;
         response := fst reply;
         result := snd reply;
         response_data := match dict_get "DATA" (fst reply) with
                          | Some v => v
                          | None => PStr "No Stage DATA"
                          end;
         properties := properties (out x);
         diff := diff (out x) |} x)) ;;
    match dict_get "success" (snd reply) with
    | None => raise (KeyError "success")
    | Some ok =>
        if negb (truthy ok) then raise (ValueError "failed: ")
        else
          modify (on_self (fun x => with_out
            {| response_current := response_current (out x);
               result_current := result_current (out x);
               response := response (out x);
               result := result (out x);
               response_data := response_data (out x);
               properties := ("response_data", PDict (response (out x)))
                               :: List.filter (fun kv => negb (String.eqb (fst kv) "response_data"))
                                    (properties (out x));
               diff := diff (out x) |} x)) ;;
          _wait_for_image_validate_to_complete fuel ctl ;;
          let* c := get in
          let snapshot := issu ctl (refreshes (w c)) in
          for_each (elements (serial_numbers_done (self c))) (fun sn =>
            modify (on_self (fun x => with_out (record_diff (diff_entry snapshot sn) (out x)) x)))
    end.

End ImageValidate.

(** ** config_save.py *)

Module FabricConfigSave.

(** The [RestSend] object: the request it is handed before [commit()]. *)
Record rest_send_t : Type := {
  rs_path : option string;
  rs_verb : option string;
  rs_payload : option dict
}.

(** The [Results] object: the attributes this class assigns, and what
    [register_task_result()] was called with so far. *)
Record results_t : Type := {
  diff_current : dict;
  r_action : string;
  r_check_mode : pyval;
  r_state : pyval;
  response_current : dict;
  result_current : dict;
  registered : list (dict * dict * dict)
}.

(** Values assigned to the [rest_send] and [results] properties: an
    instance of one of the two classes, or any other value. *)
Inductive object : Type :=
| RestSend (r : rest_send_t)
| Results (r : results_t)
| Other (v : pyval).

(** [self._properties] *)
Record properties_t : Type := {
  p_fabric_name : option pyval;
  p_payload : option dict;
  p_rest_send : option rest_send_t;
  p_results : option results_t
}.

Record t : Type := {
  action : string;
  cannot_save_fabric_reason : string;
  config_save_failed : bool;
  fabric_can_be_saved : bool;
  check_mode : pyval;
  state : pyval;
  config_save_result : list (pyval * pyval);
  path : option string;
  verb : option string;
  _properties : properties_t
}.

(** The instance and the requests sent so far. *)
Record cfg : Type := { self : t; events : list event }.

Definition _init_properties : properties_t :=
  {| p_fabric_name := None; p_payload := None; p_rest_send := None; p_results := None |}.

Definition __init__ (params : dict) : outcome t :=
  match dict_get "check_mode" params with
  | None | Some PNone => Raise (ValueError "params is missing mandatory check_mode parameter.")
  | Some cm =>
      match dict_get "state" params with
      | None | Some PNone => Raise (ValueError "params is missing mandatory state parameter.")
      | Some st =>
          Ret {| action := "config_save";
                 cannot_save_fabric_reason := "";
                 config_save_failed := false;
                 fabric_can_be_saved := false;
                 check_mode := cm;
                 state := st;
                 config_save_result := [];
                 path := None;
                 verb := None;
                 _properties := _init_properties |}
      end
  end.

Definition with_properties (p : properties_t) (x : t) : t :=
  {| action := action x; cannot_save_fabric_reason := cannot_save_fabric_reason x;
     config_save_failed := config_save_failed x; fabric_can_be_saved := fabric_can_be_saved x;
     check_mode := check_mode x; state := state x;
     config_save_result := config_save_result x;
     path := path x; verb := verb x; _properties := p |}.

Definition with_can_save (reason : string) (failed can : bool) (x : t) : t :=
  {| action := action x; cannot_save_fabric_reason := reason;
     config_save_failed := failed; fabric_can_be_saved := can;
     check_mode := check_mode x; state := state x;
     config_save_result := config_save_result x;
     path := path x; verb := verb x; _properties := _properties x |}.

Definition with_endpoint (pa ve : option string) (x : t) : t :=
  {| action := action x; cannot_save_fabric_reason := cannot_save_fabric_reason x;
     config_save_failed := config_save_failed x; fabric_can_be_saved := fabric_can_be_saved x;
     check_mode := check_mode x; state := state x;
     config_save_result := config_save_result x;
     path := pa; verb := ve; _properties := _properties x |}.

Definition with_config_save_result (r : list (pyval * pyval)) (x : t) : t :=
  {| action := action x; cannot_save_fabric_reason := cannot_save_fabric_reason x;
     config_save_failed := config_save_failed x; fabric_can_be_saved := fabric_can_be_saved x;
     check_mode := check_mode x; state := state x;
     config_save_result := r;
     path := path x; verb := verb x; _properties := _properties x |}.

Definition on_self (f : t -> t) (c : cfg) : cfg := {| self := f (self c); events := events c |}.

(** [validate_fabric_name] of [ConversionUtils], which is outside the
    sources; taken to be the method of the same name and contract in
    fabric/endpoints.py: a [str] that fully matches
    [[a-zA-Z]+[a-zA-Z0-9_-]*]. *)
Definition is_letter (c : ascii) : bool :=
  let n := nat_of_ascii c in
  ((65 <=? n) && (n <=? 90) || (97 <=? n) && (n <=? 122))%nat.

Definition is_name_char (c : ascii) : bool :=
  let n := nat_of_ascii c in
  (is_letter c || (48 <=? n) && (n <=? 57) || (n =? 95) || (n =? 45))%nat.

Definition validate_fabric_name (value : pyval) : outcome unit :=
  match value with
  | PStr (String c rest) =>
      if is_letter c && forallb is_name_char (list_ascii_of_string rest)
      then Ret tt
      else Raise (ValueError "Invalid fabric name: ")
  | PStr EmptyString => Raise (ValueError "Invalid fabric name: ")
  | _ => Raise (TypeError "Invalid fabric name. Expected string. ")
  end.

(** *** Property setters *)

Definition fabric_name_setter (value : pyval) : M t unit :=
  match validate_fabric_name value with
  | Ret _ =>
      modify (fun x => with_properties
        {| p_fabric_name := Some value; p_payload := p_payload (_properties x);
           p_rest_send := p_rest_send (_properties x);
           p_results := p_results (_properties x) |} x)
  | Raise (TypeError msg) | Raise (ValueError msg) => raise (ValueError msg)
  | Raise e => raise e
  | OutOfFuel => out_of_fuel
  end.

Definition payload_setter (value : pyval) : M t unit :=
  match value with
  | PDict d =>
      match dict_get "FABRIC_NAME" d with
      | None | Some PNone => raise (ValueError "payload is missing FABRIC_NAME.")
      | Some name =>
          fabric_name_setter name ;;
          modify (fun x => with_properties
            {| p_fabric_name := p_fabric_name (_properties x); p_payload := Some d;
               p_rest_send := p_rest_send (_properties x);
               p_results := p_results (_properties x) |} x)
      end
  | _ => raise (ValueError "must be a dictionary. ")
  end.

Definition rest_send_setter (value : object) : M t unit :=
  match value with
  | RestSend r =>
      modify (fun x => with_properties
        {| p_fabric_name := p_fabric_name (_properties x); p_payload := p_payload (_properties x);
           p_rest_send := Some r;
           p_results := p_results (_properties x) |} x)
  | _ => raise (TypeError "value must be an instance of RestSend. ")
  end.

Definition results_setter (value : object) : M t unit :=
  match value with
  | Results r =>
      modify (fun x => with_properties
        {| p_fabric_name := p_fabric_name (_properties x); p_payload := p_payload (_properties x);
           p_rest_send := p_rest_send (_properties x);
           p_results := Some r |} x)
  | _ => raise (TypeError "value must be an instance of Results. ")
  end.

(** *** Methods *)

Definition _can_fabric_be_saved (payload : dict) : M cfg unit :=
  match dict_get "DEPLOY" payload with
  | None | Some PNone | Some (PBool false) =>
      modify (on_self (with_can_save "DEPLOY is False or None. Skipping config-save." false false))
  | Some _ =>
      modify (on_self (fun x => with_can_save (cannot_save_fabric_reason x)
                                  (config_save_failed x) true x))
  end.

(** [self.results.<attributes> = ...; self.results.register_task_result()] *)
Definition report (diff response result : dict) (x : t) : t :=
  match p_results (_properties x) with
  | None => x
  | Some r =>
      with_properties
        {| p_fabric_name := p_fabric_name (_properties x);
           p_payload := p_payload (_properties x);
           p_rest_send := p_rest_send (_properties x);
           p_results := Some
             {| diff_current := diff;
                r_action := action x;
                r_check_mode := check_mode x;
                r_state := state x;
                response_current := response;
                result_current := result;
                registered := registered r ++ [(diff, response, result)] |} |} x
  end.

(** [EpFabricConfigSave], which is outside the sources: assigning
    [fabric_name] validates it, the path is the config-save path of
    fabric/endpoints.py, the verb is POST. *)
Definition ep_path (fabric_name : string) : string :=
  "/appcenter/cisco/ndfc/api/v1/rest/control/fabrics/" ++ fabric_name ++ "/config-save".

Definition ep_config_save (fabric_name : option pyval) : outcome (string * string) :=
  match fabric_name with
  | None => Raise (ValueError "Invalid fabric name. Expected string. ")
  | Some v =>
      match validate_fabric_name v, v with
      | Ret _, PStr name => Ret (ep_path name, "POST")
      | Raise (TypeError msg), _ | Raise (ValueError msg), _ => Raise (ValueError msg)
      | _, _ => Raise (ValueError "Invalid fabric name: ")
      end
  end.

(** [rest_reply path verb]: the pair ([response_current],
    [result_current]) that [RestSend.commit()] leaves for a request. *)
Definition commit (rest_reply : string -> string -> dict * dict) : M cfg unit :=
  let* c := get in
  match p_payload (_properties (self c)) with
  | None => raise (ValueError "payload must be set before calling commit.")
  | Some payload =>
  match p_rest_send (_properties (self c)) with
  | None => raise (ValueError "rest_send must be set before calling commit.")
  | Some _ =>
  match p_results (_properties (self c)) with
  | None => raise (ValueError "results must be set before calling commit.")
  | Some _ =>
      _can_fabric_be_saved payload ;;
      let* c := get in
      if negb (fabric_can_be_saved (self c)) then
        modify (on_self (fun x =>
          report []
            [("RETURN_CODE", PInt 200); ("MESSAGE", PStr (cannot_save_fabric_reason x))]
            (if config_save_failed x
             then [("changed", PBool false); ("success", PBool false)]
             else [("changed", PBool true); ("success", PBool true)]) x))
      else
        match ep_config_save (p_fabric_name (_properties (self c))) with
        | Raise e => raise e
        | OutOfFuel => out_of_fuel
        | Ret (pa, ve) =>
            modify (on_self (with_endpoint (Some pa) (Some ve))) ;;
            modify (on_self (fun x => with_properties
              {| p_fabric_name := p_fabric_name (_properties x);
                 p_payload := p_payload (_properties x);
                 p_rest_send := Some {| rs_path := Some pa; rs_verb := Some ve;
                                        rs_payload := None |};
                 p_results := p_results (_properties x) |} x)) ;;
            modify (fun c => {| self := self c; events := events c ++ [EvSend ve pa] |}) ;;
            let reply := rest_reply pa ve in
            let name := match p_fabric_name (_properties (self c)) with
                        | Some v => v
                        | None => PNone
                        end in
            match dict_get "success" (snd reply) with
            | None => raise (KeyError "success")
            | Some ok =>
                modify (on_self (fun x => with_config_save_result
                  ((name, ok) :: List.filter
                     (fun kv => negb (match fst kv, name with
                                      | PStr a, PStr b => String.eqb a b
                                      | _, _ => false
                                      end))
                     (config_save_result x)) x)) ;;
                modify (on_self
                  (report
                     (match ok with
                      | PBool false => []
                      | _ => [("FABRIC_NAME", name); ("config_save", PStr "OK")]
                      end)
                     (fst reply) (snd reply)))
            end
        end
  end end end.

End FabricConfigSave.

(** ** verify_playbook_params.py *)

Module VerifyPlaybookParams.

(** The properties read by [update_decision_set]; [None] is a property that
    was never assigned.  [fabric_defaults] is the table behind
    [self._fabric_defaults.parameter(...)], which raises [KeyError] for a
    parameter without a default. *)
Record t : Type := {
  config_controller : option dict;
  config_playbook : option dict;
  fabric_defaults : dict
}.

(** Python's [eval] of ["param_value <op> rule_value"], whose result
    [eval_parameter_rule] declares to be a [bool]: given the operator, the
    two operands, what the evaluation yields. *)
Definition evaluator : Type := pyval -> pyval -> pyval -> outcome bool.

(** [parameter in d] *)
Definition dict_has (key : string) (d : dict) : bool :=
  match dict_get key d with Some _ => true | None => false end.

Definition make_boolean (value : pyval) : pyval :=
  match value with
  | PStr s =>
      if existsb (String.eqb (lower s)) ["true"; "yes"] then PBool true
      else if existsb (String.eqb (lower s)) ["false"; "no"] then PBool false
      else value
  | _ => value
  end.

Definition eval_parameter_rule (py_eval : evaluator) (parameter : string)
    (param_value : pyval) (rule : dict) : outcome bool :=
  match dict_get "op" rule with
  | None | Some PNone => Raise (ValueError "op not found in parameter rule")
  | Some rule_operator =>
      match dict_get "value" rule with
      | None | Some PNone => Raise (ValueError "value not found in parameter rule")
      | Some rule_value => py_eval rule_operator param_value rule_value
      end
  end.

(** [Some b] is the evaluated rule, [None] is Python's [None]. *)
Definition lift_result (o : outcome bool) : outcome (option bool) :=
  match o with
  | Ret b => Ret (Some b)
  | Raise e => Raise e
  | OutOfFuel => OutOfFuel
  end.

Definition controller_param_is_valid (py_eval : evaluator) (self : t)
    (parameter : string) (rule : dict) : outcome (option bool) :=
  match config_controller self with
  | None => Raise (TypeError "argument of type 'NoneType' is not iterable")
  | Some [] => Ret None
  | Some cc =>
      match dict_get parameter cc with
      | None => Ret None
      | Some v => lift_result (eval_parameter_rule py_eval parameter (make_boolean v) rule)
      end
  end.

Definition playbook_param_is_valid (py_eval : evaluator) (self : t)
    (parameter : string) (rule : dict) : outcome (option bool) :=
  match config_playbook self with
  | None => Raise (TypeError "argument of type 'NoneType' is not iterable")
  | Some cp =>
      match dict_get parameter cp with
      | None => Ret None
      | Some v => lift_result (eval_parameter_rule py_eval parameter (make_boolean v) rule)
      end
  end.

Definition default_param_is_valid (py_eval : evaluator) (self : t)
    (parameter : string) (rule : dict) : outcome (option bool) :=
  match config_playbook self with
  | None => Raise (TypeError "argument of type 'NoneType' is not iterable")
  | Some cp =>
      if dict_has parameter cp then Ret None
      else
        match config_controller self with
        | None => Raise (TypeError "argument of type 'NoneType' is not iterable")
        | Some cc =>
            if dict_has parameter cc then Ret None
            else match dict_get parameter (fabric_defaults self) with
                 | None => Ret None
                 | Some default_value =>
                     lift_result (eval_parameter_rule py_eval parameter default_value rule)
                 end
        end
  end.

(** [decision_set.add(x)] when [x is not None]. *)
Definition add_decision (x : option bool) (decision_set : gset bool) : gset bool :=
  match x with
  | Some b => decision_set ∪ {[b]}
  | None => decision_set
  end.

(** [not playbook_is_valid]: [None] and [False] are both falsy. *)
Definition not_valid (x : option bool) : bool :=
  match x with
  | Some true => false
  | _ => true
  end.

Definition update_decision_set (py_eval : evaluator) (self : t)
    (dependent_param : string) (rule : dict) : outcome (gset bool) :=
  match controller_param_is_valid py_eval self dependent_param rule with
  | Raise e => Raise e
  | OutOfFuel => OutOfFuel
  | Ret controller_is_valid =>
  match playbook_param_is_valid py_eval self dependent_param rule with
  | Raise e => Raise e
  | OutOfFuel => OutOfFuel
  | Ret playbook_is_valid =>
  match default_param_is_valid py_eval self dependent_param rule with
  | Raise e => Raise e
  | OutOfFuel => OutOfFuel
  | Ret default_is_valid =>
      let decision_set :=
        add_decision playbook_is_valid
          (add_decision default_is_valid
             (add_decision controller_is_valid ∅)) in
      if not_valid playbook_is_valid then Ret {[false]} else Ret decision_set
  end end end.

End VerifyPlaybookParams.

(** ** dcnm_networkv2.py *)

Module DcnmNetworkv2.

(** *** What the controller sends back *)

(** One entry of a [lanAttachList] in the attachment query: the keys read
    by [get_have] and [wait_for_del_ready]. *)
Record attachment : Type := {
  isLanAttached : pyval;
  lanAttachState : string;
  switchSerialNo : string;
  networkName : string
}.

(** One entry of the attachment query's [DATA]. *)
Record net_attach : Type := {
  na_networkName : string;
  lanAttachList : list attachment
}.

(** The [DATA] of a response: nothing, a plain value (the VLAN id of the
    resource manager), the attachment list of a query, or the dict of
    per-attachment status texts of an attach request. *)
Inductive data : Type :=
| DataNone
| DataValue (v : pyval)
| DataAttach (l : list net_attach)
| DataDict (kv : list (string * string)).

(** A response of [dcnm_send].  [text] is [str(res.values())], the
    rendering [handle_response] searches. *)
Record response : Type := {
  RETURN_CODE : Z;
  MESSAGE : string;
  ERROR : option string;
  DATA : data;
  text : string
}.

(** The [op] argument of [handle_response]. *)
Inductive op : Type := query_dcnm | create | attach | deploy | delete.

Definition op_eqb (a b : op) : bool :=
  match a, b with
  | query_dcnm, query_dcnm | create, create | attach, attach
  | deploy, deploy | delete, delete => true
  | _, _ => false
  end.

(** [handle_response(resp, op)] returns the pair [(fail, changed)]; for
    [query_dcnm] the pair is [(missing_fabric, not_ok)]. *)
Definition handle_response (res : response) (o : op) : bool * bool :=
  if op_eqb o query_dcnm then
    if bool_decide (ERROR res = Some "Not Found") && (RETURN_CODE res =? 404) then (true, false)
    else if negb (RETURN_CODE res =? 200) || negb (String.eqb (MESSAGE res) "OK") then (false, true)
    else (false, false)
  else if negb (String.eqb (MESSAGE res) "OK") || negb (RETURN_CODE res =? 200) then (true, false)
  else
    let '(fail, changed) := (false, true) in
    let '(fail, changed) :=
      match ERROR res with
      | Some e => if negb (String.eqb e "") then (true, false) else (fail, changed)
      | None => (fail, changed)
      end in
    let '(fail, changed) :=
      if op_eqb o attach && contains "is in use already" (text res)
      then (true, false) else (fail, changed) in
    let '(fail, changed) :=
      if op_eqb o attach && contains "Invalid interfaces" (text res)
      then (true, true) else (fail, changed) in
    let changed :=
      if op_eqb o deploy && contains "No switches PENDING for deployment" (text res)
      then false else changed in
    (fail, changed).

(** *** get_have: which attachments count as deployed *)

(** Lines 778-786: [deployed] is [False] when [isLanAttached] is falsy or
    the state is one of the three transitional ones. *)
Definition deployed (a : attachment) : bool :=
  if negb (truthy (isLanAttached a))
     || String.eqb (lanAttachState a) "OUT-OF-SYNC"
     || String.eqb (lanAttachState a) "PENDING"
     || String.eqb (lanAttachState a) "FAILED"
  then false
  else true.

(** Lines 788-792: a deployed attachment's network is appended to the list
    kept under its switch serial number; a missing or empty entry is
    replaced by a one-element list. *)
Definition record_deploy (have_deploy : gmap string (list string)) (a : attachment)
  : gmap string (list string) :=
  if deployed a then
    match have_deploy !! switchSerialNo a with
    | Some (n :: ns) => <[switchSerialNo a := ((n :: ns) ++ [networkName a])%list]> have_deploy
    | _ => <[switchSerialNo a := [networkName a]]> have_deploy
    end
  else have_deploy.

(** The loop over [net_attach_objects["DATA"]] of [get_have], as far as
    [have_deploy] goes: an entry without attachments is skipped.  The rest
    of the loop body rewrites the attachment dicts for [have_attach] and
    does not touch [have_deploy]. *)
Definition get_have_deploy (DATA_ : list net_attach) : gmap string (list string) :=
  foldl (fun have_deploy na =>
           match lanAttachList na with
           | [] => have_deploy
           | attach_list => foldl record_deploy have_deploy attach_list
           end) ∅ DATA_.

(** *** The diff collections and the module state *)

(** A create or update payload: its name and the [vlanId] of its
    [networkTemplateConfig] ([""] when absent). *)
Record net : Type := {
  net_name : string;
  vlanId : pyval
}.

(** One switch of an attach or detach payload. *)
Record node : Type := {
  serialNumber : string;
  node_fabric : string;
  d_key : option string
}.

Record attach_payload : Type := {
  ap_networkName : string;
  ap_lanAttachList : list node
}.

(** A value of [diff_deploy] / [diff_undeploy]: the list of network names
    built by the diff, or the string it is replaced with before sending. *)
Inductive names : Type :=
| Names (l : list string)
| Joined (s : string).

(** An element of [result["response"]]: a response, or the [""] that
    [push_to_remote_delete] starts from. *)
Inductive logged : Type :=
| Logged (r : response)
| NoResponse.

Record t : Type := {
  fabric : string;
  is_ms_fabric : bool;
  sn_fab : gmap string string;
  diff_create : list net;
  diff_create_update : list net;
  diff_create_quick : list net;
  diff_attach : list attach_payload;
  diff_detach : list attach_payload;
  diff_deploy : gmap string names;
  diff_undeploy : gmap string names;
  diff_delete : list (string * string);
  result_changed : bool;
  result_response : list logged;
  failed_to_rollback : bool
}.

(** The sub-method of [push_to_remote] that issued a request. *)
Inductive layer : Type :=
| L_update | L_detach | L_undeploy | L_delete | L_create | L_attach | L_deploy.

(** What the module does to the outside world. *)
Inductive action : Type :=
| Send (by_ : layer) (method path : string)
| Sleep (seconds : Z).

(** The module state, the actions so far (oldest first) and the number of
    requests among them. *)
Record cfg : Type := { self : t; trace : list action; calls : nat }.

(** The controller: the response to the [n]-th request (from 0). *)
Definition controller : Type := nat -> string -> string -> response.

Definition on_self (f : t -> t) (c : cfg) : cfg :=
  {| self := f (self c); trace := trace c; calls := calls c |}.

Definition dcnm_send (ctl : controller) (by_ : layer) (method path : string)
  : M cfg response :=
  fun c => (Ret (ctl (calls c) method path),
            {| self := self c; trace := trace c ++ [Send by_ method path];
               calls := S (calls c) |}).

Definition sleep (seconds : Z) : M cfg unit :=
  modify (fun c => {| self := self c; trace := trace c ++ [Sleep seconds];
                      calls := calls c |}).

(** *** Assignments to attributes of [self] *)

Definition set_diff_create (v : list net) (x : t) : t :=
  {| fabric := fabric x;
     is_ms_fabric := is_ms_fabric x;
     sn_fab := sn_fab x;
     diff_create := v;
     diff_create_update := diff_create_update x;
     diff_create_quick := diff_create_quick x;
     diff_attach := diff_attach x;
     diff_detach := diff_detach x;
     diff_deploy := diff_deploy x;
     diff_undeploy := diff_undeploy x;
     diff_delete := diff_delete x;
     result_changed := result_changed x;
     result_response := result_response x;
     failed_to_rollback := failed_to_rollback x |}.

Definition set_diff_attach (v : list attach_payload) (x : t) : t :=
  {| fabric := fabric x;
     is_ms_fabric := is_ms_fabric x;
     sn_fab := sn_fab x;
     diff_create := diff_create x;
     diff_create_update := diff_create_update x;
     diff_create_quick := diff_create_quick x;
     diff_attach := v;
     diff_detach := diff_detach x;
     diff_deploy := diff_deploy x;
     diff_undeploy := diff_undeploy x;
     diff_delete := diff_delete x;
     result_changed := result_changed x;
     result_response := result_response x;
     failed_to_rollback := failed_to_rollback x |}.

Definition set_diff_detach (v : list attach_payload) (x : t) : t :=
  {| fabric := fabric x;
     is_ms_fabric := is_ms_fabric x;
     sn_fab := sn_fab x;
     diff_create := diff_create x;
     diff_create_update := diff_create_update x;
     diff_create_quick := diff_create_quick x;
     diff_attach := diff_attach x;
     diff_detach := v;
     diff_deploy := diff_deploy x;
     diff_undeploy := diff_undeploy x;
     diff_delete := diff_delete x;
     result_changed := result_changed x;
     result_response := result_response x;
     failed_to_rollback := failed_to_rollback x |}.

Definition set_diff_deploy (v : gmap string names) (x : t) : t :=
  {| fabric := fabric x;
     is_ms_fabric := is_ms_fabric x;
     sn_fab := sn_fab x;
     diff_create := diff_create x;
     diff_create_update := diff_create_update x;
     diff_create_quick := diff_create_quick x;
     diff_attach := diff_attach x;
     diff_detach := diff_detach x;
     diff_deploy := v;
     diff_undeploy := diff_undeploy x;
     diff_delete := diff_delete x;
     result_changed := result_changed x;
     result_response := result_response x;
     failed_to_rollback := failed_to_rollback x |}.

Definition set_diff_undeploy (v : gmap string names) (x : t) : t :=
  {| fabric := fabric x;
     is_ms_fabric := is_ms_fabric x;
     sn_fab := sn_fab x;
     diff_create := diff_create x;
     diff_create_update := diff_create_update x;
     diff_create_quick := diff_create_quick x;
     diff_attach := diff_attach x;
     diff_detach := diff_detach x;
     diff_deploy := diff_deploy x;
     diff_undeploy := v;
     diff_delete := diff_delete x;
     result_changed := result_changed x;
     result_response := result_response x;
     failed_to_rollback := failed_to_rollback x |}.

Definition set_diff_delete (v : list (string * string)) (x : t) : t :=
  {| fabric := fabric x;
     is_ms_fabric := is_ms_fabric x;
     sn_fab := sn_fab x;
     diff_create := diff_create x;
     diff_create_update := diff_create_update x;
     diff_create_quick := diff_create_quick x;
     diff_attach := diff_attach x;
     diff_detach := diff_detach x;
     diff_deploy := diff_deploy x;
     diff_undeploy := diff_undeploy x;
     diff_delete := v;
     result_changed := result_changed x;
     result_response := result_response x;
     failed_to_rollback := failed_to_rollback x |}.

Definition set_changed (v : bool) (x : t) : t :=
  {| fabric := fabric x;
     is_ms_fabric := is_ms_fabric x;
     sn_fab := sn_fab x;
     diff_create := diff_create x;
     diff_create_update := diff_create_update x;
     diff_create_quick := diff_create_quick x;
     diff_attach := diff_attach x;
     diff_detach := diff_detach x;
     diff_deploy := diff_deploy x;
     diff_undeploy := diff_undeploy x;
     diff_delete := diff_delete x;
     result_changed := v;
     result_response := result_response x;
     failed_to_rollback := failed_to_rollback x |}.

Definition append_response (v : logged) (x : t) : t :=
  {| fabric := fabric x;
     is_ms_fabric := is_ms_fabric x;
     sn_fab := sn_fab x;
     diff_create := diff_create x;
     diff_create_update := diff_create_update x;
     diff_create_quick := diff_create_quick x;
     diff_attach := diff_attach x;
     diff_detach := diff_detach x;
     diff_deploy := diff_deploy x;
     diff_undeploy := diff_undeploy x;
     diff_delete := diff_delete x;
     result_changed := result_changed x;
     result_response := (result_response x ++ [v])%list;
     failed_to_rollback := failed_to_rollback x |}.

Definition set_failed_to_rollback (v : bool) (x : t) : t :=
  {| fabric := fabric x;
     is_ms_fabric := is_ms_fabric x;
     sn_fab := sn_fab x;
     diff_create := diff_create x;
     diff_create_update := diff_create_update x;
     diff_create_quick := diff_create_quick x;
     diff_attach := diff_attach x;
     diff_detach := diff_detach x;
     diff_deploy := diff_deploy x;
     diff_undeploy := diff_undeploy x;
     diff_delete := diff_delete x;
     result_changed := result_changed x;
     result_response := result_response x;
     failed_to_rollback := v |}.

(** *** Paths *)

Definition GET_NET (fabric_ : string) : string :=
  ("/appcenter/cisco/ndfc/api/v1/lan-fabric/rest/top-down/fabrics/" ++ fabric_
   ++ "/networks")%string.

Definition GET_NET_ATTACH (fabric_ networks : string) : string :=
  ("/appcenter/cisco/ndfc/api/v1/lan-fabric/rest/top-down/fabrics/" ++ fabric_
   ++ "/networks/attachments?network-names=" ++ networks)%string.

Definition GET_VLAN (fabric_ : string) : string :=
  ("/appcenter/cisco/ndfc/api/v1/lan-fabric/rest/resource-manager/vlan/" ++ fabric_
   ++ "?vlanUsageType=TOP_DOWN_NETWORK_VLAN")%string.

Definition deploy_path : string :=
  "/appcenter/cisco/ndfc/api/v1/lan-fabric/rest/top-down/networks/deploy".

(** *** Helpers *)

(** [sep.join(l)] *)
Fixpoint join (sep : string) (l : list string) : string :=
  match l with
  | [] => ""
  | [x] => x
  | x :: rest => (x ++ sep ++ join sep rest)%string
  end.

(** [",".join(value)]: over the names of a list, or over the characters of a
    string that was joined before. *)
Definition join_names (v : names) : names :=
  match v with
  | Names l => Joined (join "," l)
  | Joined str =>
      Joined (join "," (List.map (fun c => String c EmptyString) (list_ascii_of_string str)))
  end.

(** [d.update({key: value})] on a dict kept in insertion order. *)
Fixpoint dict_update (key value : string) (d : list (string * string))
  : list (string * string) :=
  match d with
  | [] => [(key, value)]
  | (k, v) :: rest =>
      if String.eqb k key then (k, value) :: rest
      else (k, v) :: dict_update key value rest
  end.

Fixpoint drop_chars (n : nat) (str : string) : string :=
  match n, str with
  | S n', String _ rest => drop_chars n' rest
  | _, _ => str
  end.

(** [needle] starts somewhere in [str] before the first line break. *)
Fixpoint on_line (needle str : string) : bool :=
  if String.prefix needle str then true
  else match str with
       | EmptyString => false
       | String c rest =>
           if Ascii.eqb c "010"%char then false else on_line needle rest
       end.

(** [re.search(r"Failed.*Please try after some time", str)] *)
Fixpoint retry_later (str : string) : bool :=
  (String.prefix "Failed" str && on_line "Please try after some time" (drop_chars 6 str))
  || match str with
     | EmptyString => false
     | String _ rest => retry_later rest
     end.

Definition failure (resp : logged) : M cfg unit := ret tt.

(** The lines that follow every handled response:
    [if fail: if is_rollback: self.failed_to_rollback = True; return;
    self.failure(resp)].  The result says whether the method returns. *)
Definition on_fail (fail is_rollback : bool) (resp : logged) : M cfg bool :=
  if fail then
    if is_rollback then modify (on_self (set_failed_to_rollback true)) ;; ret true
    else failure resp ;; ret false
  else ret false.

(** [self.result["response"].append(resp);
    fail, self.result["changed"] = self.handle_response(resp, op)] *)
Definition handle (resp : response) (o : op) : M cfg bool :=
  modify (on_self (append_response (Logged resp))) ;;
  let '(fail, changed) := handle_response resp o in
  modify (on_self (set_changed changed)) ;;
  ret fail.

(** [node["fabric"] = self.sn_fab[node["serialNumber"]]] for the nodes of
    one payload, in place: the nodes as the loop leaves them, and the
    [KeyError] that stopped it, if any. *)
Fixpoint update_ms_fabric_nodes (sn_fab_ : gmap string string) (l : list node)
  : list node * option exn :=
  match l with
  | [] => ([], None)
  | n :: rest =>
      match sn_fab_ !! serialNumber n with
      | Some f =>
          let '(rest', err) := update_ms_fabric_nodes sn_fab_ rest in
          ({| serialNumber := serialNumber n; node_fabric := f; d_key := d_key n |} :: rest',
           err)
      | None => (n :: rest, Some (KeyError (serialNumber n)))
      end
  end.

Fixpoint update_ms_fabric_list (sn_fab_ : gmap string string) (d : list attach_payload)
  : list attach_payload * option exn :=
  match d with
  | [] => ([], None)
  | a :: rest =>
      match update_ms_fabric_nodes sn_fab_ (ap_lanAttachList a) with
      | (l, Some e) =>
          ({| ap_networkName := ap_networkName a; ap_lanAttachList := l |} :: rest, Some e)
      | (l, None) =>
          let '(rest', err) := update_ms_fabric_list sn_fab_ rest in
          ({| ap_networkName := ap_networkName a; ap_lanAttachList := l |} :: rest', err)
      end
  end.

(** [update_ms_fabric(diff)]: the payloads of [diff] as the method leaves
    them, and the exception it raised, if any. *)
Definition update_ms_fabric (x : t) (d : list attach_payload)
  : list attach_payload * option exn :=
  if negb (is_ms_fabric x) then (d, None) else update_ms_fabric_list (sn_fab x) d.

(** [if v_a.get("d_key") is not None: del v_a["d_key"]] for every node. *)
Definition strip_d_key (d : list attach_payload) : list attach_payload :=
  List.map (fun a =>
    {| ap_networkName := ap_networkName a;
       ap_lanAttachList :=
         List.map (fun n => {| serialNumber := serialNumber n;
                               node_fabric := node_fabric n;
                               d_key := None |}) (ap_lanAttachList a) |}) d.

(** *** push_to_remote_update

    A payload is modelled by its name and its [vlanId]; that each method
    replaces a payload's [networkTemplateConfig] by its JSON text before
    sending it is not. *)

Fixpoint update_loop (ctl : controller) (path : string) (is_rollback : bool)
    (nets : list net) : M cfg unit :=
  match nets with
  | [] => ret tt
  | n :: rest =>
      let update_path := (path ++ "/" ++ net_name n)%string in
      let* resp := dcnm_send ctl L_update "PUT" update_path in
      let* fail := handle resp create in
      let* stop := on_fail fail is_rollback (Logged resp) in
      if stop then ret tt else update_loop ctl path is_rollback rest
  end.

Definition push_to_remote_update (ctl : controller) (path : string) (is_rollback : bool)
  : M cfg unit :=
  let* c := get in
  update_loop ctl path is_rollback (diff_create_update (self c)).

(** *** push_to_remote_detach *)

Definition push_to_remote_detach (ctl : controller) (path : string) (is_rollback : bool)
  : M cfg unit :=
  let detach_path := (path ++ "/attachments")%string in
  let* c := get in
  let '(d, err) := update_ms_fabric (self c) (diff_detach (self c)) in
  modify (on_self (set_diff_detach d)) ;;
  match err with
  | Some e => raise e
  | None =>
      modify (on_self (set_diff_detach (strip_d_key d))) ;;
      let* resp := dcnm_send ctl L_detach "POST" detach_path in
      let* fail := handle resp attach in
      let* stop := on_fail fail is_rollback (Logged resp) in
      if stop then ret tt else sleep 10
  end.

(** *** push_to_remote_undeploy *)

Definition push_to_remote_undeploy (ctl : controller) (is_rollback : bool) : M cfg unit :=
  modify (on_self (fun x => set_diff_undeploy (join_names <$> diff_undeploy x) x)) ;;
  let* resp := dcnm_send ctl L_undeploy "POST" deploy_path in
  let* fail := handle resp deploy in
  let* stop := on_fail fail is_rollback (Logged resp) in
  ret tt.

(** *** wait_for_del_ready and push_to_remote_delete *)

(** The [for atch in attach_list] of [wait_for_del_ready] at pass [iter]:
    the last value written to [self.diff_delete[net]], if any, and whether
    [state] was reset to [False] (a sleep of WAIT_TIME_FOR_DELETE_LOOP
    seconds then precedes the [break]). *)
Fixpoint scan_attach_list (iter : nat) (attach_list : list attachment)
  : option string * bool :=
  match attach_list with
  | [] => (None, false)
  | atch :: rest =>
      if String.eqb (lanAttachState atch) "OUT-OF-SYNC"
         || String.eqb (lanAttachState atch) "FAILED"
      then if (iter <? 10)%nat then (Some "DEPLOYED", true) else (Some "OUT-OF-SYNC", false)
      else if negb (String.eqb (lanAttachState atch) "NA") then (Some "DEPLOYED", true)
      else match scan_attach_list iter rest with
           | (None, again) => (Some "NA", again)
           | found => found
           end
  end.

Definition WAIT_TIME_FOR_DELETE_LOOP : Z := 5.

(** [resp["DATA"]] when truthy, then [resp["DATA"][0]["lanAttachList"]]. *)
Definition first_attach_list (d : data) : outcome (option (list attachment)) :=
  match d with
  | DataNone => Ret None
  | DataAttach [] => Ret None
  | DataAttach (na :: _) => Ret (Some (lanAttachList na))
  | DataValue v => if truthy v then Raise (TypeError "DATA is not subscriptable") else Ret None
  | DataDict [] => Ret None
  | DataDict _ => Raise (KeyError "0")
  end.

(** [while not state: ...] for one network; [iter] is the number of passes
    made so far. *)
Fixpoint del_ready_loop (fuel : nat) (ctl : controller) (network : string) (iter : nat)
  : M cfg unit :=
  match fuel with
  | O => out_of_fuel
  | S fuel' =>
      let* c := get in
      let path := GET_NET_ATTACH (fabric (self c)) network in
      let* resp := dcnm_send ctl L_delete "GET" path in
      let iter' := S iter in
      match first_attach_list (DATA resp) with
      | Raise e => raise e
      | OutOfFuel => out_of_fuel
      | Ret None => ret tt
      | Ret (Some attach_list) =>
          let '(written, again) := scan_attach_list iter' attach_list in
          (match written with
           | Some v => modify (on_self (fun x =>
                         set_diff_delete (dict_update network v (diff_delete x)) x))
           | None => ret tt
           end) ;;
          if again then
            sleep WAIT_TIME_FOR_DELETE_LOOP ;;
            del_ready_loop fuel' ctl network iter'
          else ret tt
      end
  end.

(** Returns [True] when [diff_delete] is non-empty, and [None] (falsy)
    otherwise. *)
Definition wait_for_del_ready (fuel : nat) (ctl : controller) : M cfg bool :=
  let* c := get in
  match diff_delete (self c) with
  | [] => ret false
  | items =>
      for_each (List.map fst items) (fun network => del_ready_loop fuel ctl network 0) ;;
      ret true
  end.

(** The [for net, state in self.diff_delete.items()] loop.  The result is
    whether the method returned from inside the loop, with the locals
    [del_failure] and [resp]. *)
Fixpoint delete_loop (ctl : controller) (path : string) (is_rollback : bool)
    (items : list (string * string)) (del_failure : string) (resp : logged)
  : M cfg (bool * string * logged) :=
  match items with
  | [] => ret (false, del_failure, resp)
  | (network, state) :: rest =>
      if String.eqb state "OUT-OF-SYNC"
      then delete_loop ctl path is_rollback rest (del_failure ++ network ++ ",")%string resp
      else
        let delete_path := (path ++ "/" ++ network)%string in
        let* r := dcnm_send ctl L_delete "DELETE" delete_path in
        let* fail := handle r delete in
        let* stop := on_fail fail is_rollback (Logged r) in
        if stop then ret (true, del_failure, Logged r)
        else delete_loop ctl path is_rollback rest del_failure (Logged r)
  end.

Definition push_to_remote_delete (fuel : nat) (ctl : controller) (path : string)
    (is_rollback : bool) : M cfg unit :=
  let* ready := wait_for_del_ready fuel ctl in
  let* c := get in
  let* looped :=
    (if ready
     then delete_loop ctl path is_rollback (diff_delete (self c)) "" NoResponse
     else ret (false, "", NoResponse)) in
  let '(returned_early, del_failure, resp) := looped in
  if returned_early then ret tt
  else if negb (String.eqb del_failure "") then
    modify (on_self (append_response resp)) ;;
    if is_rollback then modify (on_self (set_failed_to_rollback true))
    else failure resp
  else ret tt.

(** *** push_to_remote_create *)

(** The value stored as [vlanId] from the VLAN query's [DATA]. *)
Definition data_value (d : data) : pyval :=
  match d with
  | DataValue v => v
  | _ => PNone
  end.

(** The loop over [self.diff_create]; [i] is the index of the next network,
    whose [vlanId] is filled in place when it is looked up. *)
Fixpoint create_loop (ctl : controller) (path : string) (is_rollback : bool)
    (nets : list net) (i : nat) : M cfg unit :=
  match nets with
  | [] => ret tt
  | n :: rest =>
      (if negb (truthy (vlanId n)) then
         let* c := get in
         let vlan_path := GET_VLAN (fabric (self c)) in
         let* vlan_data := dcnm_send ctl L_create "GET" vlan_path in
         if negb (RETURN_CODE vlan_data =? 200)
         then raise (FailJson "Failure getting autogenerated vlan_id")
         else modify (on_self (fun x =>
                set_diff_create
                  (<[i := {| net_name := net_name n;
                             vlanId := data_value (DATA vlan_data) |}]> (diff_create x)) x))
       else ret tt) ;;
      let* resp := dcnm_send ctl L_create "POST" path in
      let* fail := handle resp create in
      let* stop := on_fail fail is_rollback (Logged resp) in
      if stop then ret tt else create_loop ctl path is_rollback rest (S i)
  end.

Definition push_to_remote_create (ctl : controller) (path : string) (is_rollback : bool)
  : M cfg unit :=
  let* c := get in
  create_loop ctl path is_rollback (diff_create (self c)) 0.

(** *** push_to_remote_attach *)

(** [update_in_progress] for a response: some value of its [DATA] dict
    asks to try again later.  [None] when [DATA] has no [keys()]. *)
Definition update_in_progress (d : data) : option bool :=
  match d with
  | DataDict kv => Some (existsb (fun e => retry_later (snd e)) kv)
  | _ => None
  end.

(** [for attempt in range(0, 50)]: [attempts] passes are left.  The result
    is the last response and its [update_in_progress]. *)
Fixpoint attach_attempts (attempts : nat) (ctl : controller) (attach_path : string)
    (last : response * bool) : M cfg (response * bool) :=
  match attempts with
  | O => ret last
  | S attempts' =>
      let* resp := dcnm_send ctl L_attach "POST" attach_path in
      match update_in_progress (DATA resp) with
      | None => raise (AttributeError "keys")
      | Some true => sleep 1 ;; attach_attempts attempts' ctl attach_path (resp, true)
      | Some false => ret (resp, false)
      end
  end.

Definition no_response : response :=
  {| RETURN_CODE := 0; MESSAGE := ""; ERROR := None; DATA := DataNone; text := "" |}.

Definition push_to_remote_attach (ctl : controller) (path : string) (is_rollback : bool)
  : M cfg unit :=
  let attach_path := (path ++ "/attachments")%string in
  let* c := get in
  let '(d, err) := update_ms_fabric (self c) (diff_attach (self c)) in
  modify (on_self (set_diff_attach d)) ;;
  match err with
  | Some e => raise e
  | None =>
      modify (on_self (set_diff_attach (strip_d_key d))) ;;
      let* last := attach_attempts 50 ctl attach_path (no_response, false) in
      let '(resp, in_progress) := last in
      let* fail := handle resp attach in
      let* stop := on_fail (fail || in_progress) is_rollback (Logged resp) in
      if stop then ret tt else sleep 10
  end.

(** *** push_to_remote_deploy *)

Definition push_to_remote_deploy (ctl : controller) (is_rollback : bool) : M cfg unit :=
  modify (on_self (fun x => set_diff_deploy (join_names <$> diff_deploy x) x)) ;;
  let* resp := dcnm_send ctl L_deploy "POST" deploy_path in
  let* fail := handle resp deploy in
  let* stop := on_fail fail is_rollback (Logged resp) in
  ret tt.

(** *** push_to_remote *)

(** [if self.diff_x:] for a list and for a dict. *)
Definition nonempty {A} (l : list A) : bool :=
  match l with [] => false | _ => true end.

Definition nonempty_map {A} (m : gmap string A) : bool := negb (size m =? 0)%nat.

(** [if cond(self): body] *)
Definition when (cond : t -> bool) (body : M cfg unit) : M cfg unit :=
  let* c := get in
  if cond (self c) then body else ret tt.

Definition push_to_remote (fuel : nat) (ctl : controller) (is_rollback : bool)
  : M cfg unit :=
  let* c := get in
  let path := GET_NET (fabric (self c)) in
  when (fun x => nonempty (diff_create_update x)) (push_to_remote_update ctl path is_rollback) ;;
  when (fun x => nonempty (diff_detach x)) (push_to_remote_detach ctl path is_rollback) ;;
  when (fun x => nonempty_map (diff_undeploy x)) (push_to_remote_undeploy ctl is_rollback) ;;
  when (fun x => nonempty (diff_delete x)) (push_to_remote_delete fuel ctl path is_rollback) ;;
  when (fun x => nonempty (diff_create x)) (push_to_remote_create ctl path is_rollback) ;;
  when (fun x => nonempty (diff_attach x)) (push_to_remote_attach ctl path is_rollback) ;;
  when (fun x => nonempty_map (diff_deploy x)) (push_to_remote_deploy ctl is_rollback).

(** *** main, from the diffs on *)

(** The condition of lines 1384-1393. *)
Definition any_diff (x : t) : bool :=
  nonempty (diff_create x)
  || nonempty (diff_create_quick x)
  || nonempty (diff_attach x)
  || nonempty_map (diff_deploy x)
  || nonempty (diff_delete x)
  || nonempty (diff_create_update x)
  || nonempty (diff_detach x)
  || nonempty_map (diff_undeploy x).

(** [main()] once the diff of the requested state is computed: set
    [result["changed"]] from the diffs, push, and hand [result] to
    [exit_json].  The value returned is the [changed] the module exits
    with. *)
Definition main (fuel : nat) (ctl : controller) : M cfg bool :=
  modify (on_self (fun x => set_changed (any_diff x) x)) ;;
  push_to_remote fuel ctl false ;;
  let* c := get in
  ret (result_changed (self c)).

End DcnmNetworkv2.

(** * Vocabulary of the statements and example inputs *)

Module Vocabulary.

Import DcnmNetworkv2.

(** The attachments of [sn] that count as deployed, and their networks. *)
Definition deployed_on (sn : string) (a : attachment) : bool :=
  deployed a && String.eqb (switchSerialNo a) sn.

Definition networks_of (sn : string) (l : list attachment) : list string :=
  List.map networkName (List.filter (deployed_on sn) l).

(** The number of passes a wait loop can make before [timeout] is used up:
    the least [n] with [timeout - n * interval <= 0], for a positive
    interval. *)
Definition polls_allowed (interval timeout : Z) : nat :=
  Z.to_nat ((timeout + interval - 1) / interval).

(** [item] is reported idle by one of the [n] polls that follow the first
    [start] ones. *)
Definition idle_within (ctl : SwitchIssuDetails.controller) (start n : nat)
    (item : string) : Prop :=
  exists k, (1 <= k <= n)%nat /\ actions_in_progress (ctl (start + k)%nat item) = false.

(** The place of a layer in the push order. *)
Definition layer_rank (l : layer) : nat :=
  match l with
  | L_update => 0
  | L_detach => 1
  | L_undeploy => 2
  | L_delete => 3
  | L_create => 4
  | L_attach => 5
  | L_deploy => 6
  end.

(** The diff collection of a layer is non-empty. *)
Definition pending (l : layer) (x : t) : bool :=
  match l with
  | L_update => nonempty (diff_create_update x)
  | L_detach => nonempty (diff_detach x)
  | L_undeploy => nonempty_map (diff_undeploy x)
  | L_delete => nonempty (diff_delete x)
  | L_create => nonempty (diff_create x)
  | L_attach => nonempty (diff_attach x)
  | L_deploy => nonempty_map (diff_deploy x)
  end.

(** An action that is no request of another layer. *)
Definition by_layer (l : layer) (a : action) : Prop :=
  match a with
  | Send l' _ _ => l' = l
  | Sleep _ => True
  end.

(** The requests of [tr] come in non-decreasing layer rank, none below
    [k]. *)
Fixpoint ordered_from (k : nat) (tr : list action) : Prop :=
  match tr with
  | [] => True
  | Sleep _ :: rest => ordered_from k rest
  | Send l _ _ :: rest => (k <= layer_rank l)%nat /\ ordered_from (layer_rank l) rest
  end.

(** The requests of [tr] have ranks below [hi]. *)
Definition ranks_below (hi : nat) (tr : list action) : Prop :=
  Forall (fun a => match a with
                   | Send l _ _ => (layer_rank l < hi)%nat
                   | Sleep _ => True
                   end) tr.

(** A response that [handle_response] takes for a plain success. *)
Definition clean (r : response) : Prop :=
  RETURN_CODE r = 200 /\ MESSAGE r = "OK"
  /\ (ERROR r = None \/ ERROR r = Some "")
  /\ contains "is in use already" (text r) = false
  /\ contains "Invalid interfaces" (text r) = false
  /\ contains "No switches PENDING for deployment" (text r) = false.

(** From [c] to [c'] the trace grew by actions of layer [l] only, and the
    diff collections of the other layers are as empty or non-empty as they
    were. *)
Definition emits (l : layer) (c c' : cfg) : Prop :=
  exists tr,
    trace c' = (trace c ++ tr)%list
    /\ Forall (by_layer l) tr
    /\ forall l', l' <> l -> pending l' (self c') = pending l' (self c).

(** From [c] to [c'] a [changed] that was [True] stayed [True]. *)
Definition keeps_changed (c c' : cfg) : Prop :=
  result_changed (self c) = true -> result_changed (self c') = true.

(** When the diff of layer [l] is non-empty and [m] returns, the first
    thing [m] did to the world was a request of layer [l]. *)
Definition sends_on_return (l : layer) (m : M cfg unit) : Prop :=
  forall c,
    pending l (self c) = true -> fst (m c) = Ret tt ->
    exists method path tr, trace (snd (m c)) = (trace c ++ Send l method path :: tr)%list.

(** [m] runs the layers of rank [lo] to [hi - 1]: what it adds to the trace
    are requests of these layers, in rank order and only for non-empty
    diffs; it leaves the emptiness of the later layers' diffs alone; and
    when it returns, every one of these layers with a non-empty diff has
    sent a request. *)
Definition runs (lo hi : nat) (m : M cfg unit) : Prop :=
  forall c, exists tr,
    trace (snd (m c)) = (trace c ++ tr)%list
    /\ Forall (fun a => match a with
                        | Send l _ _ =>
                            (lo <= layer_rank l < hi)%nat /\ pending l (self c) = true
                        | Sleep _ => True
                        end) tr
    /\ ordered_from lo tr
    /\ (forall l, (hi <= layer_rank l)%nat ->
          pending l (self (snd (m c))) = pending l (self c))
    /\ (fst (m c) = Ret tt ->
        forall l, (lo <= layer_rank l < hi)%nat -> pending l (self c) = true ->
                  exists method path, Send l method path ∈ tr).

(** Every run of [m] relates the state it starts from to the state it
    leaves, however it ends. *)
Definition respects (R : cfg -> cfg -> Prop) {A} (m : M cfg A) : Prop :=
  forall c, R c (snd (m c)).

End Vocabulary.

Import Vocabulary.

Module Examples.

(** Switch details with a given progress flag and validation status. *)
Definition switch (busy : bool) (status : string) (sn : string) : details :=
  {| actions_in_progress := busy; validated := status; validated_percent := 0;
     serial_number := sn; ip_address := "192.0.2.1"; device_name := "leaf1";
     policy := "KR5M" |}.

(** A controller on which every switch stays busy, and one on which every
    switch is idle from the first poll on. *)
Definition always_busy : controller := fun _ sn => switch true "" sn.

Definition always_idle : controller := fun _ sn => switch false "Success" sn.

(** A controller on which every switch is idle and not yet validated for
    the first three polls, and validated from the fourth on. *)
Definition validates_later : controller :=
  fun k sn => if (k <=? 3)%nat then switch false "" sn else switch false "Success" sn.

(** A fresh [WaitForControllerDone] whose [items] alone was assigned. *)
Definition waiter_items_only : WaitForControllerDone.cfg :=
  {| WaitForControllerDone.self :=
       snd (WaitForControllerDone.items_setter (PSet ∅) WaitForControllerDone.__init__);
     WaitForControllerDone.w := world0 |}.

(** The same with [item_type] and [rest_send] assigned as well. *)
Definition waiter_no_items : WaitForControllerDone.cfg :=
  {| WaitForControllerDone.self :=
       snd (WaitForControllerDone.rest_send_setter
              {| WaitForControllerDone.unit_test := false |}
              (snd (WaitForControllerDone.item_type_setter "serial_number"
                      (snd (WaitForControllerDone.items_setter (PSet ∅)
                              WaitForControllerDone.__init__)))));
     WaitForControllerDone.w := world0 |}.

(** A fresh [WaitForControllerDone] on which nothing was assigned. *)
Definition waiter_fresh : WaitForControllerDone.cfg :=
  {| WaitForControllerDone.self := WaitForControllerDone.__init__;
     WaitForControllerDone.w := world0 |}.

(** A [WaitForControllerDone] configured through its setters. *)
Definition waiter (items : gset string) (interval timeout : Z) : WaitForControllerDone.cfg :=
  {| WaitForControllerDone.self :=
       snd (WaitForControllerDone.check_timeout_setter (PInt timeout)
         (snd (WaitForControllerDone.check_interval_setter (PInt interval)
           (snd (WaitForControllerDone.rest_send_setter
                   {| WaitForControllerDone.unit_test := false |}
             (snd (WaitForControllerDone.item_type_setter "serial_number"
               (snd (WaitForControllerDone.items_setter (PSet items)
                       WaitForControllerDone.__init__)))))))));
     WaitForControllerDone.w := world0 |}.

(** The same instance used a second time: after a first [commit()] for one
    switch, [items] is assigned another switch. *)
Definition waiter_reused : WaitForControllerDone.cfg :=
  let after_first :=
    snd (WaitForControllerDone.commit 3 always_idle (waiter {["FDO211218HH"]} 10 30)) in
  {| WaitForControllerDone.self :=
       snd (WaitForControllerDone.items_setter (PSet {["FDO211218GC"]})
              (WaitForControllerDone.self after_first));
     WaitForControllerDone.w := WaitForControllerDone.w after_first |}.

(** A fresh instance with [items] assigned and [item_type] left unset. *)
Definition waiter_untyped : WaitForControllerDone.cfg :=
  {| WaitForControllerDone.self :=
       snd (WaitForControllerDone.items_setter (PSet {["FDO211218HH"]})
              WaitForControllerDone.__init__);
     WaitForControllerDone.w := world0 |}.

(** An [ImageValidate] with the given serial numbers. *)
Definition validator (sns : list string) (interval timeout : Z) : ImageValidate.cfg :=
  {| ImageValidate.self :=
       {| ImageValidate._serial_numbers := Some sns;
          ImageValidate.serial_numbers_done := ∅;
          ImageValidate.payload := [];
          ImageValidate._non_disruptive := PBool true;
          ImageValidate._check_interval := interval;
          ImageValidate._check_timeout := timeout;
          ImageValidate.unit_test := false;
          ImageValidate.check_mode := false;
          ImageValidate.method_name := "";
          ImageValidate.rest_send :=
            {| ImageValidate.rs_verb := None; ImageValidate.rs_path := None;
               ImageValidate.rs_payload := None; ImageValidate.rs_check_mode := false |};
          ImageValidate.out :=
            {| ImageValidate.response_current := []; ImageValidate.result_current := [];
               ImageValidate.response := []; ImageValidate.result := [];
               ImageValidate.response_data := PNone; ImageValidate.properties := [];
               ImageValidate.diff := [] |} |};
     ImageValidate.w := world0 |}.

Definition validate_ok (issu_ : controller) : ImageValidate.remote :=
  {| ImageValidate.issu := issu_;
     ImageValidate.rest_reply := fun _ _ =>
       ([("RETURN_CODE", PInt 200); ("MESSAGE", PStr "OK")], [("success", PBool true)]) |}.

(** A [FabricConfigSave] as [__init__] leaves it: no property is set. *)
Definition saver_fresh : FabricConfigSave.cfg :=
  {| FabricConfigSave.self :=
       {| FabricConfigSave.action := "config_save";
          FabricConfigSave.cannot_save_fabric_reason := "";
          FabricConfigSave.config_save_failed := false;
          FabricConfigSave.fabric_can_be_saved := false;
          FabricConfigSave.check_mode := PBool false;
          FabricConfigSave.state := PStr "merged";
          FabricConfigSave.config_save_result := [];
          FabricConfigSave.path := None;
          FabricConfigSave.verb := None;
          FabricConfigSave._properties := FabricConfigSave._init_properties |};
     FabricConfigSave.events := [] |}.

Definition save_ok : string -> string -> dict * dict :=
  fun _ _ => ([("RETURN_CODE", PInt 200); ("MESSAGE", PStr "OK")], [("success", PBool true)]).

(** An evaluator for the rules of a template: [==] and [!=] between
    booleans, integers and strings. *)
Definition scalar_eqb (a b : pyval) : bool :=
  match a, b with
  | PNone, PNone => true
  | PStr x, PStr y => String.eqb x y
  | (PBool _ | PInt _), (PBool _ | PInt _) =>
      match int_value a, int_value b with
      | Some x, Some y => x =? y
      | _, _ => false
      end
  | _, _ => false
  end.

Definition eval_scalars : VerifyPlaybookParams.evaluator :=
  fun rule_operator param_value rule_value =>
    match rule_operator with
    | PStr "==" => Ret (scalar_eqb param_value rule_value)
    | PStr "!=" => Ret (negb (scalar_eqb param_value rule_value))
    | _ => Raise (ValueError "unsupported operator")
    end.

(** A rule "the dependent parameter must be true", a playbook that does not
    mention the parameter, and a controller configuration that has it set
    to true. *)
Definition rule_true : dict := [("op", PStr "=="); ("value", PBool true)].

Definition verifier_absent : VerifyPlaybookParams.t :=
  {| VerifyPlaybookParams.config_controller := Some [("ENABLE_PBR", PStr "true")];
     VerifyPlaybookParams.config_playbook := Some [("FABRIC_NAME", PStr "f1")];
     VerifyPlaybookParams.fabric_defaults := [("ENABLE_PBR", PBool false)] |}.

(** A module instance whose diff found nothing to do. *)
Definition module_idle : DcnmNetworkv2.cfg :=
  {| DcnmNetworkv2.self :=
       {| DcnmNetworkv2.fabric := "f1";
          DcnmNetworkv2.is_ms_fabric := false;
          DcnmNetworkv2.sn_fab := ∅;
          DcnmNetworkv2.diff_create := [];
          DcnmNetworkv2.diff_create_update := [];
          DcnmNetworkv2.diff_create_quick := [];
          DcnmNetworkv2.diff_attach := [];
          DcnmNetworkv2.diff_detach := [];
          DcnmNetworkv2.diff_deploy := ∅;
          DcnmNetworkv2.diff_undeploy := ∅;
          DcnmNetworkv2.diff_delete := [];
          DcnmNetworkv2.result_changed := false;
          DcnmNetworkv2.result_response := [];
          DcnmNetworkv2.failed_to_rollback := false |};
     DcnmNetworkv2.trace := [];
     DcnmNetworkv2.calls := 0 |}.

(** Two networks to create, both with a VLAN id. *)
Definition module_creating : DcnmNetworkv2.cfg :=
  DcnmNetworkv2.on_self
    (DcnmNetworkv2.set_diff_create
       [{| DcnmNetworkv2.net_name := "net1"; DcnmNetworkv2.vlanId := PInt 101 |};
        {| DcnmNetworkv2.net_name := "net2"; DcnmNetworkv2.vlanId := PInt 102 |}])
    module_idle.

(** One network to deploy on one switch. *)
Definition module_deploying : DcnmNetworkv2.cfg :=
  DcnmNetworkv2.on_self
    (DcnmNetworkv2.set_diff_deploy {["FDO211218HH" := DcnmNetworkv2.Names ["net1"]]})
    module_idle.

(** A network to detach and delete, and another to create, attach and
    deploy. *)
Definition module_overriding : DcnmNetworkv2.cfg :=
  DcnmNetworkv2.on_self
    (fun x =>
       DcnmNetworkv2.set_diff_detach
         [{| DcnmNetworkv2.ap_networkName := "old";
             DcnmNetworkv2.ap_lanAttachList :=
               [{| DcnmNetworkv2.serialNumber := "FDO211218HH";
                   DcnmNetworkv2.node_fabric := "f1";
                   DcnmNetworkv2.d_key := None |}] |}]
         (DcnmNetworkv2.set_diff_undeploy
            {["FDO211218HH" := DcnmNetworkv2.Names ["old"]]}
            (DcnmNetworkv2.set_diff_delete [("old", "DEPLOYED")]
               (DcnmNetworkv2.set_diff_create
                  [{| DcnmNetworkv2.net_name := "new";
                      DcnmNetworkv2.vlanId := PInt 101 |}] x))))
    module_idle.

(** A controller that answers every request with a server error, one that
    accepts everything, and one that has nothing pending to deploy. *)
Definition server_error : DcnmNetworkv2.controller :=
  fun _ _ _ =>
    {| DcnmNetworkv2.RETURN_CODE := 500;
       DcnmNetworkv2.MESSAGE := "Internal Server Error";
       DcnmNetworkv2.ERROR := Some "Internal Server Error";
       DcnmNetworkv2.DATA := DcnmNetworkv2.DataNone;
       DcnmNetworkv2.text := "dict_values([500, 'Internal Server Error'])" |}.

Definition accepts_all : DcnmNetworkv2.controller :=
  fun _ _ _ =>
    {| DcnmNetworkv2.RETURN_CODE := 200;
       DcnmNetworkv2.MESSAGE := "OK";
       DcnmNetworkv2.ERROR := None;
       DcnmNetworkv2.DATA := DcnmNetworkv2.DataNone;
       DcnmNetworkv2.text := "dict_values([200, 'OK'])" |}.

Definition nothing_pending : DcnmNetworkv2.controller :=
  fun _ _ _ =>
    {| DcnmNetworkv2.RETURN_CODE := 200;
       DcnmNetworkv2.MESSAGE := "OK";
       DcnmNetworkv2.ERROR := None;
       DcnmNetworkv2.DATA := DcnmNetworkv2.DataNone;
       DcnmNetworkv2.text := "dict_values([200, 'OK', 'No switches PENDING for deployment'])" |}.

(** A controller on which the attachment of every network stays
    deployed. *)
Definition stays_deployed : DcnmNetworkv2.controller :=
  fun _ _ _ =>
    {| DcnmNetworkv2.RETURN_CODE := 200;
       DcnmNetworkv2.MESSAGE := "OK";
       DcnmNetworkv2.ERROR := None;
       DcnmNetworkv2.DATA :=
         DcnmNetworkv2.DataAttach
           [{| DcnmNetworkv2.na_networkName := "old";
               DcnmNetworkv2.lanAttachList :=
                 [{| DcnmNetworkv2.isLanAttached := PBool true;
                     DcnmNetworkv2.lanAttachState := "DEPLOYED";
                     DcnmNetworkv2.switchSerialNo := "FDO211218HH";
                     DcnmNetworkv2.networkName := "old" |}] |}];
       DcnmNetworkv2.text := "dict_values([200, 'OK'])" |}.

End Examples.

Import Examples.

(** ** Regular expressions

    Python's [re] for the patterns of the sources: character classes,
    concatenation and repetition.  A match is decided with derivatives. *)

Module Re.

Inductive regex : Type :=
| Void
| Eps
| Chr (p : ascii -> bool)
| Cat (r1 r2 : regex)
| Alt (r1 r2 : regex)
| Star (r : regex).

(** [r+] *)
Definition Plus (r : regex) : regex := Cat r (Star r).

(** A range [lo-hi] of a character class. *)
Definition in_range (lo hi c : ascii) : bool :=
  ((nat_of_ascii lo <=? nat_of_ascii c) && (nat_of_ascii c <=? nat_of_ascii hi))%nat.

(** A pattern that is plain text. *)
Fixpoint lit (s : string) : regex :=
  match s with
  | EmptyString => Eps
  | String c rest => Cat (Chr (Ascii.eqb c)) (lit rest)
  end.

Fixpoint nullable (r : regex) : bool :=
  match r with
  | Void => false
  | Eps => true
  | Chr _ => false
  | Cat r1 r2 => nullable r1 && nullable r2
  | Alt r1 r2 => nullable r1 || nullable r2
  | Star _ => true
  end.

(** What is left of [r] once it has read [c]. *)
Fixpoint deriv (c : ascii) (r : regex) : regex :=
  match r with
  | Void => Void
  | Eps => Void
  | Chr p => if p c then Eps else Void
  | Cat r1 r2 =>
      if nullable r1 then Alt (Cat (deriv c r1) r2) (deriv c r2)
      else Cat (deriv c r1) r2
  | Alt r1 r2 => Alt (deriv c r1) (deriv c r2)
  | Star r1 => Cat (deriv c r1) (Star r1)
  end.

Fixpoint matches (r : regex) (s : string) : bool :=
  match s with
  | EmptyString => nullable r
  | String c rest => matches (deriv c r) rest
  end.

(** [re.fullmatch(r, s) is not None] *)
Definition fullmatch (r : regex) (s : string) : bool := matches r s.

(** [re.search(r, s) is not None]: [r] matches somewhere in [s]. *)
Definition search (r : regex) (s : string) : bool :=
  matches (Cat (Star (Chr (fun _ => true))) (Cat r (Star (Chr (fun _ => true))))) s.

(** [re.sub(pattern, repl, s)] for a non-empty pattern that is plain text
    and a replacement without backslashes: every occurrence of the pattern,
    found from left to right, is replaced.  The first [skip] characters of
    [s] belong to the occurrence just replaced. *)
Fixpoint sub_from (pattern repl : string) (skip : nat) (s : string) : string :=
  match s with
  | EmptyString => EmptyString
  | String c rest =>
      match skip with
      | S k => sub_from pattern repl k rest
      | O =>
          if String.prefix pattern s
          then (repl ++ sub_from pattern repl (String.length pattern - 1) rest)%string
          else String c (sub_from pattern repl 0 rest)
      end
  end.

Definition sub (pattern repl s : string) : string := sub_from pattern repl 0 s.

End Re.

(** ** fabric/endpoints.py *)

Module ApiEndpoints.

(** [[a-zA-Z]] and [[a-zA-Z0-9_-]] *)
Definition letter (c : ascii) : bool :=
  Re.in_range "a" "z" c || Re.in_range "A" "Z" c.

Definition name_char (c : ascii) : bool :=
  Re.in_range "a" "z" c || Re.in_range "A" "Z" c || Re.in_range "0" "9" c
  || Ascii.eqb c "_" || Ascii.eqb c "-".

(** [re.compile(r"[a-zA-Z]+[a-zA-Z0-9_-]*")] *)
Definition _re_valid_fabric_name : Re.regex :=
  Re.Cat (Re.Plus (Re.Chr letter)) (Re.Star (Re.Chr name_char)).

Definition endpoint_api_v1 : string := "/appcenter/cisco/ndfc/api/v1".

Definition endpoint_fabrics : string :=
  (endpoint_api_v1 ++ "/rest/control/fabrics")%string.

Definition endpoint_fabric_summary : string :=
  (endpoint_api_v1 ++ "/lan-fabric/rest/control/switches"
   ++ "/_REPLACE_WITH_FABRIC_NAME_/overview")%string.

Definition endpoint_templates : string :=
  (endpoint_api_v1 ++ "/configtemplate/rest/config/templates")%string.

(** [self.properties] *)
Record t : Type := {
  p_fabric_name : pyval;
  p_template_name : pyval
}.

Definition __init__ : t := {| p_fabric_name := PNone; p_template_name := PNone |}.

Definition validate_fabric_name (value : pyval) : outcome unit :=
  match value with
  | PStr s =>
      if Re.fullmatch _re_valid_fabric_name s then Ret tt
      else Raise (ValueError "Fabric name must start with a letter A-Z or a-z and contain only the characters in: [A-Z,a-z,0-9,-,_].")
  | _ => Raise (TypeError "Invalid fabric name. Expected string. ")
  end.

(** *** Properties *)

Definition fabric_name (x : t) : pyval := p_fabric_name x.

Definition fabric_name_setter (value : pyval) : M t unit :=
  match validate_fabric_name value with
  | Ret _ =>
      modify (fun x => {| p_fabric_name := value; p_template_name := p_template_name x |})
  | Raise e => raise e
  | OutOfFuel => out_of_fuel
  end.

Definition template_name (x : t) : pyval := p_template_name x.

Definition template_name_setter (value : pyval) : M t unit :=
  modify (fun x => {| p_fabric_name := p_fabric_name x; p_template_name := value |}).

(** *** Endpoints

    An endpoint is the dict [{"path": ..., "verb": ...}].  A value put into
    an f-string is rendered by [str()]: a [str] is its own text, the text of
    any other value is given by [render]. *)

Definition str_ (render : pyval -> string) (v : pyval) : string :=
  match v with
  | PStr s => s
  | _ => render v
  end.

Definition endpoint (path verb : string) : dict :=
  [("path", PStr path); ("verb", PStr verb)].

Definition fabric_config_deploy (render : pyval -> string) (x : t) : outcome dict :=
  if negb (truthy (fabric_name x)) then Raise (ValueError "fabric_name is required.")
  else Ret (endpoint
              (endpoint_fabrics ++ "/" ++ str_ render (fabric_name x)
               ++ "/config-deploy?forceShowRun=false&inclAllMSDSwitches")%string
              "POST").

Definition fabric_config_save (render : pyval -> string) (x : t) : outcome dict :=
  if negb (truthy (fabric_name x)) then Raise (ValueError "fabric_name is required.")
  else Ret (endpoint
              (endpoint_fabrics ++ "/" ++ str_ render (fabric_name x) ++ "/config-save")%string
              "POST").

Definition fabric_create (render : pyval -> string) (x : t) : outcome dict :=
  if negb (truthy (fabric_name x)) then Raise (ValueError "fabric_name is required.")
  else if negb (truthy (template_name x)) then Raise (ValueError "template_name is required.")
  else Ret (endpoint
              (endpoint_fabrics ++ "/" ++ str_ render (fabric_name x)
               ++ "/" ++ str_ render (template_name x))%string
              "POST").

Definition fabric_delete (render : pyval -> string) (x : t) : outcome dict :=
  if negb (truthy (fabric_name x)) then Raise (ValueError "fabric_name is required.")
  else Ret (endpoint (endpoint_fabrics ++ "/" ++ str_ render (fabric_name x))%string "DELETE").

(** [re.sub] needs a [str] as replacement. *)
Definition fabric_summary (x : t) : outcome dict :=
  if negb (truthy (fabric_name x)) then Raise (ValueError "fabric_name is required.")
  else match fabric_name x with
       | PStr name =>
           Ret (endpoint (Re.sub "_REPLACE_WITH_FABRIC_NAME_" name endpoint_fabric_summary)
                  "GET")
       | _ => Raise (TypeError "expected str instance")
       end.

Definition fabric_update (render : pyval -> string) (x : t) : outcome dict :=
  if negb (truthy (fabric_name x)) then Raise (ValueError "fabric_name is required.")
  else if negb (truthy (template_name x)) then Raise (ValueError "template_name is required.")
  else Ret (endpoint
              (endpoint_fabrics ++ "/" ++ str_ render (fabric_name x)
               ++ "/" ++ str_ render (template_name x))%string
              "PUT").

Definition fabrics (x : t) : outcome dict := Ret (endpoint endpoint_fabrics "GET").

Definition fabric_info (render : pyval -> string) (x : t) : outcome dict :=
  if negb (truthy (fabric_name x)) then Raise (ValueError "fabric_name is required.")
  else Ret (endpoint (endpoint_fabrics ++ "/" ++ str_ render (fabric_name x))%string "GET").

Definition template (render : pyval -> string) (x : t) : outcome dict :=
  if negb (truthy (template_name x)) then Raise (ValueError "template_name is required.")
  else Ret (endpoint (endpoint_templates ++ "/" ++ str_ render (template_name x))%string "GET").

Definition templates (x : t) : outcome dict := Ret (endpoint endpoint_templates "GET").

End ApiEndpoints.

(** ** dcnm_networkv2.py: the diff of the states deleted and overridden *)

Module NetworkDiff.

(** An attachment of [have_attach] as [get_have] leaves it: the keys the
    diff methods read, and its other keys. *)
Record attach : Type := {
  deployment : pyval;
  serialNumber : string;
  networkName : string;
  other : dict
}.

(** An entry of [have_attach] and of [diff_detach]. *)
Record net_attach : Type := {
  na_networkName : string;
  lanAttachList : list attach
}.

(** An entry of [want_create] and of [have_create]. *)
Record network : Type := {
  n_networkName : string;
  n_other : dict
}.

(** The attributes of the module these methods read and write. *)
Record t : Type := {
  config : pyval;
  want_create : list network;
  have_create : list network;
  have_attach : list net_attach;
  diff_detach : list net_attach;
  diff_undeploy : gmap string (list string);
  diff_delete : list (string * string)
}.

Definition set_have_attach (v : list net_attach) (x : t) : t :=
  {| config := config x; want_create := want_create x; have_create := have_create x;
     have_attach := v; diff_detach := diff_detach x; diff_undeploy := diff_undeploy x;
     diff_delete := diff_delete x |}.

Definition set_diff_detach (v : list net_attach) (x : t) : t :=
  {| config := config x; want_create := want_create x; have_create := have_create x;
     have_attach := have_attach x; diff_detach := v; diff_undeploy := diff_undeploy x;
     diff_delete := diff_delete x |}.

Definition set_diff_undeploy (v : gmap string (list string)) (x : t) : t :=
  {| config := config x; want_create := want_create x; have_create := have_create x;
     have_attach := have_attach x; diff_detach := diff_detach x; diff_undeploy := v;
     diff_delete := diff_delete x |}.

Definition set_diff_delete (v : list (string * string)) (x : t) : t :=
  {| config := config x; want_create := want_create x; have_create := have_create x;
     have_attach := have_attach x; diff_detach := diff_detach x;
     diff_undeploy := diff_undeploy x; diff_delete := v |}.

(** The elements [list.extend] takes from a [str]: its characters. *)
Definition chars (s : string) : list string :=
  List.map (fun c => String c EmptyString) (list_ascii_of_string s).

(** [if diff_undeploy.get(sn): diff_undeploy[sn].extend(name)
     else: diff_undeploy[sn] = [name]], where [name] is a [str]. *)
Definition note_undeploy (a_h : attach) (diff_undeploy_ : gmap string (list string))
  : gmap string (list string) :=
  match diff_undeploy_ !! serialNumber a_h with
  | Some (n :: ns) =>
      <[serialNumber a_h := ((n :: ns) ++ chars (networkName a_h))%list]> diff_undeploy_
  | _ => <[serialNumber a_h := [networkName a_h]]> diff_undeploy_
  end.

(** [for a_h in atch_h: if a_h["deployment"]: ...]: each attachment that is
    still deployed gets [deployment = False], is appended to [to_del] and
    is noted in [diff_undeploy].  The result is [to_del] and
    [diff_undeploy] after the loop. *)
Fixpoint release (atch_h : list attach) (diff_undeploy_ : gmap string (list string))
  : list attach * gmap string (list string) :=
  match atch_h with
  | [] => ([], diff_undeploy_)
  | a_h :: rest =>
      if truthy (deployment a_h) then
        let a_h' := {| deployment := PBool false; serialNumber := serialNumber a_h;
                       networkName := networkName a_h; other := other a_h |} in
        let '(to_del, du) := release rest (note_undeploy a_h' diff_undeploy_) in
        (a_h' :: to_del, du)
      else release rest diff_undeploy_
  end.

(** The block the three loops share (lines 301-313, 316-328 and 361-375),
    for the entry [have_a] at position [i] of [have_attach]: when [to_del]
    is not empty the entry keeps only those attachments, in place, and is
    appended to [diff_detach].  When it is empty no attachment was touched. *)
Definition detach_network (i : nat) (have_a : net_attach) (x : t) : t :=
  let '(to_del, du) := release (lanAttachList have_a) (diff_undeploy x) in
  match to_del with
  | [] => x
  | _ =>
      let have_a' := {| na_networkName := na_networkName have_a; lanAttachList := to_del |} in
      set_diff_undeploy du
        (set_diff_detach (diff_detach x ++ [have_a'])%list
           (set_have_attach (<[i := have_a']> (have_attach x)) x))
  end.

(** [next((a for a in l if a["networkName"] == name), None)], with the
    position of what is found; [i] is the position of the head of [l]. *)
Fixpoint find_attach (name : string) (l : list net_attach) (i : nat)
  : option (nat * net_attach) :=
  match l with
  | [] => None
  | a :: rest =>
      if String.eqb (na_networkName a) name then Some (i, a)
      else find_attach name rest (S i)
  end.

Definition find_network (name : string) (l : list network) : option network :=
  List.find (fun n => String.eqb (n_networkName n) name) l.

(** The body of [for want_c in self.want_create] (lines 277-313). *)
Definition delete_wanted (x : t) (want_c : network) : t :=
  match find_network (n_networkName want_c) (have_create x) with
  | None => x
  | Some _ =>
      let x1 := set_diff_delete
                  (DcnmNetworkv2.dict_update (n_networkName want_c) "DEPLOYED" (diff_delete x))
                  x in
      match find_attach (n_networkName want_c) (have_attach x1) 0 with
      | None => x1
      | Some (i, have_a) => detach_network i have_a x1
      end
  end.

(** The entries of a list with their positions. *)
Definition indexed {A} (l : list A) : list (nat * A) := combine (seq 0 (length l)) l.

(** The body of [for have_a in self.have_attach] (lines 315-330). *)
Definition delete_found (x : t) (entry : nat * net_attach) : t :=
  let x1 := detach_network (fst entry) (snd entry) x in
  set_diff_delete
    (DcnmNetworkv2.dict_update (na_networkName (snd entry)) "DEPLOYED" (diff_delete x1)) x1.

Definition get_diff_delete (x : t) : t :=
  let x0 := set_diff_delete [] (set_diff_undeploy ∅ (set_diff_detach [] x)) in
  if truthy (config x)
  then foldl delete_wanted x0 (want_create x)
  else foldl delete_found x0 (indexed (have_attach x)).

(** The body of [for have_a in self.have_attach] of [get_diff_override]
    (lines 348-379). *)
Definition override_found (x : t) (entry : nat * net_attach) : t :=
  match find_network (na_networkName (snd entry)) (want_create x) with
  | Some _ => x
  | None =>
      let x1 := detach_network (fst entry) (snd entry) x in
      set_diff_delete
        (DcnmNetworkv2.dict_update (na_networkName (snd entry)) "DEPLOYED" (diff_delete x1))
        x1
  end.

(** [get_diff_override] calls [get_diff_replace], which builds on [get_diff]
    of module_utils and is given here as a computation; the loop that
    follows starts from the [diff_detach] and [diff_undeploy] it left and
    from an empty [diff_delete]. *)
Definition get_diff_override (get_diff_replace : M t (option string))
  : M t (option string) :=
  let* warn_msg := get_diff_replace in
  modify (fun x => foldl override_found (set_diff_delete [] x) (indexed (have_attach x))) ;;
  ret warn_msg.

End NetworkDiff.

(** ** [DcnmNetworkv2.get_attach_ports] *)

Module AttachPorts.

(** The keys of an attachment that [get_attach_ports] reads and writes;
    [switchPorts] is a [str] (as [get_want] leaves it, and [get_have] for a
    switch without TOR ports), and [detachSwitchPorts] is [None] while the
    key is absent. *)
Record t : Type := {
  switchPorts : string;
  detachSwitchPorts : option string
}.

(** [s.split(",")] *)
Fixpoint split_comma (s : string) : list string :=
  match s with
  | EmptyString => [EmptyString]
  | String c rest =>
      if Ascii.eqb c ","%char then EmptyString :: split_comma rest
      else match split_comma rest with
           | h :: tl => String c h :: tl
           | [] => [String c EmptyString]
           end
  end.

(** [s.split(",") if s else []] *)
Definition ports (s : string) : list string :=
  if String.eqb s "" then [] else split_comma s.

(** [listing] gives the order in which [list(set(h_sw_ports) -
    set(w_sw_ports))] holds the elements of the difference, which Python
    leaves open. *)
Definition get_attach_ports (listing : list string -> list string) (w_attach h_attach : t) : t :=
  if String.eqb (switchPorts w_attach) (switchPorts h_attach) then w_attach
  else
    let h_sw_ports := ports (switchPorts h_attach) in
    let w_sw_ports := ports (switchPorts w_attach) in
    let dtach_sw_ports :=
      listing (List.filter (fun p => negb (existsb (String.eqb p) w_sw_ports)) h_sw_ports) in
    {| switchPorts := switchPorts w_attach;
       detachSwitchPorts :=
         Some (match dtach_sw_ports with
               | [] => ""
               | _ => DcnmNetworkv2.join "," dtach_sw_ports
               end) |}.

End AttachPorts.

(** ** Instances as their callers can build them *)

Module Usage.

(** An [ApiEndpoints] instance after any sequence of assignments to its two
    properties, whether an assignment raised or not. *)
Inductive endpoints_built : ApiEndpoints.t -> Prop :=
| built_init : endpoints_built ApiEndpoints.__init__
| built_fabric_name value x :
    endpoints_built x -> endpoints_built (snd (ApiEndpoints.fabric_name_setter value x))
| built_template_name value x :
    endpoints_built x -> endpoints_built (snd (ApiEndpoints.template_name_setter value x)).

(** A computation keeps the relation [R] between the state it starts from
    and the state it leaves, however it ends. *)
Definition throughout {S A : Type} (R : S -> S -> Prop) (m : M S A) : Prop :=
  forall s, R s (snd (m s)).

(** The REST requests of an event log. *)
Definition is_request (e : event) : bool :=
  match e with EvSend _ _ => true | _ => false end.

Definition requests (l : list event) : list event := List.filter is_request l.

(** [ImageValidate]: no request was sent between two states, and at most
    the validation request was. *)
Definition validate_quiet (c c' : ImageValidate.cfg) : Prop :=
  requests (events (ImageValidate.w c')) = requests (events (ImageValidate.w c)).

Definition validate_at_most_once (c c' : ImageValidate.cfg) : Prop :=
  validate_quiet c c'
  \/ requests (events (ImageValidate.w c'))
     = (requests (events (ImageValidate.w c))
        ++ [EvSend ImageValidate.ep_verb ImageValidate.ep_path])%list.

(** [ImageValidate]: the list of serial numbers is the same in both states
    and no [refresh()] was taken back. *)
Definition validate_stable (c c' : ImageValidate.cfg) : Prop :=
  ImageValidate._serial_numbers (ImageValidate.self c')
  = ImageValidate._serial_numbers (ImageValidate.self c)
  /\ (refreshes (ImageValidate.w c) <= refreshes (ImageValidate.w c'))%nat.

(** [DcnmNetworkv2]: answers to the attachment query of
    [wait_for_del_ready].  In a stuck answer the first attachment of the
    first network is OUT-OF-SYNC or FAILED; in a busy one the attachments
    that come first are NA and the next is in a state other than NA,
    OUT-OF-SYNC and FAILED. *)
Definition stuck (r : DcnmNetworkv2.response) : Prop :=
  exists na rest a more,
    DcnmNetworkv2.DATA r = DcnmNetworkv2.DataAttach (na :: rest)
    /\ DcnmNetworkv2.lanAttachList na = a :: more
    /\ (DcnmNetworkv2.lanAttachState a = "OUT-OF-SYNC"
        \/ DcnmNetworkv2.lanAttachState a = "FAILED").

Definition busy (r : DcnmNetworkv2.response) : Prop :=
  exists na rest idle a more,
    DcnmNetworkv2.DATA r = DcnmNetworkv2.DataAttach (na :: rest)
    /\ DcnmNetworkv2.lanAttachList na = (idle ++ a :: more)%list
    /\ Forall (fun x => DcnmNetworkv2.lanAttachState x = "NA") idle
    /\ DcnmNetworkv2.lanAttachState a <> "NA"
    /\ DcnmNetworkv2.lanAttachState a <> "OUT-OF-SYNC"
    /\ DcnmNetworkv2.lanAttachState a <> "FAILED".

(** [n] attachment queries for one network, with the sleep of the delete
    loop between two of them. *)
Fixpoint del_polls (path : string) (n : nat) : list DcnmNetworkv2.action :=
  match n with
  | O => []
  | S n' =>
      match n' with
      | O => [DcnmNetworkv2.Send DcnmNetworkv2.L_delete "GET" path]
      | S _ =>
          DcnmNetworkv2.Send DcnmNetworkv2.L_delete "GET" path
          :: DcnmNetworkv2.Sleep DcnmNetworkv2.WAIT_TIME_FOR_DELETE_LOOP
          :: del_polls path n'
      end
  end.

(** A DELETE request. *)
Definition is_delete (a : DcnmNetworkv2.action) : bool :=
  match a with
  | DcnmNetworkv2.Send _ method _ => String.eqb method "DELETE"
  | DcnmNetworkv2.Sleep _ => false
  end.

(** The requests [push_to_remote_create] makes for one network: the VLAN
    query when the network has no [vlanId], then the POST. *)
Definition create_requests (fabric_ path : string) (n : DcnmNetworkv2.net)
  : list DcnmNetworkv2.action :=
  ((if truthy (DcnmNetworkv2.vlanId n) then []
    else [DcnmNetworkv2.Send DcnmNetworkv2.L_create "GET" (DcnmNetworkv2.GET_VLAN fabric_)])
   ++ [DcnmNetworkv2.Send DcnmNetworkv2.L_create "POST" path])%list.

(** [NetworkDiff]: the networks of the attachments of switch [sn] that are
    still deployed, in the order of [l]; and what [diff_undeploy] holds for
    a switch once these names were noted one after the other: the first
    name, then the characters of the others. *)
Definition deployed_names (sn : string) (l : list NetworkDiff.attach) : list string :=
  List.map NetworkDiff.networkName
    (List.filter (fun a => truthy (NetworkDiff.deployment a)
                           && String.eqb (NetworkDiff.serialNumber a) sn) l).

Definition noted (names : list string) : option (list string) :=
  match names with
  | [] => None
  | n :: rest => Some (n :: concat (List.map NetworkDiff.chars rest))
  end.

(** An attachment once it is marked for detaching. *)
Definition released (a : NetworkDiff.attach) : NetworkDiff.attach :=
  {| NetworkDiff.deployment := PBool false;
     NetworkDiff.serialNumber := NetworkDiff.serialNumber a;
     NetworkDiff.networkName := NetworkDiff.networkName a;
     NetworkDiff.other := NetworkDiff.other a |}.

(** [NetworkDiff]: what [diff_undeploy] holds for a switch after the names
    [names] were noted for it, starting from [cur]. *)
Definition grow (cur : option (list string)) (names : list string) : option (list string) :=
  foldl (fun cur n => match cur with
                      | Some (m :: ms) => Some ((m :: ms) ++ NetworkDiff.chars n)%list
                      | _ => Some [n]
                      end) cur names.

(** The attachments of an entry of [have_attach] that are detached, the
    entry as it is left in [have_attach], and what it adds to
    [diff_detach]. *)
Definition detached (e : NetworkDiff.net_attach) : list NetworkDiff.attach :=
  List.map released
    (List.filter (fun a => truthy (NetworkDiff.deployment a)) (NetworkDiff.lanAttachList e)).

Definition trimmed (e : NetworkDiff.net_attach) : NetworkDiff.net_attach :=
  match detached e with
  | [] => e
  | l => {| NetworkDiff.na_networkName := NetworkDiff.na_networkName e;
            NetworkDiff.lanAttachList := l |}
  end.

Definition to_detach (e : NetworkDiff.net_attach) : list NetworkDiff.net_attach :=
  match detached e with
  | [] => []
  | l => [{| NetworkDiff.na_networkName := NetworkDiff.na_networkName e;
             NetworkDiff.lanAttachList := l |}]
  end.

(** Every value of [diff_delete] is "DEPLOYED" and no key is there twice. *)
Definition marked_deployed (x : NetworkDiff.t) : Prop :=
  Forall (fun kv => snd kv = "DEPLOYED") (NetworkDiff.diff_delete x)
  /\ List.NoDup (List.map fst (NetworkDiff.diff_delete x)).

(** Every entry of [diff_detach] is a network of [diff_delete], has an
    attachment, and each of its attachments has [deployment] False and a
    switch with names in [diff_undeploy]. *)
Definition detach_sound (x : NetworkDiff.t) : Prop :=
  forall d, In d (NetworkDiff.diff_detach x) ->
    In (NetworkDiff.na_networkName d) (List.map fst (NetworkDiff.diff_delete x))
    /\ NetworkDiff.lanAttachList d <> []
    /\ forall a, In a (NetworkDiff.lanAttachList d) ->
         NetworkDiff.deployment a = PBool false
         /\ exists n ns, NetworkDiff.diff_undeploy x !! NetworkDiff.serialNumber a = Some (n :: ns).

(** [AttachPorts]: a string without a comma. *)
Fixpoint comma_free (s : string) : bool :=
  match s with
  | EmptyString => true
  | String c rest => negb (Ascii.eqb c ","%char) && comma_free rest
  end.

(** A string without a line break. *)
Fixpoint one_line (s : string) : bool :=
  match s with
  | EmptyString => true
  | String c rest => negb (Ascii.eqb c "010"%char) && one_line rest
  end.

End Usage.

(** ** More example inputs *)

Module Cases.

(** A controller on which the first switch is validated already and the
    others are not, and one on which every validation has failed. *)
Definition one_validated : controller :=
  fun _ sn =>
    if String.eqb sn "FDO211218HH" then switch false "Success" sn else switch false "" sn.

Definition validation_failed : controller := fun _ sn => switch false "Failed" sn.

(** An [ApiEndpoints] instance with a fabric name, and one with a template
    name as well. *)
Definition endpoints_named : ApiEndpoints.t :=
  snd (ApiEndpoints.fabric_name_setter (PStr "MyFabric") ApiEndpoints.__init__).

Definition endpoints_templated : ApiEndpoints.t :=
  snd (ApiEndpoints.template_name_setter (PStr "Easy_Fabric") endpoints_named).

(** [str()] of a value that is not a [str], for inputs that hold none. *)
Definition no_render : pyval -> string := fun _ => "".

(** A [FabricConfigSave] whose three required properties were assigned, with
    the given [DEPLOY] in the payload. *)
Definition save_payload (deploy_ : pyval) : dict :=
  [("FABRIC_NAME", PStr "f1"); ("DEPLOY", deploy_)].

Definition empty_results : FabricConfigSave.results_t :=
  {| FabricConfigSave.diff_current := [];
     FabricConfigSave.r_action := "";
     FabricConfigSave.r_check_mode := PNone;
     FabricConfigSave.r_state := PNone;
     FabricConfigSave.response_current := [];
     FabricConfigSave.result_current := [];
     FabricConfigSave.registered := [] |}.

Definition empty_rest_send : FabricConfigSave.rest_send_t :=
  {| FabricConfigSave.rs_path := None; FabricConfigSave.rs_verb := None;
     FabricConfigSave.rs_payload := None |}.

Definition saver (deploy_ : pyval) : FabricConfigSave.cfg :=
  {| FabricConfigSave.self :=
       snd (FabricConfigSave.results_setter (FabricConfigSave.Results empty_results)
         (snd (FabricConfigSave.rest_send_setter (FabricConfigSave.RestSend empty_rest_send)
           (snd (FabricConfigSave.payload_setter (PDict (save_payload deploy_))
                   (FabricConfigSave.self saver_fresh))))));
     FabricConfigSave.events := [] |}.

(** A playbook and a controller configuration that both set the dependent
    parameter, the playbook to a value that satisfies [rule_true]. *)
Definition verifier_present : VerifyPlaybookParams.t :=
  {| VerifyPlaybookParams.config_controller := Some [("ENABLE_PBR", PStr "false")];
     VerifyPlaybookParams.config_playbook :=
       Some [("FABRIC_NAME", PStr "f1"); ("ENABLE_PBR", PBool true)];
     VerifyPlaybookParams.fabric_defaults := [("ENABLE_PBR", PBool false)] |}.

(** A controller on which the attachment of every network stays
    OUT-OF-SYNC. *)
Definition stays_out_of_sync : DcnmNetworkv2.controller :=
  fun _ _ _ =>
    {| DcnmNetworkv2.RETURN_CODE := 200;
       DcnmNetworkv2.MESSAGE := "OK";
       DcnmNetworkv2.ERROR := None;
       DcnmNetworkv2.DATA :=
         DcnmNetworkv2.DataAttach
           [{| DcnmNetworkv2.na_networkName := "old";
               DcnmNetworkv2.lanAttachList :=
                 [{| DcnmNetworkv2.isLanAttached := PBool true;
                     DcnmNetworkv2.lanAttachState := "OUT-OF-SYNC";
                     DcnmNetworkv2.switchSerialNo := "FDO211218HH";
                     DcnmNetworkv2.networkName := "old" |}] |}];
       DcnmNetworkv2.text := "dict_values([200, 'OK'])" |}.

(** Two networks to delete. *)
Definition module_deleting : DcnmNetworkv2.cfg :=
  DcnmNetworkv2.on_self
    (DcnmNetworkv2.set_diff_delete [("old", "DEPLOYED"); ("older", "DEPLOYED")])
    module_idle.

(** A controller that answers every attach request with a text asking to
    try again later. *)
Definition always_retry : DcnmNetworkv2.controller :=
  fun _ _ _ =>
    {| DcnmNetworkv2.RETURN_CODE := 200;
       DcnmNetworkv2.MESSAGE := "OK";
       DcnmNetworkv2.ERROR := None;
       DcnmNetworkv2.DATA :=
         DcnmNetworkv2.DataDict
           [("net1-[FDO211218HH/leaf1]",
             "Failed to update. Please try after some time")];
       DcnmNetworkv2.text := "dict_values([200, 'OK'])" |}.

(** One network to attach to one switch, in a fabric that is not
    multi-site, and in a multi-site fabric that knows the switch. *)
Definition module_attaching : DcnmNetworkv2.cfg :=
  DcnmNetworkv2.on_self
    (DcnmNetworkv2.set_diff_attach
       [{| DcnmNetworkv2.ap_networkName := "net1";
           DcnmNetworkv2.ap_lanAttachList :=
             [{| DcnmNetworkv2.serialNumber := "FDO211218HH";
                 DcnmNetworkv2.node_fabric := "msd1";
                 DcnmNetworkv2.d_key := Some "serialNumber" |}] |}])
    module_idle.

Definition multi_site : DcnmNetworkv2.t :=
  {| DcnmNetworkv2.fabric := "msd1";
     DcnmNetworkv2.is_ms_fabric := true;
     DcnmNetworkv2.sn_fab := {["FDO211218HH" := "f1"]};
     DcnmNetworkv2.diff_create := [];
     DcnmNetworkv2.diff_create_update := [];
     DcnmNetworkv2.diff_create_quick := [];
     DcnmNetworkv2.diff_attach := DcnmNetworkv2.diff_attach (DcnmNetworkv2.self module_attaching);
     DcnmNetworkv2.diff_detach := [];
     DcnmNetworkv2.diff_deploy := ∅;
     DcnmNetworkv2.diff_undeploy := ∅;
     DcnmNetworkv2.diff_delete := [];
     DcnmNetworkv2.result_changed := false;
     DcnmNetworkv2.result_response := [];
     DcnmNetworkv2.failed_to_rollback := false |}.

(** A controller that hands out VLAN 2301 and refuses every other
    request. *)
Definition rejects_posts : DcnmNetworkv2.controller :=
  fun n method path =>
    if String.eqb method "GET" then
      {| DcnmNetworkv2.RETURN_CODE := 200;
         DcnmNetworkv2.MESSAGE := "OK";
         DcnmNetworkv2.ERROR := None;
         DcnmNetworkv2.DATA := DcnmNetworkv2.DataValue (PInt 2301);
         DcnmNetworkv2.text := "dict_values([200, 'OK', 2301])" |}
    else server_error n method path.

(** A network without a VLAN id, then one that has one. *)
Definition module_creating_two : DcnmNetworkv2.cfg :=
  DcnmNetworkv2.on_self
    (DcnmNetworkv2.set_diff_create
       [{| DcnmNetworkv2.net_name := "net1"; DcnmNetworkv2.vlanId := PStr "" |};
        {| DcnmNetworkv2.net_name := "net2"; DcnmNetworkv2.vlanId := PInt 102 |}])
    module_idle.

(** [NetworkDiff]: three networks of the controller.  netA is deployed on
    SN1 and attached, not deployed, on SN2; netB is deployed on SN1; netC
    is attached, not deployed, on SN2. *)
Definition attached (name sn : string) (deployed : bool) : NetworkDiff.attach :=
  {| NetworkDiff.deployment := PBool deployed; NetworkDiff.serialNumber := sn;
     NetworkDiff.networkName := name; NetworkDiff.other := [] |}.

Definition named (name : string) : NetworkDiff.network :=
  {| NetworkDiff.n_networkName := name; NetworkDiff.n_other := [] |}.

Definition three_networks (config_ : pyval) (wants : list string) : NetworkDiff.t :=
  {| NetworkDiff.config := config_;
     NetworkDiff.want_create := List.map named wants;
     NetworkDiff.have_create := [named "netA"; named "netB"; named "netC"];
     NetworkDiff.have_attach :=
       [{| NetworkDiff.na_networkName := "netA";
           NetworkDiff.lanAttachList :=
             [attached "netA" "SN1" true; attached "netA" "SN2" false] |};
        {| NetworkDiff.na_networkName := "netB";
           NetworkDiff.lanAttachList := [attached "netB" "SN1" true] |};
        {| NetworkDiff.na_networkName := "netC";
           NetworkDiff.lanAttachList := [attached "netC" "SN2" false] |}];
     NetworkDiff.diff_detach := [];
     NetworkDiff.diff_undeploy := ∅;
     NetworkDiff.diff_delete := [] |}.

(** [AttachPorts]: the controller has three ports on the switch, the
    playbook keeps one of them and adds another. *)
Definition have_ports : AttachPorts.t :=
  {| AttachPorts.switchPorts := "Ethernet1/1,Ethernet1/2,Ethernet1/3";
     AttachPorts.detachSwitchPorts := Some "" |}.

Definition want_ports : AttachPorts.t :=
  {| AttachPorts.switchPorts := "Ethernet1/2,Ethernet1/4";
     AttachPorts.detachSwitchPorts := None |}.

End Cases.

Import Cases.

(** * Properties *)

(** ** Required properties and property setters *)

Section CommitParameters.

Import FabricConfigSave.

(** C6: calling [commit()] while a required property is still [None] raises
    [ValueError] and changes nothing, so no request is sent:
    [FabricConfigSave.commit] when [payload], [rest_send] or [results] is
    unset, [WaitForControllerDone.commit] when [items], [item_type] or
    [rest_send] is unset. *)
Theorem commit_requires_properties :
  (forall rest_reply (c : FabricConfigSave.cfg),
      p_payload (_properties (self c)) = None
      \/ p_rest_send (_properties (self c)) = None
      \/ p_results (_properties (self c)) = None ->
      exists msg, FabricConfigSave.commit rest_reply c = (Raise (ValueError msg), c))
  /\
  (forall fuel ctl (c : WaitForControllerDone.cfg),
      WaitForControllerDone._items (WaitForControllerDone.self c) = None
      \/ WaitForControllerDone._item_type (WaitForControllerDone.self c) = None
      \/ WaitForControllerDone._rest_send (WaitForControllerDone.self c) = None ->
      exists msg, WaitForControllerDone.commit fuel ctl c = (Raise (ValueError msg), c)).
Proof.
  split.
  - intros rest_reply c H. unfold commit, bind, get.
    destruct (p_payload (_properties (self c))) as [pl|] eqn:Epl; [|eauto].
    destruct (p_rest_send (_properties (self c))) as [rs|] eqn:Ers; [|eauto].
    destruct (p_results (_properties (self c))) as [re|] eqn:Ere; [|eauto].
    destruct H as [H|[H|H]]; discriminate H.
  - intros fuel ctl c H.
    unfold WaitForControllerDone.commit, WaitForControllerDone.verify_commit_parameters,
      bind, get.
    destruct (WaitForControllerDone._items (WaitForControllerDone.self c)) as [it|] eqn:Eit;
      [|eauto].
    destruct (WaitForControllerDone._item_type (WaitForControllerDone.self c)) as [ty|] eqn:Ety;
      [|eauto].
    destruct (WaitForControllerDone._rest_send (WaitForControllerDone.self c)) as [rs|] eqn:Ers;
      [|eauto].
    destruct H as [H|[H|H]]; discriminate H.
Qed.

End CommitParameters.

Section Setters.

(** The integer-valued setters of both image-upgrade classes share one
    shape; these two facts are used for each of them. *)
Lemma not_int_cases (value : pyval) :
  is_bool value = true \/ is_int value = false ->
  match value with PInt _ => False | _ => True end.
Proof. destruct value; simpl; intros [H|H]; try discriminate; exact I. Qed.

Lemma negative_ltb (z : Z) : z < 0 -> (z <? 0) = true.
Proof. intros H. apply Z.ltb_lt. exact H. Qed.

(** C7: a wrong-typed value is refused and the stored value is kept.  The
    [check_interval] and [check_timeout] setters (of [WaitForControllerDone]
    and of [ImageValidate]) raise [TypeError] for a [bool] or a non-[int]
    and [ValueError] for a negative [int]; [FabricConfigSave.payload] raises
    [ValueError] for a non-dict and for a dict without [FABRIC_NAME];
    [ImageValidate.serial_numbers] raises [TypeError] for a non-list.  In
    each case the instance is returned as it was, except that
    [serial_numbers] has stored its own name in [method_name] before it
    checks the value. *)
Theorem setters_reject_wrong_types :
  (forall value s,
      is_bool value = true \/ is_int value = false ->
      (exists msg, WaitForControllerDone.check_interval_setter value s = (Raise (TypeError msg), s))
      /\ (exists msg, WaitForControllerDone.check_timeout_setter value s = (Raise (TypeError msg), s)))
  /\
  (forall z s,
      z < 0 ->
      (exists msg, WaitForControllerDone.check_interval_setter (PInt z) s = (Raise (ValueError msg), s))
      /\ (exists msg, WaitForControllerDone.check_timeout_setter (PInt z) s = (Raise (ValueError msg), s)))
  /\
  (forall value s,
      is_bool value = true \/ is_int value = false ->
      (exists msg, ImageValidate.check_interval_setter value s = (Raise (TypeError msg), s))
      /\ (exists msg, ImageValidate.check_timeout_setter value s = (Raise (TypeError msg), s)))
  /\
  (forall z s,
      z < 0 ->
      (exists msg, ImageValidate.check_interval_setter (PInt z) s = (Raise (ValueError msg), s))
      /\ (exists msg, ImageValidate.check_timeout_setter (PInt z) s = (Raise (ValueError msg), s)))
  /\
  (forall value s,
      is_dict value = false
      \/ (exists d, value = PDict d /\ dict_get "FABRIC_NAME" d = None) ->
      exists msg, FabricConfigSave.payload_setter value s = (Raise (ValueError msg), s))
  /\
  (forall value s,
      is_list value = false ->
      exists msg s',
        ImageValidate.serial_numbers_setter value s = (Raise (TypeError msg), s')
        /\ ImageValidate._serial_numbers s' = ImageValidate._serial_numbers s).
Proof.
  repeat split.
  - apply not_int_cases in H. destruct value; try contradiction; simpl; eauto.
  - apply not_int_cases in H. destruct value; try contradiction; simpl; eauto.
  - unfold WaitForControllerDone.check_interval_setter. simpl.
    rewrite (negative_ltb _ H). eauto.
  - unfold WaitForControllerDone.check_timeout_setter. simpl.
    rewrite (negative_ltb _ H). eauto.
  - apply not_int_cases in H. destruct value; try contradiction; simpl; eauto.
  - apply not_int_cases in H. destruct value; try contradiction; simpl; eauto.
  - unfold ImageValidate.check_interval_setter. simpl.
    rewrite (negative_ltb _ H). eauto.
  - unfold ImageValidate.check_timeout_setter. simpl.
    rewrite (negative_ltb _ H). eauto.
  - intros value s [H|[d [-> H]]].
    + destruct value; try discriminate H; simpl; eauto.
    + unfold FabricConfigSave.payload_setter. rewrite H. eauto.
  - intros value s H.
    destruct value; try discriminate H;
      (eexists; eexists; split; [reflexivity | reflexivity]).
Qed.

End Setters.

(** ** Nothing to wait for *)

Section EmptyCommit.

(** C10, as amended: [WaitForControllerDone.commit] with [items] the empty
    set returns at once and leaves the instance and the world as they were
    (no sleep, no [refresh()]), provided [item_type] and [rest_send] are
    set; when one of them is not, it raises [ValueError], still without
    polling.  [ImageValidate.commit] with [serial_numbers] the empty list
    returns with [result_current] equal to [{"success": True}] and
    sends nothing. *)
Theorem commit_nothing_to_wait_for :
  (forall fuel ctl (c : WaitForControllerDone.cfg) ty rs,
      WaitForControllerDone._items (WaitForControllerDone.self c) = Some ∅ ->
      WaitForControllerDone._item_type (WaitForControllerDone.self c) = Some ty ->
      WaitForControllerDone._rest_send (WaitForControllerDone.self c) = Some rs ->
      WaitForControllerDone.commit fuel ctl c = (Ret tt, c))
  /\
  (forall fuel ctl (c : WaitForControllerDone.cfg),
      WaitForControllerDone._items (WaitForControllerDone.self c) = Some ∅ ->
      WaitForControllerDone._item_type (WaitForControllerDone.self c) = None
      \/ WaitForControllerDone._rest_send (WaitForControllerDone.self c) = None ->
      exists msg, WaitForControllerDone.commit fuel ctl c = (Raise (ValueError msg), c))
  /\
  (forall fuel ctl (c : ImageValidate.cfg),
      ImageValidate._serial_numbers (ImageValidate.self c) = Some [] ->
      exists c',
        ImageValidate.commit fuel ctl c = (Ret tt, c')
        /\ ImageValidate.result_current (ImageValidate.out (ImageValidate.self c'))
           = [("success", PBool true)]
        /\ ImageValidate.w c' = ImageValidate.w c).
Proof.
  split; [|split].
  - intros fuel ctl c ty rs Hi Ht Hr.
    unfold WaitForControllerDone.commit, WaitForControllerDone.verify_commit_parameters,
      bind, get, ret.
    rewrite Hi, Ht, Hr. cbn. rewrite Hi, Hr. reflexivity.
  - intros fuel ctl c Hi H.
    unfold WaitForControllerDone.commit, WaitForControllerDone.verify_commit_parameters,
      bind, get.
    rewrite Hi.
    destruct (WaitForControllerDone._item_type (WaitForControllerDone.self c)) as [ty|];
      [|eauto].
    destruct (WaitForControllerDone._rest_send (WaitForControllerDone.self c)) as [rs|];
      [|eauto].
    destruct H as [H|H]; discriminate H.
  - intros fuel ctl c Hs.
    unfold ImageValidate.commit, ImageValidate.serial_numbers, bind, get.
    rewrite Hs. simpl. eexists. split; [reflexivity|]. split; reflexivity.
Qed.

End EmptyCommit.

(** ** The decision set of a dependent parameter *)

Section DecisionSet.

Import VerifyPlaybookParams.

Lemma lift_result_Some (o : outcome bool) (b : bool) :
  lift_result o = Ret (Some b) -> o = Ret b.
Proof. destruct o; simpl; intros H; inversion H; reflexivity. Qed.

Lemma playbook_valid_inv py_eval self p rule b :
  playbook_param_is_valid py_eval self p rule = Ret (Some b) ->
  exists cp v,
    config_playbook self = Some cp /\ dict_get p cp = Some v
    /\ eval_parameter_rule py_eval p (make_boolean v) rule = Ret b.
Proof.
  unfold playbook_param_is_valid.
  destruct (config_playbook self) as [cp|]; [|discriminate].
  destruct (dict_get p cp) as [v|] eqn:Ev; [|discriminate].
  intros H. apply lift_result_Some in H. eauto.
Qed.

Lemma playbook_absent py_eval self p rule cp :
  config_playbook self = Some cp -> dict_get p cp = None ->
  playbook_param_is_valid py_eval self p rule = Ret None.
Proof. intros H1 H2. unfold playbook_param_is_valid. rewrite H1, H2. reflexivity. Qed.

(** C9: the set returned by [update_decision_set] holds [True] only if the
    playbook has the dependent parameter and its value satisfies the rule.
    When the playbook lacks the parameter the set returned is exactly
    [{False}], whatever the controller configuration and the template
    default say; and it is returned (nothing is raised) whenever the
    controller configuration is set and the rule can be evaluated. *)
Theorem update_decision_set_playbook_gate
    (py_eval : evaluator) (self : t) (p : string) (rule : dict) :
  (forall s, update_decision_set py_eval self p rule = Ret s -> true ∈ s ->
     exists cp v,
       config_playbook self = Some cp /\ dict_get p cp = Some v
       /\ eval_parameter_rule py_eval p (make_boolean v) rule = Ret true)
  /\
  (forall cp s,
     config_playbook self = Some cp -> dict_get p cp = None ->
     update_decision_set py_eval self p rule = Ret s -> s = {[false]})
  /\
  (forall cp cc,
     config_playbook self = Some cp -> dict_get p cp = None ->
     config_controller self = Some cc ->
     (forall value, exists b, eval_parameter_rule py_eval p value rule = Ret b) ->
     update_decision_set py_eval self p rule = Ret {[false]}).
Proof.
  split; [|split].
  - intros s Hs Hin. unfold update_decision_set in Hs.
    destruct (controller_param_is_valid py_eval self p rule) as [cv| |]; try discriminate.
    destruct (playbook_param_is_valid py_eval self p rule) as [pv| |] eqn:Ep; try discriminate.
    destruct (default_param_is_valid py_eval self p rule) as [dv| |]; try discriminate.
    destruct pv as [[|]|]; simpl in Hs; inversion Hs; subst.
    + apply playbook_valid_inv in Ep. exact Ep.
    + set_solver.
    + set_solver.
  - intros cp s Hcp Habs Hs. unfold update_decision_set in Hs.
    rewrite (playbook_absent _ _ _ _ _ Hcp Habs) in Hs.
    destruct (controller_param_is_valid py_eval self p rule) as [cv| |]; try discriminate.
    destruct (default_param_is_valid py_eval self p rule) as [dv| |]; try discriminate.
    simpl in Hs. inversion Hs. reflexivity.
  - intros cp cc Hcp Habs Hcc Hev. unfold update_decision_set.
    rewrite (playbook_absent _ _ _ _ _ Hcp Habs).
    assert (Hc : exists cv, controller_param_is_valid py_eval self p rule = Ret cv).
    { unfold controller_param_is_valid. rewrite Hcc.
      destruct cc as [|kv cc']; [eauto|].
      destruct (dict_get p (kv :: cc')) as [v|]; [|eauto].
      destruct (Hev (make_boolean v)) as [b Hb]. rewrite Hb. simpl. eauto. }
    assert (Hd : exists dv, default_param_is_valid py_eval self p rule = Ret dv).
    { unfold default_param_is_valid. rewrite Hcp.
      destruct (dict_has p cp); [eauto|]. rewrite Hcc.
      destruct (dict_has p cc); [eauto|].
      destruct (dict_get p (fabric_defaults self)) as [v|]; [|eauto].
      destruct (Hev v) as [b Hb]. rewrite Hb. simpl. eauto. }
    destruct Hc as [cv ->]. destruct Hd as [dv ->]. reflexivity.
Qed.

End DecisionSet.

(** ** Deployed attachments *)

Section HaveDeploy.

Import DcnmNetworkv2.

Lemma record_deploy_lookup have_deploy a sn :
  default [] (record_deploy have_deploy a !! sn)
  = (default [] (have_deploy !! sn) ++ networks_of sn [a])%list.
Proof.
  unfold record_deploy, networks_of, deployed_on. simpl.
  destruct (deployed a) eqn:Ed; simpl.
  - destruct (String.eqb_spec (switchSerialNo a) sn) as [->|Hne]; simpl.
    + destruct (have_deploy !! sn) as [[|n ns]|] eqn:El;
        rewrite lookup_insert_eq; reflexivity.
    + destruct (have_deploy !! switchSerialNo a) as [[|n ns]|] eqn:El;
        rewrite lookup_insert_ne by exact Hne; rewrite app_nil_r; reflexivity.
  - rewrite app_nil_r. reflexivity.
Qed.

Lemma networks_of_app sn l1 l2 :
  networks_of sn (l1 ++ l2) = (networks_of sn l1 ++ networks_of sn l2)%list.
Proof. unfold networks_of. rewrite List.filter_app, List.map_app. reflexivity. Qed.

Lemma foldl_record_deploy l : forall have_deploy sn,
  default [] (foldl record_deploy have_deploy l !! sn)
  = (default [] (have_deploy !! sn) ++ networks_of sn l)%list.
Proof.
  induction l as [|a l IH]; intros have_deploy sn; simpl.
  - unfold networks_of. simpl. rewrite app_nil_r. reflexivity.
  - rewrite IH, record_deploy_lookup.
    change (a :: l) with ([a] ++ l)%list. rewrite networks_of_app.
    rewrite <- app_assoc. reflexivity.
Qed.

Lemma attach_list_step (have_deploy : gmap string (list string)) na sn :
  default []
    (match lanAttachList na with
     | [] => have_deploy
     | attach_list => foldl record_deploy have_deploy attach_list
     end !! sn)
  = (default [] (have_deploy !! sn) ++ networks_of sn (lanAttachList na))%list.
Proof.
  destruct (lanAttachList na) as [|a l].
  - unfold networks_of. simpl. rewrite app_nil_r. reflexivity.
  - apply (foldl_record_deploy (a :: l)).
Qed.

Lemma get_have_deploy_from DATA_ : forall have_deploy sn,
  default []
    (foldl (fun hd na =>
              match lanAttachList na with
              | [] => hd
              | attach_list => foldl record_deploy hd attach_list
              end) have_deploy DATA_ !! sn)
  = (default [] (have_deploy !! sn)
     ++ networks_of sn (concat (List.map lanAttachList DATA_)))%list.
Proof.
  induction DATA_ as [|na rest IH]; intros have_deploy sn.
  - unfold networks_of. simpl. rewrite app_nil_r. reflexivity.
  - cbn [foldl List.map concat]. rewrite IH, networks_of_app, app_assoc. f_equal.
    apply attach_list_step.
Qed.

(** C1: an attachment counts as deployed exactly when [isLanAttached] is
    truthy and [lanAttachState] is none of OUT-OF-SYNC, PENDING and FAILED;
    and what [get_have] leaves in [have_deploy] under a serial number is the
    list of the networks of the deployed attachments of that switch, in the
    order of the response (no entry when there is none). *)
Theorem get_have_deployed_classification :
  (forall a,
      deployed a = true <->
      truthy (isLanAttached a) = true
      /\ lanAttachState a <> "OUT-OF-SYNC"
      /\ lanAttachState a <> "PENDING"
      /\ lanAttachState a <> "FAILED")
  /\
  (forall DATA_ sn,
      default [] (get_have_deploy DATA_ !! sn)
      = List.map networkName
          (List.filter (fun a => deployed a && String.eqb (switchSerialNo a) sn)
             (concat (List.map lanAttachList DATA_))))
  /\
  (forall DATA_ sn, get_have_deploy DATA_ !! sn <> Some []).
Proof.
  split; [|split].
  - intros a. unfold deployed.
    destruct (truthy (isLanAttached a)); simpl.
    + destruct (String.eqb_spec (lanAttachState a) "OUT-OF-SYNC") as [E1|E1]; simpl.
      { split; [discriminate | intros (_ & H & _); contradiction]. }
      destruct (String.eqb_spec (lanAttachState a) "PENDING") as [E2|E2]; simpl.
      { split; [discriminate | intros (_ & _ & H & _); contradiction]. }
      destruct (String.eqb_spec (lanAttachState a) "FAILED") as [E3|E3]; simpl.
      { split; [discriminate | intros (_ & _ & _ & H); contradiction]. }
      split; [intros _; repeat split; assumption | reflexivity].
    + split; [discriminate | intros (H & _); discriminate].
  - intros DATA_ sn. unfold get_have_deploy.
    rewrite get_have_deploy_from. rewrite lookup_empty. reflexivity.
  - intros DATA_ sn. unfold get_have_deploy.
    assert (Hinv : forall l (hd : gmap string (list string)),
               (forall k, hd !! k <> Some []) ->
               forall k, foldl record_deploy hd l !! k <> Some []).
    { induction l as [|a l IH]; intros hd Hhd k; simpl; [apply Hhd|].
      apply IH. intros k'. unfold record_deploy.
      destruct (deployed a); [|apply Hhd].
      destruct (hd !! switchSerialNo a) as [[|n ns]|];
        (destruct (decide (switchSerialNo a = k')) as [->|Hne];
         [rewrite lookup_insert_eq; discriminate
         |rewrite lookup_insert_ne by exact Hne; apply Hhd]). }
    assert (Hout : forall D (hd : gmap string (list string)),
               (forall k, hd !! k <> Some []) ->
               forall k,
                 foldl (fun hd na =>
                          match lanAttachList na with
                          | [] => hd
                          | attach_list => foldl record_deploy hd attach_list
                          end) hd D !! k <> Some []).
    { induction D as [|na D IH]; intros hd Hhd k; cbn [foldl]; [apply Hhd|].
      apply IH. intros k'.
      destruct (lanAttachList na) as [|a l] eqn:El; [apply Hhd|].
      apply (Hinv (a :: l)). exact Hhd. }
    apply Hout. intros k. rewrite lookup_empty. discriminate.
Qed.

End HaveDeploy.

(** ** The wait loops *)

Section Polling.

Lemma polls_allowed_nonpos (interval timeout : Z) :
  0 < interval -> timeout <= 0 -> polls_allowed interval timeout = 0%nat.
Proof.
  intros Hi Ht. unfold polls_allowed.
  assert ((timeout + interval - 1) / interval <= 0).
  { apply Z.lt_succ_r. apply Z.div_lt_upper_bound; lia. }
  lia.
Qed.

Lemma polls_allowed_step (interval timeout : Z) :
  0 < interval -> 0 < timeout ->
  polls_allowed interval timeout = S (polls_allowed interval (timeout - interval)).
Proof.
  intros Hi Ht. unfold polls_allowed.
  replace (timeout + interval - 1) with ((timeout - interval + interval - 1) + 1 * interval) by lia.
  rewrite Z.div_add by lia.
  assert (0 <= (timeout - interval + interval - 1) / interval).
  { apply Z.div_pos; lia. }
  lia.
Qed.

Import WaitForControllerDone.

Lemma elem_of_mark_item snapshot (d : gset string) item x :
  x ∈ mark_item snapshot d item
  <-> x ∈ d \/ (x = item /\ actions_in_progress (snapshot item) = false).
Proof.
  unfold mark_item. case_bool_decide as Hin.
  - split; [auto | intros [H|[-> _]]; assumption].
  - destruct (actions_in_progress (snapshot item)); simpl.
    + split; [auto | intros [H|[_ H]]; [assumption | discriminate]].
    + rewrite elem_of_union, elem_of_singleton. tauto.
Qed.

Lemma elem_of_foldl_mark snapshot l : forall (d : gset string) x,
  x ∈ foldl (mark_item snapshot) d l
  <-> x ∈ d \/ (x ∈ l /\ actions_in_progress (snapshot x) = false).
Proof.
  induction l as [|a l IH]; intros d x; simpl.
  - rewrite elem_of_nil. tauto.
  - rewrite IH, elem_of_mark_item, elem_of_cons.
    split.
    + intros [[H|[-> H]]|[H1 H2]]; auto.
    + intros [H|[[->|H1] H2]]; auto.
Qed.

Lemma elem_of_mark_done snapshot (d todo_items : gset string) x :
  x ∈ mark_done snapshot d todo_items
  <-> x ∈ d \/ (x ∈ todo_items /\ actions_in_progress (snapshot x) = false).
Proof. unfold mark_done. rewrite elem_of_foldl_mark, elem_of_elements. reflexivity. Qed.

(** What one call of the loop establishes when the interval is positive
    and the fuel covers the passes the timeout allows: the loop ends, it
    polls at most that many times, it touches nothing but [done] and the
    world, and [done] reaches [todo] exactly when every item was already
    done or was reported idle by one of the polls. *)
Lemma wait_loop_spec ctl rs : forall fuel timeout c,
  0 < _check_interval (self c) ->
  (polls_allowed (_check_interval (self c)) timeout <= fuel)%nat ->
  exists c',
    wait_loop fuel ctl rs timeout c = (Ret tt, c')
    /\ (refreshes (w c') <= refreshes (w c)
                            + polls_allowed (_check_interval (self c)) timeout)%nat
    /\ todo (self c') = todo (self c)
    /\ _check_interval (self c') = _check_interval (self c)
    /\ _check_timeout (self c') = _check_timeout (self c)
    /\ _items (self c') = _items (self c)
    /\ _item_type (self c') = _item_type (self c)
    /\ _rest_send (self c') = _rest_send (self c)
    /\ (done (self c) ⊆ todo (self c) ->
        (done (self c') = todo (self c)
         <-> forall i, i ∈ todo (self c) ->
               i ∈ done (self c)
               \/ idle_within ctl (refreshes (w c))
                    (polls_allowed (_check_interval (self c)) timeout) i)).
Proof.
  induction fuel as [|fuel IH]; intros timeout c Hi Hfuel.
  - (* no fuel: the timeout allows no pass at all *)
    assert (Hn : polls_allowed (_check_interval (self c)) timeout = 0%nat) by lia.
    assert (Ht : timeout <= 0).
    { destruct (Z_le_gt_dec timeout 0) as [H|H]; [exact H|].
      rewrite polls_allowed_step in Hn by lia. discriminate. }
    exists c. simpl.
    replace (0 <? timeout) with false by (symmetry; apply Z.ltb_ge; exact Ht).
    rewrite andb_false_r. rewrite Hn.
    repeat split; try reflexivity; try lia.
    + intros Hd i Hin. left. rewrite Hd. exact Hin.
    + intros H'. apply set_eq. intros i. split; [apply H|].
      intros Hin. destruct (H' i Hin) as [Hd|(k & Hk & _)]; [exact Hd | lia].
  - simpl. case_bool_decide as Hne; simpl.
    + destruct (Z.ltb_spec 0 timeout) as [Ht|Ht].
      * (* one pass, then the induction hypothesis *)
        set (c1 := if negb (unit_test rs)
                   then set_world (sleep (_check_interval (self c))) c else c).
        set (c3 := set_done _ _).
        assert (Hr1 : refreshes (w c1) = refreshes (w c)).
        { unfold c1. destruct (unit_test rs); reflexivity. }
        assert (Hs1 : self c1 = self c).
        { unfold c1. destruct (unit_test rs); reflexivity. }
        assert (Hr3 : refreshes (w c3) = S (refreshes (w c))).
        { unfold c3. simpl. rewrite Hr1. reflexivity. }
        assert (Hd3 : forall x, x ∈ done (self c3)
                      <-> x ∈ done (self c)
                          \/ (x ∈ todo (self c)
                              /\ actions_in_progress
                                   (ctl (S (refreshes (w c))) x) = false)).
        { intros x. unfold c3. simpl. rewrite Hs1, Hr1. apply elem_of_mark_done. }
        assert (Ht3 : todo (self c3) = todo (self c)).
        { unfold c3. simpl. rewrite Hs1. reflexivity. }
        assert (Hi3 : _check_interval (self c3) = _check_interval (self c)).
        { unfold c3. simpl. rewrite Hs1. reflexivity. }
        rewrite polls_allowed_step in Hfuel by lia.
        destruct (IH (timeout - _check_interval (self c)) c3) as (c' & Hrun & Hpoll & Htodo
            & Hint & Htmo & Hitems & Hty & Hrs & Hdone).
        { rewrite Hi3. exact Hi. }
        { rewrite Hi3. lia. }
        exists c'. split; [exact Hrun|].
        rewrite (polls_allowed_step _ timeout) by lia.
        rewrite Hi3, Hr3 in Hpoll. rewrite Hi3, Hr3, Ht3 in Hdone.
        split; [lia|]. split; [congruence|].
        split; [congruence|].
        split; [rewrite Htmo; unfold c3; simpl; rewrite Hs1; reflexivity|].
        split; [rewrite Hitems; unfold c3; simpl; rewrite Hs1; reflexivity|].
        split; [rewrite Hty; unfold c3; simpl; rewrite Hs1; reflexivity|].
        split; [rewrite Hrs; unfold c3; simpl; rewrite Hs1; reflexivity|].
        rewrite Ht3 in Htodo. intros Hsub.
        assert (Hsub3 : done (self c3) ⊆ todo (self c)).
        { intros x Hx. apply Hd3 in Hx. destruct Hx as [Hx|[Hx _]];
            [apply Hsub; exact Hx | exact Hx]. }
        rewrite (Hdone Hsub3). clear Hdone Hrun.
        split; intros H i Hin; specialize (H i Hin).
        -- destruct H as [H|(k & Hk & Hidle)].
           ++ apply Hd3 in H. destruct H as [H|[_ H]]; [left; exact H|].
              right. exists 1%nat. split; [lia|].
              replace (refreshes (w c) + 1)%nat with (S (refreshes (w c))) by lia.
              exact H.
           ++ right. exists (S k). split; [lia|].
              replace (refreshes (w c) + S k)%nat with (S (refreshes (w c)) + k)%nat by lia.
              exact Hidle.
        -- destruct H as [H|(k & Hk & Hidle)].
           ++ left. apply Hd3. left. exact H.
           ++ destruct k as [|k]; [lia|]. destruct k as [|k].
              ** left. apply Hd3. right. split; [exact Hin|].
                 replace (S (refreshes (w c))) with (refreshes (w c) + 1)%nat by lia.
                 exact Hidle.
              ** right. exists (S k). split; [lia|].
                 replace (S (refreshes (w c)) + S k)%nat
                   with (refreshes (w c) + S (S k))%nat by lia.
                 exact Hidle.
      * (* the timeout is used up *)
        exists c. rewrite (polls_allowed_nonpos _ _ Hi Ht).
        repeat split; try reflexivity; try lia.
        -- intros Hd. contradiction.
        -- intros H'. exfalso. apply Hne. apply set_eq. intros i. split; [apply H|].
           intros Hin. destruct (H' i Hin) as [Hd|(k & Hk & _)]; [exact Hd | lia].
    + (* everything is done *)
      exists c. assert (Hd : done (self c) = todo (self c)).
      { destruct (decide (done (self c) = todo (self c))) as [E|E]; [exact E|contradiction]. }
      repeat split; try reflexivity; try lia.
      * intros _ i Hin. left. rewrite Hd. exact Hin.
      * intros _. exact Hd.
Qed.

(** [commit()] once the required properties are set and there is
    something to wait for. *)
Lemma commit_run fuel ctl c I ty rs :
  _items (self c) = Some I -> _item_type (self c) = Some ty ->
  _rest_send (self c) = Some rs -> I <> ∅ ->
  commit fuel ctl c =
    let r := wait_loop fuel ctl rs (_check_timeout (self c)) (set_todo I c) in
    match fst r with
    | Ret _ =>
        if bool_decide (done (self (snd r)) ≠ todo (self (snd r)))
        then (Raise (ValueError "Timed out waiting for controller actions to complete. "),
              snd r)
        else (Ret tt, snd r)
    | Raise e => (Raise e, snd r)
    | OutOfFuel => (OutOfFuel, snd r)
    end.
Proof.
  intros Hi Ht Hr Hne.
  unfold commit, verify_commit_parameters, bind, get, ret, modify.
  rewrite Hi, Ht, Hr. cbn. rewrite Hi, Hr.
  assert (Hs : (size I =? 0)%nat = false).
  { apply Nat.eqb_neq. intros H. apply Hne. apply size_empty_inv in H.
    apply leibniz_equiv. exact H. }
  rewrite Hs. cbn.
  destruct (wait_loop fuel ctl rs (_check_timeout (self c)) (set_todo I c))
    as [[u|e|] c'] eqn:E; cbn; try reflexivity.
  destruct (bool_decide (done (self c') ≠ todo (self c'))); reflexivity.
Qed.

Lemma commit_nothing fuel ctl c ty rs :
  _items (self c) = Some ∅ -> _item_type (self c) = Some ty ->
  _rest_send (self c) = Some rs ->
  commit fuel ctl c = (Ret tt, c).
Proof.
  intros Hi Ht Hr.
  unfold commit, verify_commit_parameters, bind, get, ret.
  rewrite Hi, Ht, Hr. cbn. rewrite Hi, Hr. reflexivity.
Qed.

(** C5, as amended: on an instance whose required properties are set,
    whose [done] set is empty (as [__init__] leaves it) and whose
    [check_interval] is positive, [commit()] returns exactly when every
    item was reported idle by one of the polls that [check_timeout] allows,
    and raises the timed-out [ValueError] exactly when some item was not.
    It ends in one of these two ways. *)
Theorem commit_raises_iff_timed_out fuel ctl (c : cfg) I ty rs :
  _items (self c) = Some I ->
  _item_type (self c) = Some ty ->
  _rest_send (self c) = Some rs ->
  done (self c) = ∅ ->
  0 < _check_interval (self c) ->
  (polls_allowed (_check_interval (self c)) (_check_timeout (self c)) <= fuel)%nat ->
  let n := polls_allowed (_check_interval (self c)) (_check_timeout (self c)) in
  let completed := forall i, i ∈ I -> idle_within ctl (refreshes (w c)) n i in
  (fst (commit fuel ctl c) = Ret tt <-> completed)
  /\ (fst (commit fuel ctl c)
        = Raise (ValueError "Timed out waiting for controller actions to complete. ")
      <-> ~ completed).
Proof.
  intros Hi Ht Hr Hd Hint Hfuel n completed.
  destruct (decide (I = ∅)) as [->|Hne].
  - rewrite (commit_nothing _ _ _ _ _ Hi Ht Hr). simpl.
    assert (Hc : completed).
    { intros i Hin. apply not_elem_of_empty in Hin. contradiction. }
    split; split; intros H; try reflexivity; try exact Hc; try discriminate.
    contradiction.
  - rewrite (commit_run _ _ _ _ _ _ Hi Ht Hr Hne).
    destruct (wait_loop_spec ctl rs fuel (_check_timeout (self c)) (set_todo I c))
      as (c' & Hrun & _ & Htodo & _ & _ & _ & _ & _ & Hdone).
    { exact Hint. }
    { exact Hfuel. }
    rewrite Hrun. cbn [fst snd]. rewrite Htodo. cbn [set_todo self todo] in *.
    assert (Hiff : done (self c') = I <-> completed).
    { rewrite Hdone.
      - cbn [done]. rewrite Hd. subst completed n. cbn [w _check_interval].
        split; intros H i Hin.
        + destruct (H i Hin) as [Hx|Hx]; [|exact Hx].
          apply not_elem_of_empty in Hx. contradiction.
        + right. apply H. exact Hin.
      - cbn [done]. rewrite Hd. apply empty_subseteq. }
    case_bool_decide as Hb; cbn [fst].
    + split; split; intros H; try discriminate; try reflexivity.
      * exfalso. apply Hb. apply Hiff. exact H.
      * intros Hc. apply Hb. apply Hiff. exact Hc.
    + assert (Heq : done (self c') = I).
      { destruct (decide (done (self c') = I)) as [E|E]; [exact E|contradiction]. }
      split; split; intros H; try discriminate; try reflexivity.
      * apply Hiff. exact Heq.
      * exfalso. apply H. apply Hiff. exact Heq.
Qed.


(** With a zero interval the timeout never decreases: while the controller
    keeps every switch busy, no amount of fuel ends the loop. *)
Lemma wait_loop_zero_interval ctl rs :
  (forall k item, actions_in_progress (ctl k item) = true) ->
  forall fuel timeout c,
    _check_interval (self c) = 0 -> 0 < timeout ->
    done (self c) <> todo (self c) ->
    fst (wait_loop fuel ctl rs timeout c) = OutOfFuel.
Proof.
  intros Hbusy. induction fuel as [|fuel IH]; intros timeout c Hz Ht Hne; simpl.
  - rewrite bool_decide_eq_true_2 by exact Hne.
    replace (0 <? timeout) with true by (symmetry; apply Z.ltb_lt; exact Ht).
    reflexivity.
  - rewrite bool_decide_eq_true_2 by exact Hne.
    replace (0 <? timeout) with true by (symmetry; apply Z.ltb_lt; exact Ht).
    assert (Hsame : forall (d t0 : gset string) k, mark_done (ctl k) d t0 = d).
    { intros d t0 k. apply set_eq. intros x. rewrite elem_of_mark_done.
      rewrite Hbusy. split; [intros [H|[_ H]]; [exact H | discriminate] | auto]. }
    simpl. apply IH.
    + destruct (unit_test rs); simpl; exact Hz.
    + rewrite Hz. lia.
    + simpl. rewrite Hsame. destruct (unit_test rs); simpl; exact Hne.
Qed.

End Polling.

Section PollingValidate.

Import ImageValidate.



Lemma validate_loop_S fuel ctl sns todo_ timeout c :
  validate_loop (S fuel) ctl sns todo_ timeout c =
    if bool_decide (serial_numbers_done (self c) ≠ todo_) && (0 <? timeout) then
      let c2 := on_world refresh
                  (if negb (unit_test (self c))
                   then on_world (sleep (_check_interval (self c))) c
                   else c) in
      match for_each sns (mark_validated (issu ctl (refreshes (w c2)))) c2 with
      | (Ret _, c3) =>
          validate_loop fuel ctl sns todo_ (timeout - _check_interval (self c)) c3
      | (Raise e, c3) => (Raise e, c3)
      | (OutOfFuel, c3) => (OutOfFuel, c3)
      end
    else (Ret tt, c).
Proof. reflexivity. Qed.





End PollingValidate.

(** ** push_to_remote: what is sent, and in which order *)

Section Steps.

Import DcnmNetworkv2.

(** A relation between the state before and after a computation that every
    step of it respects. *)
Variable R : cfg -> cfg -> Prop.
Hypothesis R_refl : forall c, R c c.
Hypothesis R_trans : forall a b c, R a b -> R b c -> R a c.

Lemma steps_ret {A} (a : A) : respects R (ret a).
Proof. intros c. apply R_refl. Qed.

Lemma steps_raise {A} (e : exn) : respects R (@raise cfg A e).
Proof. intros c. apply R_refl. Qed.

Lemma steps_out_of_fuel {A} : respects R (@out_of_fuel cfg A).
Proof. intros c. apply R_refl. Qed.

Lemma steps_get : respects R (@get cfg).
Proof. intros c. apply R_refl. Qed.

Lemma steps_modify (f : cfg -> cfg) : (forall c, R c (f c)) -> respects R (modify f).
Proof. intros H c. apply H. Qed.

Lemma steps_bind {A B} (m : M cfg A) (k : A -> M cfg B) :
  respects R m -> (forall a, respects R (k a)) -> respects R (bind m k).
Proof.
  intros Hm Hk c. unfold bind. specialize (Hm c).
  destruct (m c) as [[a|e|] c1]; simpl in *; try exact Hm.
  eapply R_trans; [exact Hm | apply Hk].
Qed.

Lemma steps_for_each {A} (xs : list A) (body : A -> M cfg unit) :
  (forall x, respects R (body x)) -> respects R (for_each xs body).
Proof.
  intros Hb. induction xs as [|x xs IH]; simpl.
  - apply steps_ret.
  - apply steps_bind; [apply Hb | intros _; exact IH].
Qed.

Lemma steps_failure resp : respects R (failure resp).
Proof. apply steps_ret. Qed.

End Steps.

(** Decomposes a monadic term along its binds, loops and case distinctions;
    [refl] and [trans] are the proofs that the relation is a preorder, and
    [leaf] closes the primitive steps. *)
Ltac walk refl trans leaf :=
  repeat first
    [ progress leaf
    | apply (steps_ret _ refl)
    | apply (steps_raise _ refl)
    | apply (steps_out_of_fuel _ refl)
    | apply (steps_get _ refl)
    | apply (steps_failure _ refl)
    | apply (steps_bind _ trans); [|intros ?]
    | apply (steps_for_each _ refl trans); intros ?
    | match goal with
      | |- respects _ (match ?x with _ => _ end) => destruct x
      | |- respects _ (if ?x then _ else _) => destruct x
      end ].

Section Emits.

Import DcnmNetworkv2.

Lemma emits_refl l c : emits l c c.
Proof.
  exists []. rewrite app_nil_r. split; [reflexivity|]. split; [constructor|].
  intros l' _. reflexivity.
Qed.

Lemma emits_trans l a b c : emits l a b -> emits l b c -> emits l a c.
Proof.
  intros (t1 & E1 & F1 & P1) (t2 & E2 & F2 & P2).
  exists (t1 ++ t2)%list. split; [rewrite E2, E1, app_assoc; reflexivity|].
  split; [apply Forall_app; split; assumption|].
  intros l' Hne. rewrite (P2 l' Hne). apply P1. exact Hne.
Qed.

Lemma emits_send ctl l method path : respects (emits l) (dcnm_send ctl l method path).
Proof.
  intros c. simpl. exists [Send l method path]. split; [reflexivity|].
  split; [repeat constructor|]. intros l' _. reflexivity.
Qed.

Lemma emits_sleep l seconds : respects (emits l) (sleep seconds).
Proof.
  intros c. simpl. exists [Sleep seconds]. split; [reflexivity|].
  split; [repeat constructor|]. intros l' _. reflexivity.
Qed.

(** A change of [self] that leaves the other layers' diffs alone. *)
Lemma emits_on_self l (f : t -> t) :
  (forall x l', l' <> l -> pending l' (f x) = pending l' x) ->
  respects (emits l) (modify (on_self f)).
Proof.
  intros H c. simpl. exists []. rewrite app_nil_r. split; [reflexivity|].
  split; [constructor|]. intros l' Hne. apply H. exact Hne.
Qed.

Lemma emits_handle l resp o : respects (emits l) (handle resp o).
Proof.
  unfold handle.
  apply (steps_bind _ (emits_trans l)).
  - apply emits_on_self. intros x l' _. destruct l'; reflexivity.
  - intros _. destruct (handle_response resp o) as [fail changed].
    apply (steps_bind _ (emits_trans l)).
    + apply emits_on_self. intros x l' _. destruct l'; reflexivity.
    + intros _. apply steps_ret. apply emits_refl.
Qed.

Lemma emits_on_fail l fail is_rollback resp :
  respects (emits l) (on_fail fail is_rollback resp).
Proof.
  unfold on_fail. destruct fail; [|apply steps_ret; apply emits_refl].
  destruct is_rollback.
  - apply (steps_bind _ (emits_trans l)).
    + apply emits_on_self. intros x l' _. destruct l'; reflexivity.
    + intros _. apply steps_ret. apply emits_refl.
  - apply (steps_bind _ (emits_trans l)).
    + apply steps_failure. apply emits_refl.
    + intros _. apply steps_ret. apply emits_refl.
Qed.

End Emits.

(** The primitive steps of a layer. *)
Ltac emits_leaf :=
  first
    [ assumption
    | apply emits_send
    | apply emits_sleep
    | apply emits_handle
    | apply emits_on_fail
    | apply emits_on_self;
      let x := fresh "x" in let l' := fresh "l'" in let Hne := fresh "Hne" in
      intros x l' Hne; destruct l'; try reflexivity; exfalso; apply Hne; reflexivity ].

Ltac emits_walk_with l extra :=
  walk (emits_refl l) (emits_trans l) ltac:(first [extra | emits_leaf]).

Ltac emits_walk l := emits_walk_with l fail.

Section EmitsLayers.

Import DcnmNetworkv2.

Lemma emits_update_loop ctl path is_rollback nets :
  respects (emits L_update) (update_loop ctl path is_rollback nets).
Proof.
  induction nets as [|n rest IH]; simpl.
  - apply steps_ret. apply emits_refl.
  - emits_walk L_update.
Qed.

Lemma emits_update ctl path is_rollback :
  respects (emits L_update) (push_to_remote_update ctl path is_rollback).
Proof.
  unfold push_to_remote_update.
  emits_walk_with L_update ltac:(apply emits_update_loop).
Qed.

Lemma emits_detach ctl path is_rollback :
  respects (emits L_detach) (push_to_remote_detach ctl path is_rollback).
Proof. unfold push_to_remote_detach. emits_walk L_detach. Qed.

Lemma emits_undeploy ctl is_rollback :
  respects (emits L_undeploy) (push_to_remote_undeploy ctl is_rollback).
Proof. unfold push_to_remote_undeploy. emits_walk L_undeploy. Qed.

Lemma emits_deploy ctl is_rollback :
  respects (emits L_deploy) (push_to_remote_deploy ctl is_rollback).
Proof. unfold push_to_remote_deploy. emits_walk L_deploy. Qed.

Lemma emits_del_ready_loop ctl network : forall fuel iter,
  respects (emits L_delete) (del_ready_loop fuel ctl network iter).
Proof.
  induction fuel as [|fuel IH]; intros iter; simpl.
  - apply steps_out_of_fuel. apply emits_refl.
  - emits_walk_with L_delete ltac:(apply IH).
Qed.

Lemma emits_wait_for_del_ready fuel ctl :
  respects (emits L_delete) (wait_for_del_ready fuel ctl).
Proof.
  unfold wait_for_del_ready.
  emits_walk_with L_delete ltac:(apply emits_del_ready_loop).
Qed.

Lemma emits_delete_loop ctl path is_rollback items : forall del_failure resp,
  respects (emits L_delete) (delete_loop ctl path is_rollback items del_failure resp).
Proof.
  induction items as [|[network state_] rest IH]; intros del_failure resp; simpl.
  - apply steps_ret. apply emits_refl.
  - emits_walk_with L_delete ltac:(apply IH).
Qed.

Lemma emits_delete fuel ctl path is_rollback :
  respects (emits L_delete) (push_to_remote_delete fuel ctl path is_rollback).
Proof.
  unfold push_to_remote_delete.
  emits_walk_with L_delete
    ltac:(first [apply emits_wait_for_del_ready | apply emits_delete_loop]).
Qed.

Lemma emits_create_loop ctl path is_rollback nets : forall i,
  respects (emits L_create) (create_loop ctl path is_rollback nets i).
Proof.
  induction nets as [|n rest IH]; intros i; simpl.
  - apply steps_ret. apply emits_refl.
  - emits_walk_with L_create ltac:(apply IH).
Qed.

Lemma emits_create ctl path is_rollback :
  respects (emits L_create) (push_to_remote_create ctl path is_rollback).
Proof.
  unfold push_to_remote_create.
  emits_walk_with L_create ltac:(apply emits_create_loop).
Qed.

Lemma emits_attach_attempts ctl attach_path : forall attempts last,
  respects (emits L_attach) (attach_attempts attempts ctl attach_path last).
Proof.
  induction attempts as [|attempts IH]; intros last; simpl.
  - apply steps_ret. apply emits_refl.
  - emits_walk_with L_attach ltac:(apply IH).
Qed.

Lemma emits_attach ctl path is_rollback :
  respects (emits L_attach) (push_to_remote_attach ctl path is_rollback).
Proof.
  unfold push_to_remote_attach.
  emits_walk_with L_attach ltac:(apply emits_attach_attempts).
Qed.

End EmitsLayers.

Section FirstRequest.

Import DcnmNetworkv2.

Lemma send_extends l ctl method path {B} (k : response -> M cfg B) c :
  (forall resp, respects (emits l) (k resp)) ->
  exists tr,
    trace (snd (bind (dcnm_send ctl l method path) k c))
    = (trace c ++ Send l method path :: tr)%list.
Proof.
  intros Hk. unfold bind, dcnm_send.
  match goal with |- context [k ?r ?c1] => destruct (Hk r c1) as (tr & E & _) end.
  exists tr. rewrite E. simpl. rewrite <- app_assoc. reflexivity.
Qed.

Lemma bind_extends l {A B} (m : M cfg A) (k : A -> M cfg B) c :
  (exists method path tr, trace (snd (m c)) = (trace c ++ Send l method path :: tr)%list) ->
  (forall a, respects (emits l) (k a)) ->
  exists method path tr,
    trace (snd (bind m k c)) = (trace c ++ Send l method path :: tr)%list.
Proof.
  intros (method & path & tr & E) Hk. unfold bind.
  destruct (m c) as [[a|e|] c1]; simpl in *; try (exists method, path, tr; exact E).
  destruct (Hk a c1) as (tr' & E' & _).
  exists method, path, (tr ++ tr')%list.
  rewrite E', E, <- app_assoc. reflexivity.
Qed.

(** Closes a goal about a run that starts with a request of layer [l],
    using [extra] for the loops that follow. *)
Ltac first_send l extra :=
  match goal with
  | |- exists method path tr,
         trace (snd (bind (dcnm_send ?ctl l ?m ?p) ?k ?c)) = _ =>
      let tr := fresh "tr" in
      let E := fresh "E" in
      destruct (send_extends l ctl m p k c) as (tr & E);
      [ intros ?; emits_walk_with l extra
      | exists m, p, tr; exact E ]
  end.

Ltac then_emits l extra :=
  apply (bind_extends l); [|intros ?; emits_walk_with l extra].

Lemma update_sends ctl path is_rollback :
  sends_on_return L_update (push_to_remote_update ctl path is_rollback).
Proof.
  intros c Hp _. unfold push_to_remote_update.
  unfold bind at 1, get. simpl in Hp.
  destruct (diff_create_update (self c)) as [|n rest]; [discriminate|].
  cbn [update_loop].
  first_send L_update ltac:(apply emits_update_loop).
Qed.

Lemma detach_sends ctl path is_rollback :
  sends_on_return L_detach (push_to_remote_detach ctl path is_rollback).
Proof.
  intros c _ Hret. unfold push_to_remote_detach in *.
  unfold bind at 1, get in Hret. unfold bind at 1, get.
  cbn [fst snd] in *.
  destruct (update_ms_fabric (self c) (diff_detach (self c))) as [d [e|]].
  { unfold bind, modify, raise in Hret. cbn [fst snd] in Hret. discriminate Hret. }
  unfold bind at 1, modify. cbn [fst snd].
  unfold bind at 1. cbn [fst snd].
  match goal with
  | |- context [bind _ _ ?c1] => change (trace c) with (trace c1)
  end.
  first_send L_detach fail.
Qed.

Lemma undeploy_sends ctl is_rollback :
  sends_on_return L_undeploy (push_to_remote_undeploy ctl is_rollback).
Proof.
  intros c _ _. unfold push_to_remote_undeploy.
  unfold bind at 1, modify. cbn [fst snd].
  match goal with
  | |- context [bind _ _ ?c1] => change (trace c) with (trace c1)
  end.
  first_send L_undeploy fail.
Qed.

Lemma deploy_sends ctl is_rollback :
  sends_on_return L_deploy (push_to_remote_deploy ctl is_rollback).
Proof.
  intros c _ _. unfold push_to_remote_deploy.
  unfold bind at 1, modify. cbn [fst snd].
  match goal with
  | |- context [bind _ _ ?c1] => change (trace c) with (trace c1)
  end.
  first_send L_deploy fail.
Qed.

Lemma create_sends ctl path is_rollback :
  sends_on_return L_create (push_to_remote_create ctl path is_rollback).
Proof.
  intros c Hp _. unfold push_to_remote_create.
  unfold bind at 1, get. simpl in Hp.
  destruct (diff_create (self c)) as [|n rest]; [discriminate|].
  cbn [create_loop].
  destruct (truthy (vlanId n)); cbn [negb].
  - unfold bind at 1, ret.
    first_send L_create ltac:(apply emits_create_loop).
  - then_emits L_create ltac:(apply emits_create_loop).
    unfold bind at 1, get.
    first_send L_create fail.
Qed.

Lemma attach_attempts_S attempts ctl attach_path last :
  attach_attempts (S attempts) ctl attach_path last =
    (let* resp := dcnm_send ctl L_attach "POST" attach_path in
     match update_in_progress (DATA resp) with
     | None => raise (AttributeError "keys")
     | Some true => sleep 1 ;; attach_attempts attempts ctl attach_path (resp, true)
     | Some false => ret (resp, false)
     end).
Proof. reflexivity. Qed.

Lemma attach_sends ctl path is_rollback :
  sends_on_return L_attach (push_to_remote_attach ctl path is_rollback).
Proof.
  intros c _ Hret. unfold push_to_remote_attach in *.
  unfold bind at 1, get in Hret. unfold bind at 1, get.
  cbn [fst snd] in *.
  destruct (update_ms_fabric (self c) (diff_attach (self c))) as [d [e|]].
  { unfold bind, modify, raise in Hret. cbn [fst snd] in Hret. discriminate Hret. }
  unfold bind at 1, modify. cbn [fst snd].
  unfold bind at 1. cbn [fst snd].
  match goal with
  | |- context [bind _ _ ?c1] => change (trace c) with (trace c1)
  end.
  then_emits L_attach fail.
  change 50%nat with (S 49). rewrite attach_attempts_S.
  first_send L_attach ltac:(apply emits_attach_attempts).
Qed.

Lemma del_ready_loop_S fuel ctl network iter :
  del_ready_loop (S fuel) ctl network iter =
    (let* c := get in
     let path := GET_NET_ATTACH (fabric (self c)) network in
     let* resp := dcnm_send ctl L_delete "GET" path in
     let iter' := S iter in
     match first_attach_list (DATA resp) with
     | Raise e => raise e
     | OutOfFuel => out_of_fuel
     | Ret None => ret tt
     | Ret (Some attach_list) =>
         let '(written, again) := scan_attach_list iter' attach_list in
         (match written with
          | Some v => modify (on_self (fun x =>
                        set_diff_delete (dict_update network v (diff_delete x)) x))
          | None => ret tt
          end) ;;
         if again then
           sleep WAIT_TIME_FOR_DELETE_LOOP ;;
           del_ready_loop fuel ctl network iter'
         else ret tt
     end).
Proof. reflexivity. Qed.

Lemma delete_sends fuel ctl path is_rollback :
  sends_on_return L_delete (push_to_remote_delete fuel ctl path is_rollback).
Proof.
  intros c Hp Hret. simpl in Hp.
  destruct (diff_delete (self c)) as [|[network state_] rest] eqn:Ed; [discriminate|].
  destruct fuel as [|fuel].
  - exfalso. unfold push_to_remote_delete, wait_for_del_ready in Hret.
    unfold bind at 1 in Hret. unfold bind at 1, get in Hret. rewrite Ed in Hret.
    cbn in Hret. discriminate Hret.
  - unfold push_to_remote_delete.
    then_emits L_delete ltac:(apply emits_delete_loop).
    unfold wait_for_del_ready. unfold bind at 1, get. rewrite Ed.
    then_emits L_delete fail.
    cbn [List.map for_each fst].
    then_emits L_delete ltac:(apply emits_del_ready_loop).
    rewrite del_ready_loop_S. unfold bind at 1, get. cbv zeta.
    first_send L_delete ltac:(apply emits_del_ready_loop).
Qed.

(** The wait before a delete has no bound of its own: while an attachment
    of the network stays in a state other than NA, OUT-OF-SYNC and FAILED,
    every pass asks for another. *)
Lemma del_ready_loop_unbounded network : forall fuel iter c,
  fst (del_ready_loop fuel stays_deployed network iter c) = OutOfFuel.
Proof.
  induction fuel as [|fuel IH]; intros iter c; [reflexivity|].
  rewrite del_ready_loop_S.
  unfold bind at 1, get. cbv zeta. unfold bind at 1, dcnm_send. cbn [fst snd].
  cbn [stays_deployed DATA first_attach_list lanAttachList scan_attach_list
       lanAttachState]. cbn [String.eqb Ascii.eqb Bool.eqb orb negb].
  unfold bind at 1, modify. cbn [fst snd].
  unfold bind at 1, sleep, modify. cbn [fst snd].
  apply IH.
Qed.

End FirstRequest.

Section PushOrder.

Import DcnmNetworkv2.

Lemma layer_rank_inj l1 l2 : layer_rank l1 = layer_rank l2 -> l1 = l2.
Proof. destruct l1, l2; simpl; intros H; try reflexivity; discriminate H. Qed.

Lemma layer_rank_bound l : (layer_rank l < 7)%nat.
Proof. destruct l; simpl; lia. Qed.

Lemma ordered_from_weaken tr : forall k k',
  (k' <= k)%nat -> ordered_from k tr -> ordered_from k' tr.
Proof.
  induction tr as [|[l m p|z] tr IH]; intros k k' Hk H; simpl in *.
  - exact I.
  - destruct H as [H1 H2]. split; [lia | exact H2].
  - eapply IH; eassumption.
Qed.

Lemma ordered_from_app t1 : forall lo mid t2,
  (lo <= mid)%nat ->
  ordered_from lo t1 -> ranks_below mid t1 -> ordered_from mid t2 ->
  ordered_from lo (t1 ++ t2).
Proof.
  induction t1 as [|[l m p|z] t1 IH]; intros lo mid t2 Hle H1 Hb H2; simpl in *.
  - eapply ordered_from_weaken; eassumption.
  - destruct H1 as [H1 H1']. inversion Hb as [|a0 l0 Ha Hb']; subst.
    split; [exact H1|]. apply (IH _ mid); try assumption. lia.
  - inversion Hb as [|a0 l0 Ha Hb']; subst. apply (IH _ mid); assumption.
Qed.

Lemma ordered_from_single l tr : Forall (by_layer l) tr -> ordered_from (layer_rank l) tr.
Proof.
  induction tr as [|[l' m p|z] tr IH]; intros H; simpl.
  - exact I.
  - inversion H as [|a0 l0 Ha Hb]; subst. simpl in Ha. subst l'.
    split; [lia | apply IH; exact Hb].
  - inversion H as [|a0 l0 Ha Hb]; subst. apply IH. exact Hb.
Qed.

Lemma ordered_from_later k tr : forall l m p,
  ordered_from k tr -> Send l m p ∈ tr -> (k <= layer_rank l)%nat.
Proof.
  revert k. induction tr as [|[l' m' p'|z] tr IH]; intros k l m p H Hin; simpl in H.
  - apply elem_of_nil in Hin. contradiction.
  - destruct H as [H1 H2]. apply elem_of_cons in Hin. destruct Hin as [E|Hin].
    + inversion E; subst. exact H1.
    + specialize (IH _ _ _ _ H2 Hin). lia.
  - apply elem_of_cons in Hin. destruct Hin as [E|Hin]; [discriminate E|].
    eapply IH; eassumption.
Qed.

(** In an ordered trace a request is never followed by one of a lower
    rank. *)
Lemma ordered_from_pair pre : forall k la ma pa mid lb mb pb post,
  ordered_from k (pre ++ Send la ma pa :: mid ++ Send lb mb pb :: post) ->
  (layer_rank la <= layer_rank lb)%nat.
Proof.
  induction pre as [|[l m p|z] pre IH]; intros k la ma pa mid lb mb pb post H; simpl in H.
  - destruct H as [_ H]. apply (ordered_from_later _ _ lb mb pb H).
    apply elem_of_app. right. apply elem_of_cons. left. reflexivity.
  - destruct H as [_ H]. eapply IH. exact H.
  - eapply IH. exact H.
Qed.

(** One layer, guarded by the test of its diff. *)
Lemma runs_when l (cond : t -> bool) (body : M cfg unit) :
  (forall x, cond x = pending l x) ->
  respects (emits l) body ->
  sends_on_return l body ->
  runs (layer_rank l) (S (layer_rank l)) (when cond body).
Proof.
  intros Hcond Hemit Hsend c. unfold when. unfold bind, get. cbn [fst snd].
  rewrite Hcond. destruct (pending l (self c)) eqn:Hp.
  - destruct (Hemit c) as (tr & E & Hall & Hframe).
    exists tr. split; [exact E|]. split; [|split; [|split]].
    + eapply Forall_impl; [exact Hall|]. intros [l' m p|z] Ha; [|exact I].
      simpl in Ha. subst l'. split; [lia | exact Hp].
    + apply ordered_from_single. exact Hall.
    + intros l' Hl'. apply Hframe. intros ->. lia.
    + intros Hret l' Hl' _.
      assert (l' = l) as -> by (apply layer_rank_inj; lia).
      destruct (Hsend c Hp Hret) as (m & p & tr' & E').
      rewrite E in E'. apply app_inv_head in E'. subst tr.
      exists m, p. apply elem_of_cons. left. reflexivity.
  - exists []. cbn [ret fst snd]. rewrite app_nil_r.
    split; [reflexivity|]. split; [constructor|]. split; [exact I|].
    split; [reflexivity|].
    intros _ l' Hl' Hp'.
    assert (l' = l) as -> by (apply layer_rank_inj; lia).
    rewrite Hp in Hp'. discriminate Hp'.
Qed.

(** Two groups of layers, one after the other. *)
Lemma runs_seq lo mid hi (m1 m2 : M cfg unit) :
  (lo <= mid)%nat -> (mid <= hi)%nat ->
  runs lo mid m1 -> runs mid hi m2 ->
  runs lo hi (m1 ;; m2).
Proof.
  intros Hlm Hmh H1 H2 c. unfold bind.
  destruct (H1 c) as (t1 & E1 & A1 & O1 & F1 & S1).
  assert (B1 : ranks_below mid t1).
  { eapply Forall_impl; [exact A1|]. intros [l m p|z] Ha; [|exact I]. simpl. lia. }
  assert (A1' : Forall (fun a => match a with
                                 | Send l _ _ =>
                                     (lo <= layer_rank l < hi)%nat
                                     /\ pending l (self c) = true
                                 | Sleep _ => True
                                 end) t1).
  { eapply Forall_impl; [exact A1|]. intros [l m p|z] Ha; [|exact I].
    destruct Ha as [Hr Hp]. split; [lia | exact Hp]. }
  destruct (m1 c) as [[[]|e|] c1] eqn:Em1; cbn [fst snd] in *.
  - destruct (H2 c1) as (t2 & E2 & A2 & O2 & F2 & S2).
    exists (t1 ++ t2)%list. split; [rewrite E2, E1, app_assoc; reflexivity|].
    split; [|split; [|split]].
    + apply Forall_app. split; [exact A1'|].
      eapply Forall_impl; [exact A2|]. intros [l m p|z] Ha; [|exact I].
      destruct Ha as [Hr Hp]. split; [lia|].
      rewrite <- (F1 l) by lia. exact Hp.
    + apply (ordered_from_app t1 lo mid t2); assumption.
    + intros l Hl. rewrite F2 by exact Hl. apply F1. lia.
    + intros Hret l Hl Hp.
      destruct (Nat.lt_ge_cases (layer_rank l) mid) as [Hlt|Hge].
      * destruct (S1 eq_refl l) as (m & p & Hin); [lia | exact Hp |].
        exists m, p. apply elem_of_app. left. exact Hin.
      * destruct (S2 Hret l) as (m & p & Hin); [lia | rewrite F1 by lia; exact Hp |].
        exists m, p. apply elem_of_app. right. exact Hin.
  - exists t1. split; [exact E1|]. split; [exact A1'|].
    split; [exact O1|]. split; [intros l Hl; apply F1; lia|].
    intros Hret. discriminate Hret.
  - exists t1. split; [exact E1|]. split; [exact A1'|].
    split; [exact O1|]. split; [intros l Hl; apply F1; lia|].
    intros Hret. discriminate Hret.
Qed.

Lemma push_to_remote_runs fuel ctl is_rollback :
  runs 0 7 (push_to_remote fuel ctl is_rollback).
Proof.
  assert (H : forall path,
    runs 0 7
      (when (fun x => nonempty (diff_create_update x))
            (push_to_remote_update ctl path is_rollback) ;;
       when (fun x => nonempty (diff_detach x))
            (push_to_remote_detach ctl path is_rollback) ;;
       when (fun x => nonempty_map (diff_undeploy x))
            (push_to_remote_undeploy ctl is_rollback) ;;
       when (fun x => nonempty (diff_delete x))
            (push_to_remote_delete fuel ctl path is_rollback) ;;
       when (fun x => nonempty (diff_create x))
            (push_to_remote_create ctl path is_rollback) ;;
       when (fun x => nonempty (diff_attach x))
            (push_to_remote_attach ctl path is_rollback) ;;
       when (fun x => nonempty_map (diff_deploy x))
            (push_to_remote_deploy ctl is_rollback))).
  { intros path.
    apply (runs_seq 0 1 7); [lia | lia | |].
    { apply (runs_when L_update); [reflexivity | apply emits_update | apply update_sends]. }
    apply (runs_seq 1 2 7); [lia | lia | |].
    { apply (runs_when L_detach); [reflexivity | apply emits_detach | apply detach_sends]. }
    apply (runs_seq 2 3 7); [lia | lia | |].
    { apply (runs_when L_undeploy);
        [reflexivity | apply emits_undeploy | apply undeploy_sends]. }
    apply (runs_seq 3 4 7); [lia | lia | |].
    { apply (runs_when L_delete); [reflexivity | apply emits_delete | apply delete_sends]. }
    apply (runs_seq 4 5 7); [lia | lia | |].
    { apply (runs_when L_create); [reflexivity | apply emits_create | apply create_sends]. }
    apply (runs_seq 5 6 7); [lia | lia | |].
    { apply (runs_when L_attach); [reflexivity | apply emits_attach | apply attach_sends]. }
    apply (runs_when L_deploy); [reflexivity | apply emits_deploy | apply deploy_sends]. }
  intros c. unfold push_to_remote. unfold bind at 1, get. apply H.
Qed.

(** C3: whatever the controller answers and however the call ends, the
    requests that [push_to_remote] adds to the trace come layer by layer in
    the order create-update, detach, undeploy, delete, create, attach,
    deploy: a request is never followed by a request of an earlier layer,
    so no delete, create, attach or deploy request precedes a detach or
    undeploy request.  Only layers whose diff is non-empty send anything,
    and when the call returns each of them has sent a request. *)
Theorem push_to_remote_fixed_order fuel ctl is_rollback (c : cfg) :
  exists tr,
    trace (snd (push_to_remote fuel ctl is_rollback c)) = (trace c ++ tr)%list
    /\ (forall pre la ma pa mid lb mb pb post,
          tr = (pre ++ Send la ma pa :: mid ++ Send lb mb pb :: post)%list ->
          (layer_rank la <= layer_rank lb)%nat)
    /\ (forall pre la ma pa mid lb mb pb post,
          tr = (pre ++ Send la ma pa :: mid ++ Send lb mb pb :: post)%list ->
          (lb = L_detach \/ lb = L_undeploy) ->
          la <> L_delete /\ la <> L_create /\ la <> L_attach /\ la <> L_deploy)
    /\ (forall l method path, Send l method path ∈ tr -> pending l (self c) = true)
    /\ (fst (push_to_remote fuel ctl is_rollback c) = Ret tt ->
        forall l, pending l (self c) = true -> exists method path, Send l method path ∈ tr).
Proof.
  destruct (push_to_remote_runs fuel ctl is_rollback c) as (tr & E & A & O & _ & S).
  exists tr. split; [exact E|].
  assert (Hpair : forall pre la ma pa mid lb mb pb post,
             tr = (pre ++ Send la ma pa :: mid ++ Send lb mb pb :: post)%list ->
             (layer_rank la <= layer_rank lb)%nat).
  { intros pre la ma pa mid lb mb pb post ->. eapply ordered_from_pair. exact O. }
  split; [exact Hpair|]. split; [|split].
  - intros pre la ma pa mid lb mb pb post Htr Hlb.
    specialize (Hpair _ _ _ _ _ _ _ _ _ Htr).
    destruct Hlb as [-> | ->]; simpl in Hpair;
      (repeat split; intros ->; simpl in Hpair; lia).
  - intros l method path Hin.
    rewrite Forall_forall in A. specialize (A _ Hin). simpl in A. apply A.
  - intros Hret l Hp. apply (S Hret l); [|exact Hp].
    pose proof (layer_rank_bound l). lia.
Qed.

End PushOrder.

(** ** The [changed] flag at exit *)

Section Changed.

Import DcnmNetworkv2.

Lemma keeps_refl c : keeps_changed c c.
Proof. intros H. exact H. Qed.

Lemma keeps_trans a b c : keeps_changed a b -> keeps_changed b c -> keeps_changed a c.
Proof. intros H1 H2 H. apply H2, H1, H. Qed.

Lemma keeps_send ctl l method path : respects keeps_changed (dcnm_send ctl l method path).
Proof. intros c H. exact H. Qed.

Lemma keeps_sleep seconds : respects keeps_changed (sleep seconds).
Proof. intros c H. exact H. Qed.

Lemma keeps_on_self (f : t -> t) :
  (forall x, result_changed (f x) = result_changed x) ->
  respects keeps_changed (modify (on_self f)).
Proof. intros Hf c H. simpl. rewrite Hf. exact H. Qed.

Lemma handle_response_clean resp o :
  clean resp -> o <> query_dcnm -> handle_response resp o = (false, true).
Proof.
  intros (Hc & Hm & He & H1 & H2 & H3) Ho. unfold handle_response.
  destruct o; try contradiction; simpl; rewrite Hc, Hm; simpl;
    rewrite ?H1, ?H2, ?H3, ?andb_false_r; simpl;
    (destruct He as [-> | ->]; reflexivity).
Qed.

Lemma keeps_handle resp o :
  clean resp -> o <> query_dcnm -> respects keeps_changed (handle resp o).
Proof.
  intros Hc Ho c _. unfold handle. rewrite (handle_response_clean _ _ Hc Ho).
  reflexivity.
Qed.

Lemma keeps_on_fail fail is_rollback resp :
  respects keeps_changed (on_fail fail is_rollback resp).
Proof.
  intros c H. unfold on_fail. destruct fail; [|exact H].
  destruct is_rollback; exact H.
Qed.

(** The continuation of a request sees a response of the controller. *)
Lemma steps_bind_send (R : cfg -> cfg -> Prop)
    (R_trans : forall a b c, R a b -> R b c -> R a c)
    ctl l method path {B} (k : response -> M cfg B) :
  respects R (dcnm_send ctl l method path) ->
  (forall n, respects R (k (ctl n method path))) ->
  respects R (bind (dcnm_send ctl l method path) k).
Proof.
  intros Hs Hk c. unfold bind. specialize (Hs c). unfold dcnm_send in *. simpl in *.
  eapply R_trans; [exact Hs | apply Hk].
Qed.

End Changed.

(** The primitive steps as far as [changed] goes, against a controller
    whose answers are all clean (hypothesis [Hclean] of the context). *)
Ltac keeps_leaf :=
  first
    [ assumption
    | apply (steps_bind_send _ keeps_trans); [apply keeps_send | intros ?]
    | apply keeps_sleep
    | apply keeps_on_fail
    | apply keeps_handle; [solve [auto] | discriminate]
    | apply keeps_on_self; intros ?; reflexivity ].

Ltac keeps_walk_with extra :=
  walk keeps_refl keeps_trans ltac:(first [extra | keeps_leaf]).

Section ChangedLayers.

Import DcnmNetworkv2.

Variable ctl : controller.
Hypothesis Hclean : forall n method path, clean (ctl n method path).

Lemma keeps_update_loop path is_rollback nets :
  respects keeps_changed (update_loop ctl path is_rollback nets).
Proof.
  induction nets as [|n rest IH]; simpl.
  - apply steps_ret. apply keeps_refl.
  - keeps_walk_with fail.
Qed.

Lemma keeps_del_ready_loop network : forall fuel iter,
  respects keeps_changed (del_ready_loop fuel ctl network iter).
Proof.
  induction fuel as [|fuel IH]; intros iter; simpl.
  - apply steps_out_of_fuel. apply keeps_refl.
  - keeps_walk_with ltac:(apply IH).
Qed.

Lemma keeps_delete_loop path is_rollback items : forall del_failure resp,
  respects keeps_changed (delete_loop ctl path is_rollback items del_failure resp).
Proof.
  induction items as [|[network state_] rest IH]; intros del_failure resp; simpl.
  - apply steps_ret. apply keeps_refl.
  - keeps_walk_with ltac:(apply IH).
Qed.

Lemma keeps_create_loop path is_rollback nets : forall i,
  respects keeps_changed (create_loop ctl path is_rollback nets i).
Proof.
  induction nets as [|n rest IH]; intros i; simpl.
  - apply steps_ret. apply keeps_refl.
  - keeps_walk_with ltac:(apply IH).
Qed.

Lemma keeps_attach_attempts attach_path : forall attempts last,
  respects keeps_changed (attach_attempts attempts ctl attach_path last).
Proof.
  induction attempts as [|attempts IH]; intros last; simpl.
  - apply steps_ret. apply keeps_refl.
  - keeps_walk_with ltac:(apply IH).
Qed.

(** The response handed on by the retry loop is one of the controller's. *)
Lemma attach_attempts_clean attach_path : forall attempts last c r c',
  (0 < attempts)%nat \/ clean (fst last) ->
  attach_attempts attempts ctl attach_path last c = (Ret r, c') ->
  clean (fst r).
Proof.
  induction attempts as [|attempts IH]; intros last c r c' Hlast Hrun.
  - simpl in Hrun. inversion Hrun; subst. destruct Hlast as [H|H]; [lia | exact H].
  - rewrite attach_attempts_S in Hrun. unfold bind at 1, dcnm_send in Hrun.
    cbn [fst snd] in Hrun.
    destruct (update_in_progress (DATA (ctl (calls c) "POST" attach_path))) as [[|]|].
    + unfold bind, sleep, modify in Hrun. cbn [fst snd] in Hrun.
      eapply IH; [|exact Hrun]. right. apply Hclean.
    + inversion Hrun; subst. apply Hclean.
    + discriminate Hrun.
Qed.

Lemma keeps_attach path is_rollback :
  respects keeps_changed (push_to_remote_attach ctl path is_rollback).
Proof.
  unfold push_to_remote_attach.
  apply (steps_bind _ keeps_trans); [apply steps_get; apply keeps_refl|].
  intros c0. destruct (update_ms_fabric (self c0) (diff_attach (self c0))) as [d err].
  apply (steps_bind _ keeps_trans); [apply keeps_on_self; intros ?; reflexivity|].
  intros _. destruct err as [e|]; [apply steps_raise; apply keeps_refl|].
  apply (steps_bind _ keeps_trans); [apply keeps_on_self; intros ?; reflexivity|].
  intros _ c. unfold bind.
  pose proof (keeps_attach_attempts (path ++ "/attachments") 50 (no_response, false) c) as H1.
  pose proof (attach_attempts_clean (path ++ "/attachments") 50 (no_response, false) c) as H2.
  destruct (attach_attempts 50 ctl (path ++ "/attachments")%string (no_response, false) c)
    as [[[resp in_progress]|e|] c1]; cbn [fst snd] in *; try exact H1.
  assert (Hc : clean resp).
  { apply (H2 (resp, in_progress) c1); [left; lia | reflexivity]. }
  eapply keeps_trans; [exact H1|].
  assert (Hk : respects keeps_changed
                 (let* fail := handle resp attach in
                  let* stop := on_fail (fail || in_progress) is_rollback (Logged resp) in
                  if stop then ret tt else sleep 10)).
  { keeps_walk_with fail. }
  apply Hk.
Qed.

Lemma keeps_push_to_remote fuel is_rollback :
  respects keeps_changed (push_to_remote fuel ctl is_rollback).
Proof.
  unfold push_to_remote, when, push_to_remote_update, push_to_remote_detach,
    push_to_remote_undeploy, push_to_remote_delete, wait_for_del_ready,
    push_to_remote_create, push_to_remote_deploy.
  keeps_walk_with
    ltac:(first [ apply keeps_update_loop | apply keeps_del_ready_loop
                | apply keeps_delete_loop | apply keeps_create_loop
                | apply keeps_attach ]).
Qed.

End ChangedLayers.

Section MainChanged.

Import DcnmNetworkv2.

Lemma bind_Ret {S A B} (m : M S A) (k : A -> M S B) s a s' :
  m s = (Ret a, s') -> bind m k s = k a s'.
Proof. intros H. unfold bind. rewrite H. reflexivity. Qed.

Lemma when_false (cond : t -> bool) body c :
  cond (self c) = false -> when cond body c = (Ret tt, c).
Proof. intros H. unfold when, bind, get. cbn [fst snd]. rewrite H. reflexivity. Qed.

(** With every diff empty [push_to_remote] does nothing at all. *)
Lemma push_nothing fuel ctl is_rollback c :
  (forall l, pending l (self c) = false) ->
  push_to_remote fuel ctl is_rollback c = (Ret tt, c).
Proof.
  intros H. unfold push_to_remote.
  rewrite (bind_Ret get _ c c c eq_refl). cbv zeta.
  rewrite (bind_Ret _ _ c tt c (when_false _ _ c (H L_update))).
  rewrite (bind_Ret _ _ c tt c (when_false _ _ c (H L_detach))).
  rewrite (bind_Ret _ _ c tt c (when_false _ _ c (H L_undeploy))).
  rewrite (bind_Ret _ _ c tt c (when_false _ _ c (H L_delete))).
  rewrite (bind_Ret _ _ c tt c (when_false _ _ c (H L_create))).
  rewrite (bind_Ret _ _ c tt c (when_false _ _ c (H L_attach))).
  apply (when_false _ _ c (H L_deploy)).
Qed.

Lemma main_without_diff fuel ctl c :
  any_diff (self c) = false ->
  main fuel ctl c = (Ret false, on_self (set_changed false) c).
Proof.
  intros H. unfold main.
  rewrite (bind_Ret _ _ c tt (on_self (set_changed false) c)).
  2:{ unfold modify, on_self. cbn beta. rewrite H. reflexivity. }
  unfold any_diff in H.
  repeat (apply orb_false_elim in H; destruct H as [H ?]).
  rewrite (bind_Ret _ _ _ tt (on_self (set_changed false) c)).
  - reflexivity.
  - apply push_nothing. intros l. destruct l; assumption.
Qed.

Lemma main_run fuel ctl c :
  main fuel ctl c =
    let r := push_to_remote fuel ctl false
               (on_self (fun x => set_changed (any_diff x) x) c) in
    match fst r with
    | Ret _ => (Ret (result_changed (self (snd r))), snd r)
    | Raise e => (Raise e, snd r)
    | OutOfFuel => (OutOfFuel, snd r)
    end.
Proof.
  unfold main, bind, modify, get, ret. cbn [fst snd].
  destruct (push_to_remote fuel ctl false _) as [[u|e|] c1]; reflexivity.
Qed.

(** C8, as amended: the [changed] the module exits with is [True] only if
    one of the eight diff collections is non-empty; when all are empty it
    is [False] and nothing is sent.  When one is non-empty, [changed] is
    [True] if every response of the controller is a clean success; a
    response that [handle_response] rates otherwise can leave it
    [False]. *)
Theorem main_changed_only_if_diff fuel ctl (c : cfg) :
  (result_changed (self (snd (main fuel ctl c))) = true -> any_diff (self c) = true)
  /\ (forall b, fst (main fuel ctl c) = Ret b ->
                b = result_changed (self (snd (main fuel ctl c))))
  /\ (any_diff (self c) = false ->
      main fuel ctl c = (Ret false, on_self (set_changed false) c))
  /\ ((forall n method path, clean (ctl n method path)) ->
      any_diff (self c) = true ->
      result_changed (self (snd (main fuel ctl c))) = true).
Proof.
  split; [|split; [|split]].
  - intros H. destruct (any_diff (self c)) eqn:Ed; [reflexivity|].
    rewrite (main_without_diff _ _ _ Ed) in H. simpl in H. discriminate H.
  - intros b. rewrite main_run. cbv zeta.
    destruct (push_to_remote fuel ctl false _) as [[u|e|] c1]; cbn [fst snd];
      try discriminate.
    intros H. inversion H. reflexivity.
  - apply main_without_diff.
  - intros Hclean Hd. rewrite main_run. cbv zeta.
    pose proof (keeps_push_to_remote ctl Hclean fuel false
                  (on_self (fun x => set_changed (any_diff x) x) c)) as Hk.
    destruct (push_to_remote fuel ctl false _) as [[u|e|] c1]; cbn [fst snd] in *;
      apply Hk; simpl; exact Hd.
Qed.

(** C2: [failure] does nothing, so a failed request is followed by no
    rollback: with two networks to create and a controller that refuses
    every request, [push_to_remote] sends both create requests and nothing
    else, does not mark a rollback, and returns. *)
Theorem push_failure_is_not_rolled_back :
  (forall resp c, failure resp c = (Ret tt, c))
  /\ fst (handle_response (server_error 0%nat "POST" "") create) = true
  /\ fst (push_to_remote 1 server_error false module_creating) = Ret tt
  /\ trace (snd (push_to_remote 1 server_error false module_creating))
     = [Send L_create "POST" (GET_NET "f1"); Send L_create "POST" (GET_NET "f1")]
  /\ failed_to_rollback (self (snd (push_to_remote 1 server_error false module_creating)))
     = false.
Proof.
  split; [reflexivity|]. repeat split; vm_compute; reflexivity.
Qed.

End MainChanged.

(** ** Sample runs *)

Section SampleRuns.

(** A switch that stays busy is polled three times in thirty seconds, ten
    seconds apart, before [commit()] gives up. *)
Example waiter_times_out :
  let r := WaitForControllerDone.commit 3 always_busy (waiter {["FDO211218HH"]} 10 30) in
  fst r = Raise (ValueError "Timed out waiting for controller actions to complete. ")
  /\ events (WaitForControllerDone.w (snd r))
     = [EvSleep 10; EvRefresh; EvSleep 10; EvRefresh; EvSleep 10; EvRefresh].
Proof. split; vm_compute; reflexivity. Qed.

(** A switch that is idle at the first poll ends the wait there. *)
Example waiter_returns :
  let r := WaitForControllerDone.commit 3 always_idle (waiter {["FDO211218HH"]} 10 30) in
  fst r = Ret tt
  /\ events (WaitForControllerDone.w (snd r)) = [EvSleep 10; EvRefresh]
  /\ WaitForControllerDone.done (WaitForControllerDone.self (snd r)) = {["FDO211218HH"]}.
Proof. repeat split; vm_compute; reflexivity. Qed.

(** Image validation of two switches: two refreshes to prune and check the
    list, one poll for running actions, the request, and one poll for the
    result. *)
Example validate_two_switches :
  let r := ImageValidate.commit 3 (validate_ok validates_later)
             (validator ["FDO211218HH"; "FDO211218GC"] 10 30) in
  fst r = Ret tt
  /\ events (ImageValidate.w (snd r))
     = [EvRefresh; EvRefresh; EvSleep 10; EvRefresh;
        EvSend ImageValidate.ep_verb ImageValidate.ep_path;
        EvSleep 10; EvRefresh]
  /\ length (ImageValidate.diff (ImageValidate.out (ImageValidate.self (snd r)))) = 2%nat.
Proof. repeat split; vm_compute; reflexivity. Qed.

(** An override that replaces one network by another: detach, undeploy and
    delete of the old network come before the create of the new one. *)
Example override_run :
  let r := DcnmNetworkv2.main 1 accepts_all module_overriding in
  fst r = Ret true
  /\ List.map (fun a => match a with
                        | DcnmNetworkv2.Send l method _ => Some (l, method)
                        | DcnmNetworkv2.Sleep _ => None
                        end) (DcnmNetworkv2.trace (snd r))
     = [Some (DcnmNetworkv2.L_detach, "POST"); None;
        Some (DcnmNetworkv2.L_undeploy, "POST");
        Some (DcnmNetworkv2.L_delete, "GET");
        Some (DcnmNetworkv2.L_delete, "DELETE");
        Some (DcnmNetworkv2.L_create, "POST")].
Proof. split; vm_compute; reflexivity. Qed.

(** The three texts that [handle_response] looks for. *)
Example handle_response_in_use :
  DcnmNetworkv2.handle_response
    {| DcnmNetworkv2.RETURN_CODE := 200; DcnmNetworkv2.MESSAGE := "OK";
       DcnmNetworkv2.ERROR := None; DcnmNetworkv2.DATA := DcnmNetworkv2.DataNone;
       DcnmNetworkv2.text := "Vlan 2301 is in use already" |}
    DcnmNetworkv2.attach = (true, false).
Proof. reflexivity. Qed.

Example handle_response_invalid_interfaces :
  DcnmNetworkv2.handle_response
    {| DcnmNetworkv2.RETURN_CODE := 200; DcnmNetworkv2.MESSAGE := "OK";
       DcnmNetworkv2.ERROR := None; DcnmNetworkv2.DATA := DcnmNetworkv2.DataNone;
       DcnmNetworkv2.text := "Invalid interfaces Ethernet1/99" |}
    DcnmNetworkv2.attach = (true, true).
Proof. reflexivity. Qed.

Example handle_response_not_found :
  DcnmNetworkv2.handle_response
    {| DcnmNetworkv2.RETURN_CODE := 404; DcnmNetworkv2.MESSAGE := "Not Found";
       DcnmNetworkv2.ERROR := Some "Not Found"; DcnmNetworkv2.DATA := DcnmNetworkv2.DataNone;
       DcnmNetworkv2.text := "" |}
    DcnmNetworkv2.query_dcnm = (true, false).
Proof. reflexivity. Qed.

End SampleRuns.

(** ** Instances of the statements above *)

Lemma commit_requires_properties_witness :
  (exists msg, FabricConfigSave.commit save_ok saver_fresh = (Raise (ValueError msg), saver_fresh))
  /\ (exists msg,
        WaitForControllerDone.commit 0 always_idle waiter_fresh
        = (Raise (ValueError msg), waiter_fresh)).
Proof.
  split.
  - apply (proj1 commit_requires_properties). left. reflexivity.
  - apply (proj2 commit_requires_properties). left. reflexivity.
Defined.

Lemma setters_reject_wrong_types_witness :
  (exists msg,
      WaitForControllerDone.check_interval_setter (PBool true) WaitForControllerDone.__init__
      = (Raise (TypeError msg), WaitForControllerDone.__init__))
  /\ (exists msg,
        WaitForControllerDone.check_timeout_setter (PInt (-5)) WaitForControllerDone.__init__
        = (Raise (ValueError msg), WaitForControllerDone.__init__))
  /\ (exists msg,
        FabricConfigSave.payload_setter (PDict [("DEPLOY", PBool true)])
          (FabricConfigSave.self saver_fresh)
        = (Raise (ValueError msg), FabricConfigSave.self saver_fresh))
  /\ (exists msg s',
        ImageValidate.serial_numbers_setter (PStr "FDO211218HH")
          (ImageValidate.self (validator ["FDO211218GC"] 10 1800))
        = (Raise (TypeError msg), s')
        /\ ImageValidate._serial_numbers s' = Some ["FDO211218GC"]).
Proof.
  pose proof setters_reject_wrong_types as (H1 & H2 & _ & _ & H5 & H6).
  split; [|split; [|split]].
  - apply (H1 (PBool true)). left. reflexivity.
  - apply (H2 (-5)). lia.
  - apply H5. right. exists [("DEPLOY", PBool true)]. split; reflexivity.
  - apply (H6 (PStr "FDO211218HH")). reflexivity.
Defined.

Lemma commit_nothing_to_wait_for_witness :
  WaitForControllerDone.commit 0 always_busy waiter_no_items = (Ret tt, waiter_no_items)
  /\ exists c',
       ImageValidate.commit 0 (validate_ok always_busy) (validator [] 10 1800) = (Ret tt, c')
       /\ ImageValidate.result_current (ImageValidate.out (ImageValidate.self c'))
          = [("success", PBool true)]
       /\ ImageValidate.w c' = world0.
Proof.
  split.
  - apply (proj1 commit_nothing_to_wait_for 0%nat always_busy waiter_no_items
             "serial_number" {| WaitForControllerDone.unit_test := false |});
      reflexivity.
  - apply (proj2 (proj2 commit_nothing_to_wait_for)). reflexivity.
Defined.

(** With [items] empty but [item_type] never assigned, [commit()] does
    raise: the check of the required properties comes first. *)
Lemma commit_empty_items_still_validates :
  WaitForControllerDone._items (WaitForControllerDone.self waiter_items_only) = Some ∅
  /\ WaitForControllerDone.commit 0 always_idle waiter_items_only
     = (Raise (ValueError "item_type must be set before calling commit()."),
        waiter_items_only).
Proof. split; reflexivity. Qed.

Lemma update_decision_set_playbook_gate_witness :
  VerifyPlaybookParams.update_decision_set eval_scalars verifier_absent "ENABLE_PBR" rule_true
  = Ret {[false]}.
Proof.
  apply (proj2 (proj2 (update_decision_set_playbook_gate
                         eval_scalars verifier_absent "ENABLE_PBR" rule_true))
           [("FABRIC_NAME", PStr "f1")] [("ENABLE_PBR", PStr "true")]);
    try reflexivity.
  intros value. eexists. reflexivity.
Defined.


(** C4 does not hold of the code: the setter accepts zero as
    [check_interval], and then [timeout -= self.check_interval] never lowers
    the timeout, so a switch that stays busy keeps the loop of [commit()]
    running whatever the fuel: it neither returns nor raises.  With an
    interval of 10 and a timeout of 30 the same call ends after three polls
    and raises, as the docstring of [commit()] says. *)
Lemma zero_interval_loop_never_ends :
  fst (WaitForControllerDone.check_interval_setter (PInt 0) WaitForControllerDone.__init__)
    = Ret tt
  /\ (forall fuel,
        fst (WaitForControllerDone.commit fuel always_busy (waiter {["FDO211218HH"]} 0 1800))
        = OutOfFuel)
  /\ fst (WaitForControllerDone.commit 3 always_busy (waiter {["FDO211218HH"]} 10 30))
     = Raise (ValueError "Timed out waiting for controller actions to complete. ")
  /\ refreshes (WaitForControllerDone.w
                  (snd (WaitForControllerDone.commit 3 always_busy
                          (waiter {["FDO211218HH"]} 10 30)))) = 3%nat.
Proof.
  split; [reflexivity|].
  split; [|split; vm_compute; reflexivity].
  intros fuel.
  rewrite (commit_run fuel always_busy (waiter {["FDO211218HH"]} 0 1800)
             {["FDO211218HH"]} "serial_number" {| WaitForControllerDone.unit_test := false |});
    try reflexivity.
  - cbv zeta.
    rewrite (wait_loop_zero_interval always_busy); try reflexivity.
    simpl. intros H. assert (Hin : "FDO211218HH" ∈ (∅ : gset string)).
      { rewrite H. apply elem_of_singleton. reflexivity. }
      apply not_elem_of_empty in Hin. exact Hin.
  - intros H. assert (Hin : "FDO211218HH" ∈ (∅ : gset string)).
    { rewrite <- H. apply elem_of_singleton. reflexivity. }
    apply not_elem_of_empty in Hin. exact Hin.
Qed.

Lemma commit_raises_iff_timed_out_witness :
  let c := waiter {["FDO211218HH"]} 10 30 in
  let completed :=
    forall i, i ∈ ({["FDO211218HH"]} : gset string) -> idle_within always_idle 0 3 i in
  (fst (WaitForControllerDone.commit 3 always_idle c) = Ret tt <-> completed)
  /\ (fst (WaitForControllerDone.commit 3 always_idle c)
        = Raise (ValueError "Timed out waiting for controller actions to complete. ")
      <-> ~ completed).
Proof.
  apply (commit_raises_iff_timed_out 3 always_idle (waiter {["FDO211218HH"]} 10 30)
           {["FDO211218HH"]} "serial_number" {| WaitForControllerDone.unit_test := false |});
    try reflexivity.
Defined.

(** Three ways in which [commit()] departs from "raises exactly when the
    items did not complete in time": an unset property raises before any
    poll; a [done] set left over from an earlier [commit()] makes a second
    one time out although its only item is idle at the first poll; and with
    a zero interval a busy switch never makes it raise. *)
Lemma commit_raise_is_not_only_timeout :
  WaitForControllerDone.commit 3 always_idle waiter_untyped
    = (Raise (ValueError "item_type must be set before calling commit()."), waiter_untyped)
  /\ (WaitForControllerDone.done (WaitForControllerDone.self waiter_reused)
        = {["FDO211218HH"]}
      /\ WaitForControllerDone._items (WaitForControllerDone.self waiter_reused)
         = Some {["FDO211218GC"]}
      /\ actions_in_progress
           (always_idle (S (refreshes (WaitForControllerDone.w waiter_reused))) "FDO211218GC")
         = false
      /\ fst (WaitForControllerDone.commit 3 always_idle waiter_reused)
         = Raise (ValueError "Timed out waiting for controller actions to complete. "))
  /\ (forall fuel,
        fst (WaitForControllerDone.commit fuel always_busy (waiter {["FDO211218HH"]} 0 1800))
        = OutOfFuel).
Proof.
  split; [reflexivity|]. split.
  - repeat split; vm_compute; reflexivity.
  - intros fuel.
    rewrite (commit_run fuel always_busy (waiter {["FDO211218HH"]} 0 1800)
               {["FDO211218HH"]} "serial_number" {| WaitForControllerDone.unit_test := false |});
      try reflexivity.
    + cbv zeta.
      rewrite (wait_loop_zero_interval always_busy); try reflexivity.
      simpl. intros H. assert (Hin : "FDO211218HH" ∈ (∅ : gset string)).
        { rewrite H. apply elem_of_singleton. reflexivity. }
        apply not_elem_of_empty in Hin. exact Hin.
    + intros H. assert (Hin : "FDO211218HH" ∈ (∅ : gset string)).
      { rewrite <- H. apply elem_of_singleton. reflexivity. }
      apply not_elem_of_empty in Hin. exact Hin.
Qed.

Lemma push_to_remote_fixed_order_witness :
  exists tr,
    DcnmNetworkv2.trace
      (snd (DcnmNetworkv2.push_to_remote 1 accepts_all false module_overriding))
    = (DcnmNetworkv2.trace module_overriding ++ tr)%list
    /\ (exists method path, DcnmNetworkv2.Send DcnmNetworkv2.L_detach method path ∈ tr)
    /\ (exists method path, DcnmNetworkv2.Send DcnmNetworkv2.L_create method path ∈ tr).
Proof.
  destruct (push_to_remote_fixed_order 1 accepts_all false module_overriding)
    as (tr & E & _ & _ & _ & S).
  exists tr. split; [exact E|]. split; apply S; reflexivity.
Defined.

Lemma main_changed_only_if_diff_witness :
  DcnmNetworkv2.result_changed
    (DcnmNetworkv2.self (snd (DcnmNetworkv2.main 1 accepts_all module_creating))) = true.
Proof.
  apply (proj2 (proj2 (proj2 (main_changed_only_if_diff 1 accepts_all module_creating)))).
  - intros n method path. unfold clean. simpl.
    repeat split; try reflexivity. left. reflexivity.
  - reflexivity.
Defined.

(** A deploy diff is pending, the controller accepts the deploy request but
    reports that no switch is pending: the module exits with [changed]
    [False]. *)
Lemma changed_false_despite_diff :
  DcnmNetworkv2.any_diff (DcnmNetworkv2.self module_deploying) = true
  /\ fst (DcnmNetworkv2.main 1 nothing_pending module_deploying) = Ret false
  /\ DcnmNetworkv2.trace (snd (DcnmNetworkv2.main 1 nothing_pending module_deploying))
     = [DcnmNetworkv2.Send DcnmNetworkv2.L_deploy "POST" DcnmNetworkv2.deploy_path].
Proof. repeat split; vm_compute; reflexivity. Qed.

(** * Further properties of the modelled code *)

(** ** Running a computation step by step *)

Section Runs.

Context {S A B : Type}.

Lemma run_bind (m : M S A) (k : A -> M S B) (s s' : S) (a : A) :
  m s = (Ret a, s') -> bind m k s = k a s'.
Proof. intros H. unfold bind. rewrite H. reflexivity. Qed.

Lemma run_bind_inv (m : M S A) (k : A -> M S B) (s s' : S) (b : B) :
  bind m k s = (Ret b, s') ->
  exists a s1, m s = (Ret a, s1) /\ k a s1 = (Ret b, s').
Proof.
  unfold bind. destruct (m s) as [[a|e|] s1]; intros H; try discriminate H. eauto.
Qed.

Lemma run_bind_raise (m : M S A) (k : A -> M S B) (s s' : S) (e : exn) :
  m s = (Raise e, s') -> bind m k s = (Raise e, s').
Proof. intros H. unfold bind. rewrite H. reflexivity. Qed.

Lemma run_bind_out_of_fuel (m : M S A) (k : A -> M S B) (s s' : S) :
  m s = (OutOfFuel, s') -> bind m k s = (OutOfFuel, s').
Proof. intros H. unfold bind. rewrite H. reflexivity. Qed.

End Runs.

(** ** Regular expressions *)

Section Regex.

Import Re.

Lemma matches_Void s : matches Void s = false.
Proof. induction s as [|c s IH]; simpl; [reflexivity | exact IH]. Qed.

Lemma matches_Alt s : forall r1 r2,
  matches (Alt r1 r2) s = matches r1 s || matches r2 s.
Proof. induction s as [|c s IH]; intros r1 r2; simpl; [reflexivity | apply IH]. Qed.

(** stdpp keeps [String.append] folded; these are its two equations. *)
Lemma append_nil_l (s : string) : (EmptyString ++ s)%string = s.
Proof. reflexivity. Qed.

Lemma append_cons (c : ascii) (s1 s2 : string) :
  (String c s1 ++ s2)%string = String c (s1 ++ s2)%string.
Proof. reflexivity. Qed.

Lemma append_nil_inv (s1 s2 : string) :
  EmptyString = (s1 ++ s2)%string -> s1 = EmptyString /\ s2 = EmptyString.
Proof.
  destruct s1; rewrite ?append_nil_l, ?append_cons; intros H;
    [split; congruence | discriminate].
Qed.

Lemma matches_Cat s : forall r1 r2,
  matches (Cat r1 r2) s = true <->
  exists s1 s2, s = (s1 ++ s2)%string /\ matches r1 s1 = true /\ matches r2 s2 = true.
Proof.
  induction s as [|c s IH]; intros r1 r2.
  - simpl. rewrite andb_true_iff. split.
    + intros [H1 H2]. exists EmptyString, EmptyString. auto.
    + intros (s1 & s2 & E & H1 & H2). apply append_nil_inv in E as [-> ->]. auto.
  - simpl. destruct (nullable r1) eqn:N.
    + rewrite matches_Alt, orb_true_iff, IH. split.
      * intros [(s1 & s2 & -> & H1 & H2) | H].
        -- exists (String c s1), s2. auto.
        -- exists EmptyString, (String c s). auto.
      * intros (s1 & s2 & E & H1 & H2).
        destruct s1 as [|c1 s1]; rewrite ?append_nil_l, ?append_cons in E.
        -- subst s2. right. exact H2.
        -- inversion E; subst. left. exists s1, s2. auto.
    + rewrite IH. split.
      * intros (s1 & s2 & -> & H1 & H2). exists (String c s1), s2. auto.
      * intros (s1 & s2 & E & H1 & H2).
        destruct s1 as [|c1 s1]; rewrite ?append_nil_l, ?append_cons in E.
        -- simpl in H1. congruence.
        -- inversion E; subst. exists s1, s2. auto.
Qed.

Lemma matches_Cat_Void s : forall r, matches (Cat Void r) s = false.
Proof. induction s as [|c s IH]; intros r; simpl; [reflexivity | apply IH]. Qed.

Lemma matches_Cat_Eps s r : matches (Cat Eps r) s = matches r s.
Proof.
  destruct s as [|c s]; simpl; [reflexivity|].
  rewrite matches_Alt, matches_Cat_Void. reflexivity.
Qed.

(** [[class]*] matches the strings made of characters of the class. *)
Lemma matches_Star_chars p s :
  matches (Star (Chr p)) s = forallb p (list_ascii_of_string s).
Proof.
  induction s as [|c s IH]; simpl; [reflexivity|].
  destruct (p c); simpl.
  - rewrite matches_Cat_Eps. exact IH.
  - apply matches_Cat_Void.
Qed.

(** [[class]+] matches the non-empty ones. *)
Lemma matches_Plus_chars p s :
  matches (Plus (Chr p)) s
  = match s with
    | EmptyString => false
    | String c rest => p c && forallb p (list_ascii_of_string rest)
    end.
Proof.
  destruct s as [|c s]; simpl; [reflexivity|].
  destruct (p c); simpl.
  - rewrite matches_Cat_Eps. apply matches_Star_chars.
  - apply matches_Cat_Void.
Qed.

Lemma list_ascii_of_string_app (s1 s2 : string) :
  list_ascii_of_string (s1 ++ s2)
  = (list_ascii_of_string s1 ++ list_ascii_of_string s2)%list.
Proof.
  induction s1 as [|c s1 IH]; rewrite ?append_nil_l, ?append_cons; simpl;
    [reflexivity | rewrite IH; reflexivity].
Qed.

End Regex.

(** ** Fabric endpoints *)

Section Endpoints.

Import Re ApiEndpoints Usage.

Lemma letter_name_char c : letter c = true -> name_char c = true.
Proof. unfold letter, name_char. intros ->. reflexivity. Qed.

Lemma fullmatch_fabric_name s :
  fullmatch _re_valid_fabric_name s = true <->
  exists c rest,
    s = String c rest /\ letter c = true
    /\ forallb name_char (list_ascii_of_string rest) = true.
Proof.
  unfold fullmatch, _re_valid_fabric_name. rewrite matches_Cat. split.
  - intros (s1 & s2 & -> & H1 & H2).
    rewrite matches_Plus_chars in H1. rewrite matches_Star_chars in H2.
    destruct s1 as [|c s1]; [discriminate|].
    apply andb_true_iff in H1 as [Hc H1].
    exists c, (s1 ++ s2)%string. split; [reflexivity|]. split; [exact Hc|].
    rewrite list_ascii_of_string_app, forallb_app, H2, andb_true_r.
    rewrite forallb_forall in *. intros x Hx. apply letter_name_char, H1, Hx.
  - intros (c & rest & -> & Hc & Hrest).
    exists (String c EmptyString), rest. split; [reflexivity|].
    rewrite matches_Plus_chars, matches_Star_chars, Hc. auto.
Qed.

(** X1: [validate_fabric_name] returns for exactly the [str] values whose
    first character is a letter and whose other characters are letters,
    digits, [_] or [-] (so never for the empty string); it raises
    [TypeError] for exactly the values that are not a [str], and
    [ValueError] for every other [str]. *)
Theorem validate_fabric_name_accepts (value : pyval) :
  (validate_fabric_name value = Ret tt <->
   exists c rest,
     value = PStr (String c rest) /\ letter c = true
     /\ forallb name_char (list_ascii_of_string rest) = true)
  /\
  ((exists msg, validate_fabric_name value = Raise (TypeError msg)) <->
   forall s, value <> PStr s)
  /\
  ((exists msg, validate_fabric_name value = Raise (ValueError msg)) <->
   exists s, value = PStr s /\ validate_fabric_name value <> Ret tt).
Proof.
  split; [|split].
  - destruct value as [|b|z|m e|s|l|d|st]; simpl;
      try (split; [discriminate | intros (c & rest & H & _); discriminate H]).
    destruct (fullmatch _re_valid_fabric_name s) eqn:E.
    + apply fullmatch_fabric_name in E as (c & rest & -> & Hc & Hr).
      split; [intros _; eauto | reflexivity].
    + split; [discriminate|].
      intros (c & rest & H & Hc & Hr). inversion H; subst.
      assert (fullmatch _re_valid_fabric_name (String c rest) = true)
        by (apply fullmatch_fabric_name; eauto).
      congruence.
  - destruct value as [|b|z|m e|s|l|d|st]; simpl;
      try (split; [intros _ s' H; discriminate H | intros _; eauto]).
    split.
    + intros [msg H]. destruct (fullmatch _re_valid_fabric_name s); discriminate H.
    + intros H. contradiction (H s). reflexivity.
  - destruct value as [|b|z|m e|s|l|d|st]; simpl;
      try (split; [intros [msg H]; discriminate H | intros (s' & H & _); discriminate H]).
    destruct (fullmatch _re_valid_fabric_name s).
    + split; [intros [msg H]; discriminate H | intros (s' & _ & H); contradiction H; reflexivity].
    + split; [intros _; exists s; split; [reflexivity | discriminate] | intros _; eauto].
Qed.

End Endpoints.

Section EndpointsBuilt.

Import Re ApiEndpoints Usage.

(** Only a validated name is ever stored. *)
Lemma built_fabric_name_valid x :
  endpoints_built x ->
  fabric_name x = PNone
  \/ exists name, fabric_name x = PStr name /\ validate_fabric_name (PStr name) = Ret tt.
Proof.
  induction 1 as [|value x Hx IH|value x Hx IH].
  - left. reflexivity.
  - unfold fabric_name_setter.
    destruct (validate_fabric_name value) as [[]|e|] eqn:Ev; simpl; try exact IH.
    right. destruct value as [|b|z|m e|s|l|d|st]; try discriminate Ev. eauto.
  - exact IH.
Qed.

Lemma valid_name_truthy name :
  validate_fabric_name (PStr name) = Ret tt -> truthy (PStr name) = true.
Proof.
  simpl. destruct (Re.fullmatch _re_valid_fabric_name name) eqn:E; [|discriminate].
  apply fullmatch_fabric_name in E as (c & rest & -> & _). reflexivity.
Qed.

Lemma fabric_summary_path name :
  Re.sub "_REPLACE_WITH_FABRIC_NAME_" name endpoint_fabric_summary
  = (endpoint_api_v1 ++ "/lan-fabric/rest/control/switches/" ++ name ++ "/overview")%string.
Proof. reflexivity. Qed.

(** X2: on an instance built through the property setters, the endpoints
    that need a fabric name raise [ValueError] exactly as long as no
    assignment to [fabric_name] has succeeded; from then on they return, and
    their paths are the fabrics path followed by the stored name (for
    [fabric_summary], the summary path with the name in place of the
    placeholder). *)
Theorem fabric_endpoints_need_fabric_name (render : pyval -> string) (x : t) :
  endpoints_built x ->
  (fabric_name x = PNone
   /\ fabric_config_deploy render x = Raise (ValueError "fabric_name is required.")
   /\ fabric_config_save render x = Raise (ValueError "fabric_name is required.")
   /\ fabric_delete render x = Raise (ValueError "fabric_name is required.")
   /\ fabric_info render x = Raise (ValueError "fabric_name is required.")
   /\ fabric_summary x = Raise (ValueError "fabric_name is required."))
  \/
  (exists name,
     fabric_name x = PStr name
     /\ validate_fabric_name (PStr name) = Ret tt
     /\ fabric_config_deploy render x
        = Ret (endpoint
                 (endpoint_fabrics ++ "/" ++ name
                  ++ "/config-deploy?forceShowRun=false&inclAllMSDSwitches")%string "POST")
     /\ fabric_config_save render x
        = Ret (endpoint (endpoint_fabrics ++ "/" ++ name ++ "/config-save")%string "POST")
     /\ fabric_delete render x
        = Ret (endpoint (endpoint_fabrics ++ "/" ++ name)%string "DELETE")
     /\ fabric_info render x
        = Ret (endpoint (endpoint_fabrics ++ "/" ++ name)%string "GET")
     /\ fabric_summary x
        = Ret (endpoint
                 (endpoint_api_v1 ++ "/lan-fabric/rest/control/switches/" ++ name
                  ++ "/overview")%string "GET")).
Proof.
  intros Hx. destruct (built_fabric_name_valid x Hx) as [E | (name & E & Hv)].
  - left. unfold fabric_config_deploy, fabric_config_save, fabric_delete, fabric_info,
      fabric_summary. rewrite E. simpl. repeat split; reflexivity.
  - right. exists name. pose proof (valid_name_truthy name Hv) as Ht.
    unfold fabric_config_deploy, fabric_config_save, fabric_delete, fabric_info,
      fabric_summary. rewrite E, Ht. cbn [negb str_].
    rewrite fabric_summary_path. repeat split; try reflexivity. exact Hv.
Qed.

(** X3: [fabric_create] and [fabric_update] return together or raise
    together: they return when a fabric name is stored and the template
    name is truthy, with the same path and the verbs POST and PUT; a missing
    fabric name is the error reported when both are missing. *)
Theorem fabric_create_and_update (render : pyval -> string) (x : t) :
  endpoints_built x ->
  (fabric_name x = PNone
   /\ fabric_create render x = Raise (ValueError "fabric_name is required.")
   /\ fabric_update render x = Raise (ValueError "fabric_name is required."))
  \/
  (fabric_name x <> PNone /\ truthy (template_name x) = false
   /\ fabric_create render x = Raise (ValueError "template_name is required.")
   /\ fabric_update render x = Raise (ValueError "template_name is required."))
  \/
  (exists name path,
     fabric_name x = PStr name /\ truthy (template_name x) = true
     /\ path = (endpoint_fabrics ++ "/" ++ name ++ "/" ++ str_ render (template_name x))%string
     /\ fabric_create render x = Ret (endpoint path "POST")
     /\ fabric_update render x = Ret (endpoint path "PUT")).
Proof.
  intros Hx. destruct (built_fabric_name_valid x Hx) as [E | (name & E & Hv)].
  - left. unfold fabric_create, fabric_update. rewrite E. simpl. auto.
  - right. pose proof (valid_name_truthy name Hv) as Ht.
    unfold fabric_create, fabric_update. rewrite E, Ht. cbn [negb str_].
    destruct (truthy (template_name x)) eqn:Et; cbn [negb].
    + right. exists name. eexists. repeat split; reflexivity.
    + left. repeat split; try reflexivity. discriminate.
Qed.

End EndpointsBuilt.

(** ** Image validation: the checks before the request *)

Section ValidateChecks.

Import ImageValidate.

Lemma list_remove_app x l1 l2 :
  ~ In x l1 -> list_remove x (l1 ++ x :: l2) = Some (l1 ++ l2)%list.
Proof.
  induction l1 as [|y l1 IH]; intros Hn; simpl.
  - rewrite String.eqb_refl. reflexivity.
  - destruct (String.eqb_spec y x) as [->|Hne].
    + contradiction Hn. left. reflexivity.
    + rewrite IH; [reflexivity|]. intros H. apply Hn. right. exact H.
Qed.

Lemma with_serial_numbers_same (c : cfg) l :
  _serial_numbers (self c) = Some l ->
  on_self (with_serial_numbers (Some l)) c = c.
Proof.
  destruct c as [[sns d p nd ci ct ut cm mn rs o] wd]. simpl. intros ->. reflexivity.
Qed.

(** The loop of [prune_serial_numbers], once the switches in [seen] are
    dealt with and those in [todo_] are still to come. *)
Lemma prune_loop (snapshot : string -> details) : forall todo_ seen (c : cfg),
  let unvalidated := fun sn => negb (String.eqb (validated (snapshot sn)) "Success") in
  (forall sn, In sn todo_ -> serial_number (snapshot sn) = sn) ->
  _serial_numbers (self c) = Some (List.filter unvalidated seen ++ todo_)%list ->
  for_each todo_ (fun sn =>
    if String.eqb (validated (snapshot sn)) "Success" then
      let* current := serial_numbers in
      match list_remove (serial_number (snapshot sn)) current with
      | Some l => modify (on_self (with_serial_numbers (Some l)))
      | None => raise (ValueError "list.remove(x): x not in list")
      end
    else ret tt) c
  = (Ret tt,
     on_self (with_serial_numbers (Some (List.filter unvalidated (seen ++ todo_)%list))) c).
Proof.
  induction todo_ as [|sn todo_ IH]; intros seen c unvalidated Hsn Hc.
  - simpl. rewrite app_nil_r in *. rewrite with_serial_numbers_same by exact Hc. reflexivity.
  - cbn [for_each]. unfold bind at 1.
    destruct (String.eqb (validated (snapshot sn)) "Success") eqn:Ev.
    + unfold serial_numbers, bind, get, ret. rewrite Hc.
      rewrite (Hsn sn) by (left; reflexivity). cbv beta iota.
      rewrite list_remove_app.
      2:{ intros Hin. apply filter_In in Hin as [_ Hin]. unfold unvalidated in Hin.
          rewrite Ev in Hin. discriminate Hin. }
      unfold modify. cbn [fst snd].
      rewrite (IH (seen ++ [sn])%list).
      * rewrite <- app_assoc. reflexivity.
      * intros x Hx. apply Hsn. right. exact Hx.
      * simpl. rewrite List.filter_app. simpl. fold (unvalidated sn).
        unfold unvalidated at 2. rewrite Ev. simpl. rewrite app_nil_r. reflexivity.
    + unfold ret. cbn [fst snd].
      rewrite (IH (seen ++ [sn])%list).
      * rewrite <- app_assoc. reflexivity.
      * intros x Hx. apply Hsn. right. exact Hx.
      * rewrite Hc, List.filter_app. simpl. fold (unvalidated sn).
        unfold unvalidated at 2. rewrite Ev. simpl. rewrite <- app_assoc. reflexivity.
Qed.

Lemma prune_run (ctl : remote) (c : cfg) (sns : list string) :
  let snapshot := issu ctl (S (refreshes (w c))) in
  _serial_numbers (self c) = Some sns ->
  (forall sn, In sn sns -> serial_number (snapshot sn) = sn) ->
  prune_serial_numbers ctl c
  = (Ret tt,
     on_self (with_serial_numbers
                (Some (List.filter
                         (fun sn => negb (String.eqb (validated (snapshot sn)) "Success"))
                         sns)))
       (on_world refresh c)).
Proof.
  intros snapshot Hc Hsn. unfold prune_serial_numbers.
  rewrite (run_bind _ _ c (on_world refresh c) tt) by reflexivity.
  rewrite (run_bind _ _ _ (on_world refresh c) (on_world refresh c)) by reflexivity.
  rewrite (run_bind serial_numbers _ _ (on_world refresh c) sns)
    by (unfold serial_numbers, bind, get; cbn [fst snd self on_world]; rewrite Hc;
        reflexivity).
  apply (prune_loop snapshot sns []); [exact Hsn | exact Hc].
Qed.

(** X4: [prune_serial_numbers] makes one [refresh()] and leaves in
    [serial_numbers], in their order, exactly the serial numbers whose
    switch is not reported as validated with "Success" (every occurrence of
    a validated one is removed); nothing else of the instance changes and
    nothing is raised, provided the details the controller returns for a
    serial number carry that serial number. *)
Theorem prune_serial_numbers_keeps_unvalidated (ctl : remote) (c : cfg) (sns : list string) :
  let snapshot := issu ctl (S (refreshes (w c))) in
  _serial_numbers (self c) = Some sns ->
  (forall sn, In sn sns -> serial_number (snapshot sn) = sn) ->
  prune_serial_numbers ctl c
  = (Ret tt,
     on_self (with_serial_numbers
                (Some (List.filter
                         (fun sn => negb (String.eqb (validated (snapshot sn)) "Success"))
                         sns)))
       (on_world refresh c)).
Proof. exact (prune_run ctl c sns). Qed.

(** The loop of [validate_serial_numbers]. *)
Lemma failed_loop (snapshot : string -> details) (sns : list string) (c : cfg) :
  for_each sns (fun sn =>
    if String.eqb (validated (snapshot sn)) "Failed"
    then raise (ValueError "image validation is failing for the following switch: ")
    else ret tt) c
  = (if existsb (fun sn => String.eqb (validated (snapshot sn)) "Failed") sns
     then Raise (ValueError "image validation is failing for the following switch: ")
     else Ret tt, c).
Proof.
  induction sns as [|sn sns IH]; simpl; [reflexivity|].
  unfold bind. destruct (String.eqb (validated (snapshot sn)) "Failed"); simpl.
  - reflexivity.
  - exact IH.
Qed.

(** X5: [validate_serial_numbers] makes one [refresh()] and raises
    [ValueError] exactly when one of the serial numbers is reported with the
    validation status "Failed"; either way the instance is left with
    [method_name] set and nothing else changed. *)
Theorem validate_serial_numbers_raises_iff_failed (ctl : remote) (c : cfg) (sns : list string) :
  let snapshot := issu ctl (S (refreshes (w c))) in
  let c' := on_world refresh (on_self (with_method_name "validate_serial_numbers") c) in
  _serial_numbers (self c) = Some sns ->
  ((exists sn, In sn sns /\ validated (snapshot sn) = "Failed") ->
   exists msg, validate_serial_numbers ctl c = (Raise (ValueError msg), c'))
  /\
  ((forall sn, In sn sns -> validated (snapshot sn) <> "Failed") ->
   validate_serial_numbers ctl c = (Ret tt, c')).
Proof.
  intros snapshot c' Hc.
  assert (Hrun : validate_serial_numbers ctl c
                 = (if existsb (fun sn => String.eqb (validated (snapshot sn)) "Failed") sns
                    then Raise (ValueError "image validation is failing for the following switch: ")
                    else Ret tt, c')).
  { unfold validate_serial_numbers.
    rewrite (run_bind _ _ c (on_self (with_method_name "validate_serial_numbers") c) tt)
      by reflexivity.
    rewrite (run_bind _ _ _ c' tt) by reflexivity.
    rewrite (run_bind _ _ _ c' c') by reflexivity.
    rewrite (run_bind serial_numbers _ _ c' sns)
      by (unfold serial_numbers, bind, get; cbn [fst snd]; unfold c';
          cbn [self on_world on_self with_method_name _serial_numbers]; rewrite Hc;
          reflexivity).
    apply failed_loop. }
  rewrite Hrun. split.
  - intros (sn & Hin & Hf).
    assert (E : existsb (fun sn => String.eqb (validated (snapshot sn)) "Failed") sns = true).
    { apply existsb_exists. exists sn. split; [exact Hin|]. rewrite Hf. reflexivity. }
    rewrite E. eauto.
  - intros Hno.
    assert (E : existsb (fun sn => String.eqb (validated (snapshot sn)) "Failed") sns = false).
    { apply not_true_is_false. intros E. apply existsb_exists in E as (sn & Hin & Hf).
      apply String.eqb_eq in Hf. exact (Hno sn Hin Hf). }
    rewrite E. reflexivity.
Qed.

End ValidateChecks.

(** ** Image validation: waiting for the validation *)

Section ValidateWait.

Import ImageValidate.

(** One pass over the serial numbers adds to [serial_numbers_done] only
    switches reported with "Success", and does not touch the world. *)
Lemma for_each_mark_validated_done snapshot sns : forall (c : cfg) o c',
  for_each sns (mark_validated snapshot) c = (o, c') ->
  w c' = w c
  /\ forall sn, sn ∈ serial_numbers_done (self c') ->
       sn ∈ serial_numbers_done (self c) \/ validated (snapshot sn) = "Success".
Proof.
  induction sns as [|x sns IH]; intros c o c' Hrun.
  - simpl in Hrun. inversion Hrun; subst. auto.
  - cbn [for_each] in Hrun.
    assert (Hstep : exists o1 c1,
               mark_validated snapshot x c = (o1, c1)
               /\ w c1 = w c
               /\ forall sn, sn ∈ serial_numbers_done (self c1) ->
                    sn ∈ serial_numbers_done (self c)
                    \/ validated (snapshot sn) = "Success").
    { unfold mark_validated, bind, get, ret, raise, modify. cbn [fst snd].
      destruct (bool_decide (x ∈ serial_numbers_done (self c))); [eauto 10|].
      destruct (String.eqb (validated (snapshot x)) "Failed"); [eauto 10|].
      destruct (String.eqb_spec (validated (snapshot x)) "Success") as [Es|Es];
        [|eauto 10].
      eexists _, _. split; [reflexivity|]. split; [reflexivity|].
      simpl. intros sn Hin. apply elem_of_union in Hin as [Hin|Hin]; [auto|].
      apply elem_of_singleton in Hin. subst sn. auto. }
    destruct Hstep as (o1 & c1 & Hx & Hw1 & Hd1).
    destruct o1 as [[]|e|].
    + rewrite (run_bind _ _ _ _ _ Hx) in Hrun.
      destruct (IH c1 o c' Hrun) as [Hw Hd]. split; [congruence|].
      intros sn Hin. destruct (Hd sn Hin) as [H|H]; [apply Hd1; exact H | auto].
    + rewrite (run_bind_raise _ _ _ _ _ Hx) in Hrun. inversion Hrun; subst. auto.
    + rewrite (run_bind_out_of_fuel _ _ _ _ Hx) in Hrun. inversion Hrun; subst. auto.
Qed.

(** Every switch in [serial_numbers_done] was reported with "Success" by a
    [refresh()] made after the first [start] ones. *)
Lemma validate_loop_sound ctl sns todo_ start : forall fuel timeout (c : cfg) o c',
  (start <= refreshes (w c))%nat ->
  (forall sn, sn ∈ serial_numbers_done (self c) ->
     exists k, (start < k <= refreshes (w c))%nat
               /\ validated (issu ctl k sn) = "Success") ->
  validate_loop fuel ctl sns todo_ timeout c = (o, c') ->
  (start <= refreshes (w c'))%nat
  /\ forall sn, sn ∈ serial_numbers_done (self c') ->
       exists k, (start < k <= refreshes (w c'))%nat
                 /\ validated (issu ctl k sn) = "Success".
Proof.
  induction fuel as [|fuel IH]; intros timeout c o c' Hstart Hdone Hrun.
  - simpl in Hrun.
    destruct (bool_decide (serial_numbers_done (self c) ≠ todo_) && (0 <? timeout));
      inversion Hrun; subst; auto.
  - rewrite validate_loop_S in Hrun.
    destruct (bool_decide (serial_numbers_done (self c) ≠ todo_) && (0 <? timeout));
      [|inversion Hrun; subst; auto].
    cbv zeta in Hrun.
    set (c2 := on_world refresh _) in Hrun.
    assert (Hr2 : refreshes (w c2) = S (refreshes (w c))).
    { unfold c2. simpl. destruct (unit_test (self c)); reflexivity. }
    assert (Hd2 : serial_numbers_done (self c2) = serial_numbers_done (self c)).
    { unfold c2. simpl. destruct (unit_test (self c)); reflexivity. }
    destruct (for_each sns (mark_validated (issu ctl (refreshes (w c2)))) c2)
      as [o3 c3] eqn:E3.
    destruct (for_each_mark_validated_done _ _ _ _ _ E3) as [Hw3 Hd3].
    assert (Hinv3 : forall sn, sn ∈ serial_numbers_done (self c3) ->
              exists k, (start < k <= refreshes (w c3))%nat
                        /\ validated (issu ctl k sn) = "Success").
    { intros sn Hin. rewrite Hw3, Hr2. destruct (Hd3 sn Hin) as [H|H].
      - rewrite Hd2 in H. destruct (Hdone sn H) as (k & Hk & Hs).
        exists k. split; [lia | exact Hs].
      - exists (S (refreshes (w c))). split; [lia|]. rewrite <- Hr2. exact H. }
    destruct o3 as [[]|e|].
    + eapply IH; [| exact Hinv3 | exact Hrun]. rewrite Hw3, Hr2. lia.
    + inversion Hrun; subst. split; [rewrite Hw3, Hr2; lia | exact Hinv3].
    + inversion Hrun; subst. split; [rewrite Hw3, Hr2; lia | exact Hinv3].
Qed.

Lemma wait_validate_sound (fuel : nat) (ctl : remote) (c c' : cfg)
    (sns : list string) :
  _serial_numbers (self c) = Some sns ->
  _wait_for_image_validate_to_complete fuel ctl c = (Ret tt, c') ->
  forall sn, In sn sns ->
    exists k, (refreshes (w c) < k <= refreshes (w c'))%nat
              /\ validated (issu ctl k sn) = "Success".
Proof.
  intros Hc Hrun sn Hin. unfold _wait_for_image_validate_to_complete in Hrun.
  set (c0 := on_self (with_done ∅)
               (on_self (with_method_name "_wait_for_image_validate_to_complete") c)) in *.
  rewrite (run_bind _ _ c
             (on_self (with_method_name "_wait_for_image_validate_to_complete") c) tt)
    in Hrun by reflexivity.
  rewrite (run_bind _ _ _ c0 tt) in Hrun by reflexivity.
  rewrite (run_bind _ _ _ c0 c0) in Hrun by reflexivity.
  rewrite (run_bind serial_numbers _ _ c0 sns) in Hrun
    by (unfold serial_numbers, bind, get; cbn [fst snd]; unfold c0;
        cbn [self on_self with_done with_method_name _serial_numbers]; rewrite Hc;
        reflexivity).
  destruct (validate_loop fuel ctl sns (list_to_set sns) (_check_timeout (self c0)) c0)
    as [o1 c1] eqn:E1.
  assert (Hsound := validate_loop_sound ctl sns (list_to_set sns) (refreshes (w c))
                      fuel (_check_timeout (self c0)) c0 o1 c1).
  destruct Hsound as [Hle Hinv]; [reflexivity | | exact E1 |].
  { intros x Hx. unfold c0 in Hx. simpl in Hx. set_solver. }
  destruct o1 as [[]|e|].
  - rewrite (run_bind _ _ _ _ _ E1) in Hrun.
    rewrite (run_bind _ _ _ c1 c1) in Hrun by reflexivity.
    case_bool_decide as Hd; [discriminate Hrun|].
    inversion Hrun; subst c'. apply Hinv.
    rewrite Hd. apply elem_of_list_to_set.
    apply list_elem_of_In. exact Hin.
  - rewrite (run_bind_raise _ _ _ _ _ E1) in Hrun. discriminate Hrun.
  - rewrite (run_bind_out_of_fuel _ _ _ _ E1) in Hrun. discriminate Hrun.
Qed.

(** X6: [_wait_for_image_validate_to_complete] returns normally only if
    every serial number of the instance was reported with the validation
    status "Success" by one of the polls this call made. *)
Theorem image_validate_wait_sound (fuel : nat) (ctl : remote) (c c' : cfg)
    (sns : list string) :
  _serial_numbers (self c) = Some sns ->
  _wait_for_image_validate_to_complete fuel ctl c = (Ret tt, c') ->
  forall sn, In sn sns ->
    exists k, (refreshes (w c) < k <= refreshes (w c'))%nat
              /\ validated (issu ctl k sn) = "Success".
Proof. exact (wait_validate_sound fuel ctl c c' sns). Qed.

(** A pass over the serial numbers raises when one of them is reported
    with "Failed", as long as the switches already done were all reported
    with "Success" by the same poll. *)
Lemma for_each_mark_validated_failed snapshot sns : forall (c : cfg),
  (forall sn, sn ∈ serial_numbers_done (self c) -> validated (snapshot sn) = "Success") ->
  (exists sn, In sn sns /\ validated (snapshot sn) = "Failed") ->
  exists c',
    for_each sns (mark_validated snapshot) c
    = (Raise (ValueError "validate image Failed for "), c')
    /\ w c' = w c.
Proof.
  induction sns as [|x sns IH]; intros c Hdone (sn & Hin & Hf).
  - contradiction Hin.
  - cbn [for_each].
    destruct (String.eqb_spec (validated (snapshot x)) "Failed") as [Ex|Ex].
    + exists c. split; [|reflexivity]. apply run_bind_raise.
      unfold mark_validated, bind, get. cbn [fst snd].
      case_bool_decide as Hd.
      * apply Hdone in Hd. rewrite Ex in Hd. discriminate Hd.
      * rewrite Ex. reflexivity.
    + destruct Hin as [->|Hin]; [contradiction|].
      assert (Hstep : exists c1,
                 mark_validated snapshot x c = (Ret tt, c1) /\ w c1 = w c
                 /\ forall y, y ∈ serial_numbers_done (self c1) ->
                      validated (snapshot y) = "Success").
      { unfold mark_validated, bind, get, ret, modify. cbn [fst snd].
        destruct (bool_decide (x ∈ serial_numbers_done (self c))); [eauto|].
        apply String.eqb_neq in Ex. rewrite Ex.
        destruct (String.eqb_spec (validated (snapshot x)) "Success") as [Es|Es];
          [|eauto].
        eexists. split; [reflexivity|]. split; [reflexivity|].
        simpl. intros y Hy. apply elem_of_union in Hy as [Hy|Hy]; [auto|].
        apply elem_of_singleton in Hy. subst y. exact Es. }
      destruct Hstep as (c1 & Hx & Hw1 & Hd1).
      destruct (IH c1 Hd1) as (c' & Hrun & Hw); [eauto|].
      exists c'. split; [|congruence].
      rewrite (run_bind _ _ _ _ _ Hx). exact Hrun.
Qed.

(** X7: when the first poll of [_wait_for_image_validate_to_complete]
    reports the validation status "Failed" for one of the serial numbers,
    the call raises [ValueError] during that poll, without waiting for the
    timeout: it has made one [refresh()] and no other. *)
Theorem image_validate_wait_fails_fast (fuel : nat) (ctl : remote) (c : cfg)
    (sns : list string) :
  _serial_numbers (self c) = Some sns ->
  0 < _check_timeout (self c) ->
  (exists sn, In sn sns /\ validated (issu ctl (S (refreshes (w c))) sn) = "Failed") ->
  exists msg c',
    _wait_for_image_validate_to_complete (S fuel) ctl c = (Raise (ValueError msg), c')
    /\ refreshes (w c') = S (refreshes (w c)).
Proof.
  intros Hc Ht (sn & Hin & Hf). unfold _wait_for_image_validate_to_complete.
  set (c0 := on_self (with_done ∅)
               (on_self (with_method_name "_wait_for_image_validate_to_complete") c)).
  rewrite (run_bind _ _ c
             (on_self (with_method_name "_wait_for_image_validate_to_complete") c) tt)
    by reflexivity.
  rewrite (run_bind _ _ _ c0 tt) by reflexivity.
  rewrite (run_bind _ _ _ c0 c0) by reflexivity.
  rewrite (run_bind serial_numbers _ _ c0 sns)
    by (unfold serial_numbers, bind, get; cbn [fst snd]; unfold c0;
        cbn [self on_self with_done with_method_name _serial_numbers]; rewrite Hc;
        reflexivity).
  assert (Hne : bool_decide (serial_numbers_done (self c0) ≠ list_to_set sns) = true).
  { apply bool_decide_eq_true. unfold c0. simpl. intros E.
    assert (sn ∈ (∅ : gset string)); [|set_solver].
    rewrite E. apply elem_of_list_to_set, list_elem_of_In. exact Hin. }
  set (c2 := on_world refresh
               (if negb (unit_test (self c0))
                then on_world (sleep (_check_interval (self c0))) c0 else c0)).
  assert (Hr2 : refreshes (w c2) = S (refreshes (w c))).
  { unfold c2. simpl. destruct (unit_test (self c)); reflexivity. }
  destruct (for_each_mark_validated_failed (issu ctl (refreshes (w c2))) sns c2)
    as (c3 & Hpass & Hw3).
  { unfold c2. simpl. destruct (unit_test (self c)); simpl; set_solver. }
  { exists sn. rewrite Hr2. auto. }
  exists "validate image Failed for ", c3. split; [|rewrite Hw3; exact Hr2].
  apply run_bind_raise. rewrite validate_loop_S, Hne.
  change (_check_timeout (self c0)) with (_check_timeout (self c)).
  replace (0 <? _check_timeout (self c)) with true by (symmetry; apply Z.ltb_lt; exact Ht).
  cbn [andb]. cbv zeta. fold c2. rewrite Hpass. reflexivity.
Qed.

End ValidateWait.

(** ** Relations kept along a computation *)

Section Throughout.

Import Usage.

Context {S : Type} (R : S -> S -> Prop).
Hypothesis R_refl : forall s, R s s.
Hypothesis R_trans : forall a b c, R a b -> R b c -> R a c.

Lemma throughout_ret {A} (a : A) : throughout R (ret a).
Proof. intros s. apply R_refl. Qed.

Lemma throughout_raise {A} (e : exn) : throughout R (@raise S A e).
Proof. intros s. apply R_refl. Qed.

Lemma throughout_get : throughout R (@get S).
Proof. intros s. apply R_refl. Qed.

Lemma throughout_modify (f : S -> S) : (forall s, R s (f s)) -> throughout R (modify f).
Proof. intros H s. apply H. Qed.

Lemma throughout_bind {A B} (m : M S A) (k : A -> M S B) :
  throughout R m -> (forall a, throughout R (k a)) -> throughout R (bind m k).
Proof.
  intros Hm Hk s. unfold bind. specialize (Hm s).
  destruct (m s) as [[a|e|] s1]; cbn [snd] in *; try exact Hm.
  eapply R_trans; [exact Hm | apply Hk].
Qed.

Lemma throughout_for_each {A} (xs : list A) (body : A -> M S unit) :
  (forall x, throughout R (body x)) -> throughout R (for_each xs body).
Proof.
  intros Hb. induction xs as [|x xs IH]; simpl.
  - apply throughout_ret.
  - apply throughout_bind; [apply Hb | intros _; exact IH].
Qed.

End Throughout.

(** ** Image validation: the request *)

Section ValidateRequest.

Import ImageValidate Usage.

Lemma quiet_refl c : validate_quiet c c.
Proof. reflexivity. Qed.

Lemma quiet_trans a b c : validate_quiet a b -> validate_quiet b c -> validate_quiet a c.
Proof. unfold validate_quiet. congruence. Qed.

Lemma quiet_on_self (f : t -> t) : throughout validate_quiet (modify (on_self f)).
Proof. intros c. reflexivity. Qed.

Lemma requests_app l1 l2 : requests (l1 ++ l2) = (requests l1 ++ requests l2)%list.
Proof. apply List.filter_app. Qed.

Lemma quiet_refresh c : validate_quiet c (on_world refresh c).
Proof.
  unfold validate_quiet. simpl. rewrite requests_app. simpl. apply app_nil_r.
Qed.

Lemma quiet_sleep seconds c : validate_quiet c (on_world (sleep seconds) c).
Proof.
  unfold validate_quiet. simpl. rewrite requests_app. simpl. apply app_nil_r.
Qed.

Lemma quiet_serial_numbers : throughout validate_quiet serial_numbers.
Proof.
  intros c. unfold serial_numbers, bind, get. cbn [fst snd].
  destruct (_serial_numbers (self c)); reflexivity.
Qed.

Ltac quiet_step :=
  first
    [ apply (throughout_ret validate_quiet quiet_refl)
    | apply (throughout_raise validate_quiet quiet_refl)
    | apply (throughout_get validate_quiet quiet_refl)
    | apply quiet_on_self
    | apply quiet_serial_numbers
    | apply (throughout_modify validate_quiet); intros ?; apply quiet_refresh ].

Ltac quiet_walk :=
  repeat first
    [ progress quiet_step
    | apply (throughout_bind validate_quiet quiet_trans); [|intros ?]
    | apply (throughout_for_each validate_quiet quiet_refl quiet_trans); intros ?
    | match goal with
      | |- throughout _ (if ?b then _ else _) => destruct b
      | |- throughout _ (match ?x with _ => _ end) => destruct x
      end ].

Lemma quiet_prune ctl : throughout validate_quiet (prune_serial_numbers ctl).
Proof. unfold prune_serial_numbers. quiet_walk. Qed.

Lemma quiet_validate_serial_numbers ctl :
  throughout validate_quiet (validate_serial_numbers ctl).
Proof. unfold validate_serial_numbers. quiet_walk. Qed.

Lemma quiet_build_payload : throughout validate_quiet build_payload.
Proof. unfold build_payload. quiet_walk. Qed.

Lemma quiet_actions_loop ctl sns todo_ : forall fuel timeout,
  throughout validate_quiet (actions_loop fuel ctl sns todo_ timeout).
Proof.
  induction fuel as [|fuel IH]; intros timeout c; simpl.
  - destruct (_ && _); reflexivity.
  - destruct (_ && _); [|reflexivity].
    eapply quiet_trans; [|apply IH].
    unfold validate_quiet. cbn [w on_self on_world].
    destruct (unit_test (self c)); simpl; rewrite !requests_app; simpl;
      rewrite ?app_nil_r; reflexivity.
Qed.

Lemma quiet_mark_validated snapshot sn :
  throughout validate_quiet (mark_validated snapshot sn).
Proof. unfold mark_validated. quiet_walk. Qed.

Lemma quiet_validate_loop ctl sns todo_ : forall fuel timeout,
  throughout validate_quiet (validate_loop fuel ctl sns todo_ timeout).
Proof.
  induction fuel as [|fuel IH]; intros timeout c.
  - simpl. destruct (_ && _); reflexivity.
  - rewrite validate_loop_S. destruct (_ && _); [|reflexivity]. cbv zeta.
    set (c2 := on_world refresh _).
    assert (H2 : validate_quiet c c2).
    { unfold c2, validate_quiet. cbn [w on_world].
      destruct (unit_test (self c)); simpl; rewrite !requests_app; simpl;
        rewrite ?app_nil_r; reflexivity. }
    pose proof (throughout_for_each validate_quiet quiet_refl quiet_trans sns
                  (mark_validated (issu ctl (refreshes (w c2))))
                  (quiet_mark_validated _) c2) as H3.
    destruct (for_each sns (mark_validated (issu ctl (refreshes (w c2)))) c2)
      as [[[]|e|] c3]; cbn [snd] in *.
    + eapply quiet_trans; [exact H2|]. eapply quiet_trans; [exact H3 | apply IH].
    + eapply quiet_trans; [exact H2 | exact H3].
    + eapply quiet_trans; [exact H2 | exact H3].
Qed.

Lemma quiet_wait_actions fuel ctl :
  throughout validate_quiet (_wait_for_current_actions_to_complete fuel ctl).
Proof.
  unfold _wait_for_current_actions_to_complete.
  repeat first
    [ apply quiet_actions_loop
    | progress quiet_step
    | apply (throughout_bind validate_quiet quiet_trans); [|intros ?]
    | match goal with
      | |- throughout _ (if ?b then _ else _) => destruct b
      end ].
Qed.

Lemma quiet_wait_validate fuel ctl :
  throughout validate_quiet (_wait_for_image_validate_to_complete fuel ctl).
Proof.
  unfold _wait_for_image_validate_to_complete.
  repeat first
    [ apply quiet_validate_loop
    | progress quiet_step
    | apply (throughout_bind validate_quiet quiet_trans); [|intros ?]
    | match goal with
      | |- throughout _ (if ?b then _ else _) => destruct b
      end ].
Qed.

Lemma once_after_quiet {A B} (m : M cfg A) (k : A -> M cfg B) :
  throughout validate_quiet m ->
  (forall a, throughout validate_at_most_once (k a)) ->
  throughout validate_at_most_once (bind m k).
Proof.
  intros Hm Hk c. unfold bind. specialize (Hm c).
  destruct (m c) as [[a|e|] c1]; cbn [snd] in *; try (left; exact Hm).
  destruct (Hk a c1) as [H|H]; [left | right].
  - eapply quiet_trans; [exact Hm | exact H].
  - rewrite H. unfold validate_quiet in Hm. rewrite Hm. reflexivity.
Qed.

Lemma once_send {B} (k : unit -> M cfg B) :
  (forall a, throughout validate_quiet (k a)) ->
  throughout validate_at_most_once (bind (modify (on_world (send ep_verb ep_path))) k).
Proof.
  intros Hk c. unfold bind, modify. cbn [fst snd]. right.
  rewrite (Hk tt (on_world (send ep_verb ep_path) c)).
  simpl. rewrite requests_app. reflexivity.
Qed.

(** X8: whatever the controller answers and however [commit] ends,
    [ImageValidate.commit] sends at most one request, the POST to the
    validate-image endpoint; all its other traffic is [refresh()] calls and
    sleeps. *)
Theorem image_validate_commit_sends_at_most_once (fuel : nat) (ctl : remote) (c : cfg) :
  let c' := snd (commit fuel ctl c) in
  requests (events (w c')) = requests (events (w c))
  \/ requests (events (w c'))
     = (requests (events (w c)) ++ [EvSend "POST" ep_path])%list.
Proof.
  assert (H : throughout validate_at_most_once (commit fuel ctl)); [|exact (H c)].
  unfold commit.
  apply once_after_quiet; [apply quiet_serial_numbers|]. intros sns.
  destruct (length sns =? 0)%nat.
  { intros c0. left. reflexivity. }
  apply once_after_quiet; [apply quiet_prune|]. intros _.
  apply once_after_quiet; [apply quiet_validate_serial_numbers|]. intros _.
  apply once_after_quiet; [apply quiet_wait_actions|]. intros _.
  apply once_after_quiet; [apply quiet_build_payload|]. intros _.
  apply once_after_quiet; [quiet_step|]. intros c1.
  apply once_after_quiet; [quiet_step|]. intros _.
  apply once_send. intros _.
  repeat first
    [ apply quiet_wait_validate
    | progress quiet_step
    | apply (throughout_bind validate_quiet quiet_trans); [|intros ?]
    | apply (throughout_for_each validate_quiet quiet_refl quiet_trans); intros ?
    | match goal with
      | |- throughout _ (if ?b then _ else _) => destruct b
      | |- throughout _ (match ?x with _ => _ end) => destruct x
      end ].
Qed.

End ValidateRequest.

(** ** Image validation: what a normal return of commit means *)

Section ValidateCommit.

Import ImageValidate Usage.

Lemma stable_refl c : validate_stable c c.
Proof. split; [reflexivity | lia]. Qed.

Lemma stable_trans a b c : validate_stable a b -> validate_stable b c -> validate_stable a c.
Proof. intros [H1 H2] [H3 H4]. split; [congruence | lia]. Qed.

Lemma stable_serial_numbers : throughout validate_stable serial_numbers.
Proof.
  intros c. unfold serial_numbers, bind, get. cbn [fst snd].
  destruct (_serial_numbers (self c)); apply stable_refl.
Qed.

Ltac stable_step :=
  first
    [ apply (throughout_ret validate_stable stable_refl)
    | apply (throughout_raise validate_stable stable_refl)
    | apply (throughout_get validate_stable stable_refl)
    | apply stable_serial_numbers
    | apply (throughout_modify validate_stable); intros ?; split;
      [reflexivity | cbn; lia] ].

Ltac stable_walk extra :=
  repeat first
    [ extra
    | progress stable_step
    | apply (throughout_bind validate_stable stable_trans); [|intros ?]
    | apply (throughout_for_each validate_stable stable_refl stable_trans); intros ?
    | match goal with
      | |- throughout _ (if ?b then _ else _) => destruct b
      | |- throughout _ (match ?x with _ => _ end) => destruct x
      end ].

Lemma stable_validate_serial_numbers ctl :
  throughout validate_stable (validate_serial_numbers ctl).
Proof. unfold validate_serial_numbers. stable_walk fail. Qed.

Lemma stable_build_payload : throughout validate_stable build_payload.
Proof. unfold build_payload. stable_walk fail. Qed.

Lemma stable_actions_loop ctl sns todo_ : forall fuel timeout,
  throughout validate_stable (actions_loop fuel ctl sns todo_ timeout).
Proof.
  induction fuel as [|fuel IH]; intros timeout c; simpl.
  - destruct (_ && _); apply stable_refl.
  - destruct (_ && _); [|apply stable_refl].
    eapply stable_trans; [|apply IH].
    split; [destruct (unit_test (self c)); reflexivity|].
    destruct (unit_test (self c)); simpl; lia.
Qed.

Lemma stable_mark_validated snapshot sn :
  throughout validate_stable (mark_validated snapshot sn).
Proof. unfold mark_validated. stable_walk fail. Qed.

Lemma stable_validate_loop ctl sns todo_ : forall fuel timeout,
  throughout validate_stable (validate_loop fuel ctl sns todo_ timeout).
Proof.
  induction fuel as [|fuel IH]; intros timeout c.
  - simpl. destruct (_ && _); apply stable_refl.
  - rewrite validate_loop_S. destruct (_ && _); [|apply stable_refl]. cbv zeta.
    set (c2 := on_world refresh _).
    assert (H2 : validate_stable c c2).
    { unfold c2. split; [destruct (unit_test (self c)); reflexivity|].
      destruct (unit_test (self c)); simpl; lia. }
    pose proof (throughout_for_each validate_stable stable_refl stable_trans sns
                  (mark_validated (issu ctl (refreshes (w c2))))
                  (stable_mark_validated _) c2) as H3.
    destruct (for_each sns (mark_validated (issu ctl (refreshes (w c2)))) c2)
      as [[[]|e|] c3]; cbn [snd] in *.
    + eapply stable_trans; [exact H2|]. eapply stable_trans; [exact H3 | apply IH].
    + eapply stable_trans; [exact H2 | exact H3].
    + eapply stable_trans; [exact H2 | exact H3].
Qed.

Lemma stable_wait_actions fuel ctl :
  throughout validate_stable (_wait_for_current_actions_to_complete fuel ctl).
Proof.
  unfold _wait_for_current_actions_to_complete.
  stable_walk ltac:(apply stable_actions_loop).
Qed.

Lemma stable_wait_validate fuel ctl :
  throughout validate_stable (_wait_for_image_validate_to_complete fuel ctl).
Proof.
  unfold _wait_for_image_validate_to_complete.
  stable_walk ltac:(apply stable_validate_loop).
Qed.

(** What a step that returned has kept. *)
Lemma stable_run {A} (m : M cfg A) (c c' : cfg) (a : A) :
  throughout validate_stable m -> m c = (Ret a, c') -> validate_stable c c'.
Proof. intros H E. specialize (H c). rewrite E in H. exact H. Qed.

(** X9: [ImageValidate.commit] on a non-empty list returns normally only if
    the controller's reply to the request carried a truthy [success] and
    every serial number of the list was reported with the validation status
    "Success" by one of the polls made during the call (at the first one for
    those pruned from the list, after the request for the others), provided
    the details returned for a serial number carry that serial number. *)
Theorem image_validate_commit_sound (fuel : nat) (ctl : remote) (c c' : cfg)
    (sns : list string) :
  _serial_numbers (self c) = Some sns ->
  sns <> [] ->
  (forall sn, In sn sns -> serial_number (issu ctl (S (refreshes (w c))) sn) = sn) ->
  commit fuel ctl c = (Ret tt, c') ->
  (exists ok,
     dict_get "success" (snd (rest_reply ctl ep_verb ep_path)) = Some ok
     /\ truthy ok = true)
  /\ forall sn, In sn sns ->
       exists k, (refreshes (w c) < k <= refreshes (w c'))%nat
                 /\ validated (issu ctl k sn) = "Success".
Proof.
  intros Hc Hne Hsn Hrun. unfold commit in Hrun.
  rewrite (run_bind serial_numbers _ c c sns) in Hrun
    by (unfold serial_numbers, bind, get; cbn [fst snd]; rewrite Hc; reflexivity).
  destruct sns as [|s0 rest]; [contradiction|]. cbn [length Nat.eqb] in Hrun.
  set (sns := s0 :: rest) in *.
  set (unvalidated := fun sn =>
         negb (String.eqb (validated (issu ctl (S (refreshes (w c))) sn)) "Success")).
  set (c1 := on_self (with_serial_numbers (Some (List.filter unvalidated sns)))
               (on_world refresh c)).
  rewrite (run_bind _ _ c c1 tt) in Hrun by (apply prune_run; assumption).
  apply run_bind_inv in Hrun as ([] & c2 & H2 & Hrun).
  apply (stable_run _ _ _ _ (stable_validate_serial_numbers ctl)) in H2.
  apply run_bind_inv in Hrun as ([] & c3 & H3 & Hrun).
  apply (stable_run _ _ _ _ (stable_wait_actions fuel ctl)) in H3.
  apply run_bind_inv in Hrun as ([] & c4 & H4 & Hrun).
  apply (stable_run _ _ _ _ stable_build_payload) in H4.
  rewrite (run_bind _ _ c4 c4 c4) in Hrun by reflexivity.
  apply run_bind_inv in Hrun as ([] & c5 & H5 & Hrun).
  unfold modify in H5. inversion H5 as [E5]. clear H5.
  apply run_bind_inv in Hrun as ([] & c6 & H6 & Hrun).
  unfold modify in H6. inversion H6 as [E6]. clear H6.
  apply run_bind_inv in Hrun as ([] & c7 & H7 & Hrun).
  unfold modify in H7. inversion H7 as [E7]. clear H7.
  destruct (dict_get "success" (snd (rest_reply ctl ep_verb ep_path))) as [ok|];
    [|discriminate Hrun].
  destruct (truthy ok) eqn:Hok; [|discriminate Hrun]. cbn [negb] in Hrun.
  split; [eauto|].
  apply run_bind_inv in Hrun as ([] & c8 & H8 & Hrun).
  unfold modify in H8. inversion H8 as [E8]. clear H8.
  apply run_bind_inv in Hrun as ([] & c9 & H9 & Hrun).
  rewrite (run_bind _ _ c9 c9 c9) in Hrun by reflexivity.
  assert (Htail : validate_stable c9 c').
  { eapply stable_run; [|exact Hrun].
    apply (throughout_for_each validate_stable stable_refl stable_trans). intros x.
    apply (throughout_modify validate_stable). intros y. split; [reflexivity | cbn; lia]. }
  assert (H14 : validate_stable c1 c4).
  { eapply stable_trans; [exact H2|]. eapply stable_trans; [exact H3 | exact H4]. }
  assert (H48 : validate_stable c4 c8).
  { subst c8 c7 c6 c5. split; [reflexivity | cbn; lia]. }
  assert (Hs8 : _serial_numbers (self c8) = Some (List.filter unvalidated sns)).
  { destruct H14 as [Ha _], H48 as [Hb _]. rewrite Hb, Ha. reflexivity. }
  assert (Hr8 : (S (refreshes (w c)) <= refreshes (w c8))%nat).
  { destruct H14 as [_ Ha], H48 as [_ Hb]. unfold c1 in Ha. simpl in Ha. lia. }
  assert (Hr9 : (refreshes (w c8) <= refreshes (w c9))%nat).
  { apply (stable_run _ _ _ _ (stable_wait_validate fuel ctl)) in H9 as H. apply H. }
  destruct Htail as [_ Hr'].
  intros sn Hin. destruct (unvalidated sn) eqn:Hu.
  - destruct (wait_validate_sound fuel ctl c8 c9 _ Hs8 H9 sn) as (k & Hk & Hs).
    { apply filter_In. auto. }
    exists k. split; [lia | exact Hs].
  - exists (S (refreshes (w c))). split; [lia|].
    unfold unvalidated in Hu. apply negb_false_iff, String.eqb_eq in Hu. exact Hu.
Qed.

End ValidateCommit.

(** ** Instances of the statements above *)

Lemma fabric_endpoints_need_fabric_name_witness :
  ApiEndpoints.fabric_config_save no_render endpoints_named
  = Ret (ApiEndpoints.endpoint
           "/appcenter/cisco/ndfc/api/v1/rest/control/fabrics/MyFabric/config-save" "POST").
Proof.
  destruct (fabric_endpoints_need_fabric_name no_render endpoints_named
              (Usage.built_fabric_name (PStr "MyFabric") _ Usage.built_init))
    as [[H _] | (name & Hn & _ & _ & Hs & _)].
  - vm_compute in H. discriminate H.
  - vm_compute in Hn. injection Hn as <-. exact Hs.
Defined.

Lemma fabric_create_and_update_witness :
  ApiEndpoints.fabric_update no_render endpoints_templated
  = Ret (ApiEndpoints.endpoint
           "/appcenter/cisco/ndfc/api/v1/rest/control/fabrics/MyFabric/Easy_Fabric" "PUT").
Proof.
  destruct (fabric_create_and_update no_render endpoints_templated
              (Usage.built_template_name (PStr "Easy_Fabric") _
                 (Usage.built_fabric_name (PStr "MyFabric") _ Usage.built_init)))
    as [(H & _) | [(_ & H & _) | (name & path & Hn & _ & Hp & _ & Hu)]].
  - vm_compute in H. discriminate H.
  - vm_compute in H. discriminate H.
  - vm_compute in Hn. injection Hn as <-. rewrite Hu, Hp. reflexivity.
Defined.

Lemma prune_serial_numbers_keeps_unvalidated_witness :
  ImageValidate._serial_numbers
    (ImageValidate.self
       (snd (ImageValidate.prune_serial_numbers (validate_ok one_validated)
               (validator ["FDO211218HH"; "FDO211218GC"; "FDO211218HH"] 10 30))))
  = Some ["FDO211218GC"].
Proof.
  rewrite (prune_serial_numbers_keeps_unvalidated (validate_ok one_validated)
             (validator ["FDO211218HH"; "FDO211218GC"; "FDO211218HH"] 10 30)
             ["FDO211218HH"; "FDO211218GC"; "FDO211218HH"]).
  - reflexivity.
  - reflexivity.
  - intros sn [<-|[<-|[<-|[]]]]; reflexivity.
Defined.

Lemma validate_serial_numbers_raises_iff_failed_witness :
  exists msg c',
    ImageValidate.validate_serial_numbers (validate_ok validation_failed)
      (validator ["FDO211218HH"] 10 30)
    = (Raise (ValueError msg), c').
Proof.
  destruct (validate_serial_numbers_raises_iff_failed (validate_ok validation_failed)
              (validator ["FDO211218HH"] 10 30) ["FDO211218HH"] eq_refl) as [H _].
  destruct H as [msg H].
  - exists "FDO211218HH". split; [left; reflexivity | reflexivity].
  - exists msg. eexists. exact H.
Defined.

Lemma image_validate_wait_sound_witness :
  exists k,
    (0 < k <= 4)%nat
    /\ validated (validates_later k "FDO211218HH") = "Success".
Proof.
  destruct (image_validate_wait_sound 4 (validate_ok validates_later)
              (validator ["FDO211218HH"] 10 60)
              (snd (ImageValidate._wait_for_image_validate_to_complete 4
                      (validate_ok validates_later) (validator ["FDO211218HH"] 10 60)))
              ["FDO211218HH"] eq_refl eq_refl "FDO211218HH" (or_introl eq_refl))
    as (k & Hk & Hs).
  exists k. split; [exact Hk | exact Hs].
Defined.

Lemma image_validate_wait_fails_fast_witness :
  exists msg c',
    ImageValidate._wait_for_image_validate_to_complete 1 (validate_ok validation_failed)
      (validator ["FDO211218GC"; "FDO211218HH"] 10 1800)
    = (Raise (ValueError msg), c')
    /\ refreshes (ImageValidate.w c') = 1%nat.
Proof.
  apply (image_validate_wait_fails_fast 0 (validate_ok validation_failed)
           (validator ["FDO211218GC"; "FDO211218HH"] 10 1800)
           ["FDO211218GC"; "FDO211218HH"]).
  - reflexivity.
  - reflexivity.
  - exists "FDO211218HH". split; [right; left; reflexivity | reflexivity].
Defined.

Lemma image_validate_commit_sound_witness :
  (exists ok,
     dict_get "success"
       (snd (ImageValidate.rest_reply (validate_ok validates_later) "POST"
               ImageValidate.ep_path)) = Some ok
     /\ truthy ok = true)
  /\ (exists k, (0 < k <= 4)%nat /\ validated (validates_later k "FDO211218HH") = "Success")
  /\ (exists k, (0 < k <= 4)%nat /\ validated (validates_later k "FDO211218GC") = "Success").
Proof.
  destruct (image_validate_commit_sound 3 (validate_ok validates_later)
              (validator ["FDO211218HH"; "FDO211218GC"] 10 30)
              (snd (ImageValidate.commit 3 (validate_ok validates_later)
                      (validator ["FDO211218HH"; "FDO211218GC"] 10 30)))
              ["FDO211218HH"; "FDO211218GC"]) as [Hok Hall].
  - reflexivity.
  - discriminate.
  - intros sn _. reflexivity.
  - vm_compute. reflexivity.
  - split; [exact Hok|]. split; apply Hall; simpl; auto.
Defined.

(** ** Saving a fabric configuration *)

Section ConfigSave.

Import FabricConfigSave.

(** The check assumed for [ConversionUtils.validate_fabric_name] is the one
    of fabric/endpoints.py. *)
Lemma in_range_codes (lo hi c : ascii) :
  Re.in_range lo hi c
  = ((nat_of_ascii lo <=? nat_of_ascii c) && (nat_of_ascii c <=? nat_of_ascii hi))%nat.
Proof. reflexivity. Qed.

Lemma ascii_eqb_code (c d : ascii) :
  Ascii.eqb c d = (nat_of_ascii c =? nat_of_ascii d)%nat.
Proof.
  destruct (Ascii.eqb_spec c d) as [->|Hne].
  - symmetry. apply Nat.eqb_refl.
  - symmetry. apply Nat.eqb_neq. intros H. apply Hne.
    rewrite <- (ascii_nat_embedding c), <- (ascii_nat_embedding d), H. reflexivity.
Qed.

Lemma letter_is_letter c : ApiEndpoints.letter c = is_letter c.
Proof.
  unfold ApiEndpoints.letter, is_letter. rewrite !in_range_codes. simpl nat_of_ascii at 1 3 4 6.
  apply orb_comm.
Qed.

Lemma name_char_is_name_char c : ApiEndpoints.name_char c = is_name_char c.
Proof.
  unfold is_name_char. rewrite <- letter_is_letter.
  unfold ApiEndpoints.name_char, ApiEndpoints.letter.
  rewrite !ascii_eqb_code, !in_range_codes. reflexivity.
Qed.

Lemma validate_fabric_name_agrees (value : pyval) :
  (validate_fabric_name value = Ret tt <-> ApiEndpoints.validate_fabric_name value = Ret tt)
  /\ ((exists msg, validate_fabric_name value = Raise (TypeError msg))
      <-> exists msg, ApiEndpoints.validate_fabric_name value = Raise (TypeError msg)).
Proof.
  destruct value as [|b|z|m e|s|l|d|st]; simpl;
    try (split; split; solve [discriminate | intros [msg H]; discriminate H | eauto]).
  assert (E : Re.fullmatch ApiEndpoints._re_valid_fabric_name s
              = match s with
                | EmptyString => false
                | String c rest =>
                    is_letter c && forallb is_name_char (list_ascii_of_string rest)
                end).
  { destruct (Re.fullmatch ApiEndpoints._re_valid_fabric_name s) eqn:Em.
    - apply fullmatch_fabric_name in Em as (c & rest & -> & Hc & Hr).
      rewrite <- letter_is_letter, Hc. symmetry. cbn [andb].
      rewrite forallb_forall in Hr. apply forallb_forall. intros x Hx.
      rewrite <- name_char_is_name_char. apply Hr, Hx.
    - destruct s as [|c rest]; [reflexivity|].
      destruct (is_letter c && forallb is_name_char (list_ascii_of_string rest)) eqn:Ec;
        [|reflexivity].
      apply andb_true_iff in Ec as [Hc Hr].
      assert (Re.fullmatch ApiEndpoints._re_valid_fabric_name (String c rest) = true);
        [|congruence].
      apply fullmatch_fabric_name. exists c, rest. split; [reflexivity|].
      rewrite letter_is_letter. split; [exact Hc|].
      rewrite forallb_forall in Hr. apply forallb_forall. intros x Hx.
      rewrite name_char_is_name_char. apply Hr, Hx. }
  rewrite E. destruct s as [|c rest].
  - split; split; solve [discriminate | intros [msg H]; discriminate H].
  - destruct (is_letter c && forallb is_name_char (list_ascii_of_string rest));
      split; split; solve [reflexivity | discriminate | intros [msg H]; discriminate H].
Qed.

(** X10: with the required properties set and a payload whose [DEPLOY] is
    absent, [None] or [False], [commit] sends nothing and returns, and what
    it registers with [results] is an empty diff, a response with
    [RETURN_CODE] 200 and the result [{"changed": True, "success": True}]:
    the skipped config-save is reported as a change. *)
Theorem config_save_skipped_reports_changed
    (rest_reply : string -> string -> dict * dict) (c : cfg)
    (payload : dict) (rs : rest_send_t) (re : results_t) :
  p_payload (_properties (self c)) = Some payload ->
  p_rest_send (_properties (self c)) = Some rs ->
  p_results (_properties (self c)) = Some re ->
  dict_get "DEPLOY" payload = None
  \/ dict_get "DEPLOY" payload = Some PNone
  \/ dict_get "DEPLOY" payload = Some (PBool false) ->
  exists c' re',
    commit rest_reply c = (Ret tt, c')
    /\ events c' = events c
    /\ p_rest_send (_properties (self c')) = Some rs
    /\ p_results (_properties (self c')) = Some re'
    /\ diff_current re' = []
    /\ dict_get "RETURN_CODE" (response_current re') = Some (PInt 200)
    /\ result_current re' = [("changed", PBool true); ("success", PBool true)]
    /\ registered re'
       = (registered re ++ [([], response_current re', result_current re')])%list.
Proof.
  intros Hp Hrs Hre Hd.
  assert (Hcan : _can_fabric_be_saved payload c
                 = (Ret tt, on_self (with_can_save
                                       "DEPLOY is False or None. Skipping config-save."
                                       false false) c)).
  { unfold _can_fabric_be_saved. destruct Hd as [->|[->| ->]]; reflexivity. }
  unfold commit, bind, get. cbn [fst snd]. rewrite Hp, Hrs, Hre, Hcan.
  cbn [fst snd on_self self fabric_can_be_saved with_can_save negb].
  unfold modify, on_self, report. cbn [self _properties with_can_save p_results].
  rewrite Hre. cbn [config_save_failed].
  eexists _, _. split; [reflexivity|].
  cbn. rewrite Hrs. repeat split; reflexivity.
Qed.

(** X11: with the required properties set, a valid fabric name stored and a
    payload whose [DEPLOY] is neither absent, [None] nor [False], [commit]
    sends exactly one request, to the config-save endpoint of the fabric
    and without a payload, and registers the controller's response and
    result; the registered diff is empty exactly when the result's
    [success] is [False]. *)
Theorem config_save_sends_one_request
    (rest_reply : string -> string -> dict * dict) (c : cfg)
    (payload : dict) (rs : rest_send_t) (re : results_t)
    (deploy_ ok : pyval) (name : string) :
  p_payload (_properties (self c)) = Some payload ->
  p_rest_send (_properties (self c)) = Some rs ->
  p_results (_properties (self c)) = Some re ->
  p_fabric_name (_properties (self c)) = Some (PStr name) ->
  validate_fabric_name (PStr name) = Ret tt ->
  dict_get "DEPLOY" payload = Some deploy_ ->
  deploy_ <> PNone -> deploy_ <> PBool false ->
  dict_get "success" (snd (rest_reply (ep_path name) "POST")) = Some ok ->
  exists c' re',
    commit rest_reply c = (Ret tt, c')
    /\ events c' = (events c ++ [EvSend "POST" (ep_path name)])%list
    /\ p_rest_send (_properties (self c'))
       = Some {| rs_path := Some (ep_path name); rs_verb := Some "POST";
                 rs_payload := None |}
    /\ p_results (_properties (self c')) = Some re'
    /\ response_current re' = fst (rest_reply (ep_path name) "POST")
    /\ result_current re' = snd (rest_reply (ep_path name) "POST")
    /\ (diff_current re' = [] <-> ok = PBool false)
    /\ (ok <> PBool false ->
        diff_current re' = [("FABRIC_NAME", PStr name); ("config_save", PStr "OK")]).
Proof.
  intros Hp Hrs Hre Hn Hv Hd Hd1 Hd2 Hok.
  assert (Hcan : _can_fabric_be_saved payload c
                 = (Ret tt, on_self (fun x => with_can_save (cannot_save_fabric_reason x)
                                                (config_save_failed x) true x) c)).
  { unfold _can_fabric_be_saved. rewrite Hd.
    destruct deploy_ as [|[|]|z|m e|s|l|d|st]; try reflexivity; contradiction. }
  assert (Hep : ep_config_save (Some (PStr name)) = Ret (ep_path name, "POST")).
  { unfold ep_config_save. rewrite Hv. reflexivity. }
  unfold commit, bind, get. cbn [fst snd]. rewrite Hp, Hrs, Hre, Hcan.
  cbn [fst snd on_self self fabric_can_be_saved with_can_save negb _properties].
  rewrite Hn, Hep. unfold modify. cbn [fst snd]. rewrite Hok. cbn [fst snd].
  unfold on_self, report.
  cbn [self _properties with_config_save_result with_properties with_endpoint
       with_can_save p_results].
  rewrite Hre.
  eexists _, _. split; [reflexivity|].
  cbn. repeat split; try reflexivity.
  - intros H. destruct ok as [|[|]|z|m e|s|l|d|st]; try discriminate H. reflexivity.
  - intros ->. reflexivity.
  - intros H. destruct ok as [|[|]|z|m e|s|l|d|st]; try reflexivity. contradiction.
Qed.

(** X12: assigning to [payload] a dict whose [FABRIC_NAME] is a valid fabric
    name stores the dict and makes that name the [fabric_name] of the
    instance; when [FABRIC_NAME] is present but is not a valid fabric name
    the assignment raises [ValueError] (also where the validation raised
    [TypeError]) and stores nothing. *)
Theorem payload_setter_sets_fabric_name (d : dict) (name : pyval) (x : t) :
  dict_get "FABRIC_NAME" d = Some name ->
  name <> PNone ->
  (validate_fabric_name name = Ret tt ->
   exists x',
     payload_setter (PDict d) x = (Ret tt, x')
     /\ p_payload (_properties x') = Some d
     /\ p_fabric_name (_properties x') = Some name
     /\ p_rest_send (_properties x') = p_rest_send (_properties x)
     /\ p_results (_properties x') = p_results (_properties x))
  /\
  (validate_fabric_name name <> Ret tt ->
   exists msg, payload_setter (PDict d) x = (Raise (ValueError msg), x)).
Proof.
  intros Hd Hn. unfold payload_setter. rewrite Hd.
  assert (Hm : forall (A : Type) (a b : A),
             match name with PNone => a | _ => b end = b).
  { intros A a b. destruct name; try reflexivity. contradiction. }
  split.
  - intros Hv.
    destruct name as [|b|z|m e|s|l|dd|st]; try contradiction;
      unfold fabric_name_setter, bind, modify; rewrite Hv; cbn [fst snd];
      (eexists; repeat split; reflexivity).
  - intros Hv.
    destruct name as [|b|z|m e|s|l|dd|st]; try contradiction;
      unfold fabric_name_setter, bind, raise;
      destruct (validate_fabric_name _) as [[]|[]|] eqn:Ev;
      try contradiction; cbn [fst snd]; try (eexists; reflexivity);
      simpl in Ev;
      try discriminate Ev;
      repeat match type of Ev with
             | context [match ?s with _ => _ end] => destruct s
             | context [if ?b then _ else _] => destruct b
             end; discriminate Ev.
Qed.

End ConfigSave.

(** ** The decision set, in full *)

Section DecisionSetExact.

Import VerifyPlaybookParams.

(** The template default is consulted only when the playbook lacks the
    parameter. *)
Lemma default_unused py_eval self p rule b :
  playbook_param_is_valid py_eval self p rule = Ret (Some b) ->
  default_param_is_valid py_eval self p rule = Ret None.
Proof.
  unfold playbook_param_is_valid, default_param_is_valid, dict_has.
  destruct (config_playbook self) as [cp|]; [|discriminate].
  destruct (dict_get p cp) as [v|]; [reflexivity | discriminate].
Qed.

(** X13: whenever [update_decision_set] returns, the set is decided by the
    playbook and the controller alone and never by the template defaults:
    it is [{False}] unless the playbook's own value satisfies the rule, and
    then it is [{True}] together with the controller's verdict, if the
    controller configuration has the parameter.  So [True] is in the set
    exactly when the playbook's value satisfies the rule. *)
Theorem decision_set_ignores_defaults
    (py_eval : evaluator) (self : t) (p : string) (rule : dict) (s : gset bool) :
  update_decision_set py_eval self p rule = Ret s ->
  (playbook_param_is_valid py_eval self p rule = Ret (Some true)
   /\ exists cv,
        controller_param_is_valid py_eval self p rule = Ret cv
        /\ s = add_decision cv {[true]})
  \/
  (playbook_param_is_valid py_eval self p rule <> Ret (Some true)
   /\ s = {[false]}).
Proof.
  unfold update_decision_set.
  destruct (controller_param_is_valid py_eval self p rule) as [cv| |]; try discriminate.
  destruct (playbook_param_is_valid py_eval self p rule) as [pv| |] eqn:Ep; try discriminate.
  destruct pv as [[|]|].
  - rewrite (default_unused _ _ _ _ _ Ep). simpl. intros H. inversion H; subst.
    left. split; [reflexivity|]. exists cv. split; [reflexivity|].
    destruct cv as [b|]; simpl.
    + rewrite (left_id_L ∅ (∪)). apply (comm_L (∪)).
    + apply (left_id_L ∅ (∪)).
  - destruct (default_param_is_valid py_eval self p rule); try discriminate.
    simpl. intros H. inversion H. right. split; [discriminate | reflexivity].
  - destruct (default_param_is_valid py_eval self p rule); try discriminate.
    simpl. intros H. inversion H. right. split; [discriminate | reflexivity].
Qed.

End DecisionSetExact.

(** ** Instances of the statements above *)

Lemma config_save_skipped_reports_changed_witness :
  exists c' re',
    FabricConfigSave.commit save_ok (saver (PBool false)) = (Ret tt, c')
    /\ FabricConfigSave.events c' = []
    /\ FabricConfigSave.p_results (FabricConfigSave._properties (FabricConfigSave.self c'))
       = Some re'
    /\ FabricConfigSave.result_current re' = [("changed", PBool true); ("success", PBool true)].
Proof.
  destruct (config_save_skipped_reports_changed save_ok (saver (PBool false))
              (save_payload (PBool false)) empty_rest_send empty_results)
    as (c' & re' & Hrun & Hev & _ & Hre & _ & _ & Hres & _).
  - reflexivity.
  - reflexivity.
  - reflexivity.
  - right. right. reflexivity.
  - exists c', re'. auto.
Defined.

Lemma config_save_sends_one_request_witness :
  exists c',
    FabricConfigSave.commit save_ok (saver (PBool true)) = (Ret tt, c')
    /\ FabricConfigSave.events c' = [EvSend "POST" (FabricConfigSave.ep_path "f1")].
Proof.
  destruct (config_save_sends_one_request save_ok (saver (PBool true))
              (save_payload (PBool true)) empty_rest_send empty_results
              (PBool true) (PBool true) "f1")
    as (c' & re' & Hrun & Hev & _).
  - reflexivity.
  - reflexivity.
  - reflexivity.
  - reflexivity.
  - reflexivity.
  - reflexivity.
  - discriminate.
  - discriminate.
  - reflexivity.
  - exists c'. auto.
Defined.

Lemma payload_setter_sets_fabric_name_witness :
  (exists x',
     FabricConfigSave.payload_setter (PDict (save_payload (PBool true)))
       (FabricConfigSave.self saver_fresh) = (Ret tt, x')
     /\ FabricConfigSave.p_fabric_name (FabricConfigSave._properties x') = Some (PStr "f1"))
  /\
  (exists msg,
     FabricConfigSave.payload_setter (PDict [("FABRIC_NAME", PStr "1st fabric")])
       (FabricConfigSave.self saver_fresh)
     = (Raise (ValueError msg), FabricConfigSave.self saver_fresh)).
Proof.
  split.
  - destruct (payload_setter_sets_fabric_name (save_payload (PBool true)) (PStr "f1")
                (FabricConfigSave.self saver_fresh) eq_refl) as [H _]; [discriminate|].
    destruct H as (x' & Hrun & _ & Hn & _); [reflexivity|]. exists x'. auto.
  - destruct (payload_setter_sets_fabric_name [("FABRIC_NAME", PStr "1st fabric")]
                (PStr "1st fabric") (FabricConfigSave.self saver_fresh) eq_refl)
      as [_ H]; [discriminate|].
    apply H. discriminate.
Defined.

Lemma decision_set_ignores_defaults_witness :
  VerifyPlaybookParams.update_decision_set eval_scalars verifier_present "ENABLE_PBR" rule_true
  = Ret {[true; false]}.
Proof.
  destruct (VerifyPlaybookParams.update_decision_set eval_scalars verifier_present
              "ENABLE_PBR" rule_true) as [s| |] eqn:E; try (vm_compute in E; discriminate E).
  destruct (decision_set_ignores_defaults eval_scalars verifier_present "ENABLE_PBR"
              rule_true s E) as [(_ & cv & Hcv & ->) | (H & _)].
  - vm_compute in Hcv. injection Hcv as <-. reflexivity.
  - contradiction H. vm_compute. reflexivity.
Defined.

(** ** How a response is judged *)

Section HandleResponse.

Import DcnmNetworkv2.

(** X14: for a request that is not a query, [handle_response] reports no
    failure exactly when the response has [MESSAGE] "OK", [RETURN_CODE] 200
    and no truthy [ERROR] and, for an attach, mentions neither "is in use
    already" nor "Invalid interfaces".  A failure is reported together with
    [changed = True] only for an attach whose response mentions "Invalid
    interfaces"; and a successful deploy that mentions "No switches PENDING
    for deployment" is reported as not changed. *)
Theorem handle_response_verdicts (res : response) (o : op) :
  o <> query_dcnm ->
  (fst (handle_response res o) = false <->
   MESSAGE res = "OK" /\ RETURN_CODE res = 200
   /\ (ERROR res = None \/ ERROR res = Some "")
   /\ (o = attach ->
       contains "is in use already" (text res) = false
       /\ contains "Invalid interfaces" (text res) = false))
  /\
  (handle_response res o = (true, true) ->
   o = attach /\ contains "Invalid interfaces" (text res) = true
   /\ MESSAGE res = "OK" /\ RETURN_CODE res = 200)
  /\
  (o = deploy -> fst (handle_response res o) = false ->
   contains "No switches PENDING for deployment" (text res) = true ->
   snd (handle_response res o) = false).
Proof.
  intros Ho. unfold handle_response.
  destruct o; try contradiction; cbn [op_eqb andb];
    destruct (String.eqb_spec (MESSAGE res) "OK") as [Hm|Hm];
    destruct (Z.eqb_spec (RETURN_CODE res) 200) as [Hc|Hc]; cbn [negb orb];
    destruct (ERROR res) as [e|] eqn:Ee;
    try destruct (String.eqb_spec e "") as [He|He]; cbn [negb];
    try destruct (contains "is in use already" (text res)) eqn:E1;
    try destruct (contains "Invalid interfaces" (text res)) eqn:E2;
    try destruct (contains "No switches PENDING for deployment" (text res)) eqn:E3;
    cbn; subst; intuition (try discriminate; try congruence).
Qed.

End HandleResponse.

(** ** Waiting for a network to be ready for deletion *)

Section DeleteReady.

Import DcnmNetworkv2 Usage.

Lemma dict_update_twice key v1 v2 (d : list (string * string)) :
  dict_update key v2 (dict_update key v1 d) = dict_update key v2 d.
Proof.
  induction d as [|[k v] d IH]; simpl.
  - rewrite String.eqb_refl. reflexivity.
  - destruct (String.eqb k key) eqn:E; simpl; rewrite E; [reflexivity|].
    rewrite IH. reflexivity.
Qed.

Lemma scan_stuck iter a more :
  lanAttachState a = "OUT-OF-SYNC" \/ lanAttachState a = "FAILED" ->
  scan_attach_list iter (a :: more)
  = if (iter <? 10)%nat then (Some "DEPLOYED", true) else (Some "OUT-OF-SYNC", false).
Proof. intros [H|H]; simpl; rewrite H; reflexivity. Qed.

Lemma scan_busy iter idle : forall a more,
  Forall (fun x => lanAttachState x = "NA") idle ->
  lanAttachState a <> "NA" ->
  lanAttachState a <> "OUT-OF-SYNC" ->
  lanAttachState a <> "FAILED" ->
  scan_attach_list iter (idle ++ a :: more) = (Some "DEPLOYED", true).
Proof.
  induction idle as [|x idle IH]; intros a more Hidle H1 H2 H3.
  - simpl. apply String.eqb_neq in H1, H2, H3. rewrite H1, H2, H3. reflexivity.
  - inversion Hidle as [|? ? Hx Hrest]; subst. cbn [app scan_attach_list].
    rewrite Hx. cbn. rewrite (IH a more Hrest H1 H2 H3). reflexivity.
Qed.

(** One pass of the loop: the query, then what is written and whether the
    loop goes on. *)
Lemma del_ready_pass fuel ctl network iter (c : cfg) na rest :
  DATA (ctl (calls c) "GET" (GET_NET_ATTACH (fabric (self c)) network))
  = DataAttach (na :: rest) ->
  del_ready_loop (S fuel) ctl network iter c
  = (let c1 := {| self := self c;
                  trace := trace c
                           ++ [Send L_delete "GET" (GET_NET_ATTACH (fabric (self c)) network)];
                  calls := S (calls c) |} in
     let '(written, again) := scan_attach_list (S iter) (lanAttachList na) in
     let c2 := match written with
               | Some v => on_self (fun x =>
                             set_diff_delete (dict_update network v (diff_delete x)) x) c1
               | None => c1
               end in
     if again
     then del_ready_loop fuel ctl network (S iter)
            {| self := self c2; trace := trace c2 ++ [Sleep WAIT_TIME_FOR_DELETE_LOOP];
               calls := calls c2 |}
     else (Ret tt, c2)).
Proof.
  intros Hd. cbn [del_ready_loop]. unfold bind at 1, get. cbn [fst snd].
  unfold bind at 1, dcnm_send. cbn [fst snd]. rewrite Hd. cbn [first_attach_list].
  cbv zeta.
  destruct (scan_attach_list (S iter) (lanAttachList na)) as [[v|] [|]];
    unfold bind, modify, sleep, ret; reflexivity.
Qed.

Lemma del_ready_loop_stuck ctl network :
  (forall n method path, stuck (ctl n method path)) ->
  forall k fuel iter (c : cfg),
    (iter + S k = 10)%nat -> (S k <= fuel)%nat ->
    del_ready_loop fuel ctl network iter c
    = (Ret tt,
       {| self := set_diff_delete
                    (dict_update network "OUT-OF-SYNC" (diff_delete (self c))) (self c);
          trace := trace c ++ del_polls (GET_NET_ATTACH (fabric (self c)) network) (S k);
          calls := calls c + S k |}).
Proof.
  intros Hstuck. induction k as [|k IH]; intros fuel iter c Hiter Hfuel;
    (destruct fuel as [|fuel]; [lia|]);
    destruct (Hstuck (calls c) "GET" (GET_NET_ATTACH (fabric (self c)) network))
      as (na & rest & a & more & Hd & Hl & Hs);
    rewrite (del_ready_pass _ _ _ _ _ _ _ Hd); cbv zeta; rewrite Hl, (scan_stuck _ _ _ Hs).
  - replace (S iter <? 10)%nat with false by (symmetry; apply Nat.ltb_ge; lia).
    unfold on_self. cbn [self trace calls del_polls]. f_equal. f_equal. lia.
  - replace (S iter <? 10)%nat with true by (symmetry; apply Nat.ltb_lt; lia).
    rewrite IH by (cbn [calls self on_self]; lia).
    unfold on_self. cbn [self trace calls fabric set_diff_delete diff_delete].
    rewrite dict_update_twice. f_equal. f_equal.
    + rewrite <- !app_assoc. reflexivity.
    + lia.
Qed.

(** While the answers stay busy the loop asks again, whatever the fuel. *)
Lemma del_ready_loop_busy ctl network :
  (forall n method path, busy (ctl n method path)) ->
  forall fuel iter (c : cfg), fst (del_ready_loop fuel ctl network iter c) = OutOfFuel.
Proof.
  intros Hbusy. induction fuel as [|fuel IH]; intros iter c; [reflexivity|].
  destruct (Hbusy (calls c) "GET" (GET_NET_ATTACH (fabric (self c)) network))
    as (na & rest & idle & a & more & Hd & Hl & Hidle & H1 & H2 & H3).
  rewrite (del_ready_pass _ _ _ _ _ _ _ Hd). cbv zeta.
  rewrite Hl, (scan_busy _ _ _ _ Hidle H1 H2 H3). apply IH.
Qed.

(** The loop over the networks of [diff_delete], when the answers stay
    stuck: the networks in [waited] are marked already. *)
Lemma wait_all_stuck ctl fuel :
  (forall n method path, stuck (ctl n method path)) ->
  (10 <= fuel)%nat ->
  forall todo_ waited (c : cfg),
    List.NoDup (List.map fst (waited ++ todo_)) ->
    diff_delete (self c)
    = (List.map (fun kv => (fst kv, "OUT-OF-SYNC")) waited ++ todo_)%list ->
    for_each (List.map fst todo_) (fun network => del_ready_loop fuel ctl network 0) c
    = (Ret tt,
       {| self := set_diff_delete
                    (List.map (fun kv => (fst kv, "OUT-OF-SYNC")) (waited ++ todo_))
                    (self c);
          trace := trace c
                   ++ concat (List.map
                                (fun kv => del_polls
                                             (GET_NET_ATTACH (fabric (self c)) (fst kv)) 10)
                                todo_);
          calls := calls c + 10 * length todo_ |}).
Proof.
  intros Hstuck Hfuel. induction todo_ as [|[network st] todo_ IH]; intros waited c Hnd Hdd.
  - simpl. rewrite !app_nil_r in *. unfold ret.
    destruct c as [x tr n]. cbn [self trace calls] in *. f_equal.
    f_equal; [|lia].
    destruct x. cbn [diff_delete] in Hdd. subst. reflexivity.
  - cbn [List.map fst for_each].
    rewrite (run_bind _ _ c _ tt
               (del_ready_loop_stuck ctl network Hstuck 9 fuel 0 c eq_refl Hfuel)).
    assert (Hupd : dict_update network "OUT-OF-SYNC" (diff_delete (self c))
                   = (List.map (fun kv => (fst kv, "OUT-OF-SYNC"))
                        (waited ++ [(network, st)]) ++ todo_)%list).
    { rewrite Hdd, List.map_app, <- app_assoc. cbn [List.map fst app].
      assert (Hnot : ~ In network (List.map fst waited)).
      { rewrite List.map_app in Hnd. cbn [List.map fst] in Hnd.
        apply NoDup_remove_2 in Hnd. intros H. apply Hnd. apply in_or_app. left. exact H. }
      clear - Hnot. induction waited as [|[k v] waited IHw]; cbn [List.map fst app dict_update].
      - rewrite String.eqb_refl. reflexivity.
      - destruct (String.eqb_spec k network) as [->|Hne].
        + contradiction Hnot. left. reflexivity.
        + rewrite IHw; [reflexivity|]. intros H. apply Hnot. right. exact H. }
    rewrite (IH (waited ++ [(network, st)])%list).
    + cbn [self trace calls fabric set_diff_delete length concat List.map fst].
      rewrite <- !app_assoc. cbn [app]. f_equal. f_equal. lia.
    + rewrite <- app_assoc. exact Hnd.
    + cbn [self diff_delete set_diff_delete]. exact Hupd.
Qed.

Lemma wait_stuck_run (ctl : controller) (fuel : nat) (c : cfg) :
  (forall n method path, stuck (ctl n method path)) ->
  (10 <= fuel)%nat ->
  diff_delete (self c) <> [] ->
  List.NoDup (List.map fst (diff_delete (self c))) ->
  exists c',
    wait_for_del_ready fuel ctl c = (Ret true, c')
    /\ diff_delete (self c')
       = List.map (fun kv => (fst kv, "OUT-OF-SYNC")) (diff_delete (self c))
    /\ trace c'
       = (trace c
          ++ concat (List.map
                       (fun kv => del_polls (GET_NET_ATTACH (fabric (self c)) (fst kv)) 10)
                       (diff_delete (self c))))%list
    /\ calls c' = (calls c + 10 * length (diff_delete (self c)))%nat.
Proof.
  intros Hstuck Hfuel Hne Hnd. unfold wait_for_del_ready.
  rewrite (run_bind _ _ c c c) by reflexivity.
  destruct (diff_delete (self c)) as [|item items] eqn:Ed; [contradiction|].
  rewrite <- Ed.
  rewrite (run_bind _ _ c _ tt
             (wait_all_stuck ctl fuel Hstuck Hfuel (diff_delete (self c)) [] c
                ltac:(rewrite Ed; exact Hnd) eq_refl)).
  eexists. split; [reflexivity|]. cbn [self trace calls diff_delete set_diff_delete app].
  repeat split; reflexivity.
Qed.

(** X15: when every answer to the attachment query shows the first
    attachment OUT-OF-SYNC or FAILED, [wait_for_del_ready] gives up on each
    network of [diff_delete] after ten queries (with a sleep of
    WAIT_TIME_FOR_DELETE_LOOP seconds between two of them), marks the
    network "OUT-OF-SYNC" and returns [True]: ten times the number of
    networks is the number of requests it makes. *)
Theorem wait_for_del_ready_gives_up (ctl : controller) (fuel : nat) (c : cfg) :
  (forall n method path, stuck (ctl n method path)) ->
  (10 <= fuel)%nat ->
  diff_delete (self c) <> [] ->
  List.NoDup (List.map fst (diff_delete (self c))) ->
  exists c',
    wait_for_del_ready fuel ctl c = (Ret true, c')
    /\ diff_delete (self c')
       = List.map (fun kv => (fst kv, "OUT-OF-SYNC")) (diff_delete (self c))
    /\ trace c'
       = (trace c
          ++ concat (List.map
                       (fun kv => del_polls (GET_NET_ATTACH (fabric (self c)) (fst kv)) 10)
                       (diff_delete (self c))))%list
    /\ calls c' = (calls c + 10 * length (diff_delete (self c)))%nat.
Proof. exact (wait_stuck_run ctl fuel c). Qed.

Lemma del_polls_no_delete path n : List.filter is_delete (del_polls path n) = [].
Proof.
  induction n as [|n IH]; [reflexivity|].
  destruct n as [|n]; [reflexivity|].
  change (del_polls path (S (S n)))
    with (Send L_delete "GET" path :: Sleep WAIT_TIME_FOR_DELETE_LOOP
          :: del_polls path (S n)).
  cbn [List.filter is_delete String.eqb Ascii.eqb Bool.eqb]. exact IH.
Qed.

Lemma polls_no_delete fabric_ (items : list (string * string)) :
  List.filter is_delete
    (concat (List.map (fun kv => del_polls (GET_NET_ATTACH fabric_ (fst kv)) 10) items))
  = [].
Proof.
  induction items as [|kv items IH]; [reflexivity|].
  cbn [List.map concat]. rewrite List.filter_app, del_polls_no_delete, IH. reflexivity.
Qed.

Lemma append_nil_r (s : string) : (s ++ "")%string = s.
Proof. induction s as [|ch s IH]; [reflexivity|]. rewrite append_cons, IH. reflexivity. Qed.

Lemma append_assoc (a b d : string) : ((a ++ b) ++ d)%string = (a ++ b ++ d)%string.
Proof.
  induction a as [|ch a IH]; [reflexivity|]. rewrite !append_cons, IH. reflexivity.
Qed.

(** Networks marked "OUT-OF-SYNC" are passed over by the delete loop, which
    adds their names to [del_failure]. *)
Lemma delete_loop_skips ctl path is_rollback (items : list (string * string)) :
  forall del_failure resp (c : cfg),
    Forall (fun kv => snd kv = "OUT-OF-SYNC") items ->
    exists names_ : string,
      delete_loop ctl path is_rollback items del_failure resp c
      = (Ret (false, (del_failure ++ names_)%string, resp), c)
      /\ (items <> [] -> names_ <> ""%string).
Proof.
  induction items as [|[network st] items IH]; intros del_failure resp c Hall.
  - exists ""%string. rewrite append_nil_r. split; [reflexivity | intros H; contradiction].
  - inversion Hall as [|? ? Hst Hrest]; subst. cbn [snd] in Hst. subst st.
    cbn [delete_loop String.eqb Ascii.eqb Bool.eqb].
    destruct (IH (del_failure ++ network ++ ",")%string resp c Hrest) as (names_ & Hrun & _).
    exists (network ++ "," ++ names_)%string. split.
    + rewrite Hrun, !append_assoc. reflexivity.
    + intros _ H. destruct network; rewrite ?append_nil_l, ?append_cons in H; discriminate H.
Qed.

(** X16: when every answer to the attachment query shows the first
    attachment OUT-OF-SYNC or FAILED, [push_to_remote_delete] sends no
    DELETE request at all and still returns normally: the networks are
    left marked "OUT-OF-SYNC", [result["changed"]] and [failed_to_rollback]
    are as before, and the only trace of the failed deletion is the empty
    string appended to [result["response"]]. *)
Theorem push_to_remote_delete_skips_stuck (ctl : controller) (fuel : nat) (path : string)
    (c : cfg) :
  (forall n method path, stuck (ctl n method path)) ->
  (10 <= fuel)%nat ->
  diff_delete (self c) <> [] ->
  List.NoDup (List.map fst (diff_delete (self c))) ->
  exists c',
    push_to_remote_delete fuel ctl path false c = (Ret tt, c')
    /\ List.filter is_delete (trace c') = List.filter is_delete (trace c)
    /\ diff_delete (self c')
       = List.map (fun kv => (fst kv, "OUT-OF-SYNC")) (diff_delete (self c))
    /\ result_changed (self c') = result_changed (self c)
    /\ failed_to_rollback (self c') = failed_to_rollback (self c)
    /\ result_response (self c') = (result_response (self c) ++ [NoResponse])%list.
Proof.
  intros Hstuck Hfuel Hne Hnd.
  destruct (wait_stuck_run ctl fuel c Hstuck Hfuel Hne Hnd) as (c1 & Hwait & Hdd & Htr & Hcalls).
  assert (Hself : self c1
                  = set_diff_delete
                      (List.map (fun kv => (fst kv, "OUT-OF-SYNC")) (diff_delete (self c)))
                      (self c)).
  { unfold wait_for_del_ready in Hwait.
    rewrite (run_bind _ _ c c c) in Hwait by reflexivity.
    destruct (diff_delete (self c)) as [|item items] eqn:Ed; [contradiction|].
    rewrite <- Ed in Hwait.
    rewrite (run_bind _ _ c _ tt
               (wait_all_stuck ctl fuel Hstuck Hfuel (diff_delete (self c)) [] c
                  ltac:(rewrite Ed; exact Hnd) eq_refl)) in Hwait.
    inversion Hwait; subst c1. cbn [self app]. rewrite Ed. reflexivity. }
  unfold push_to_remote_delete.
  rewrite (run_bind _ _ c c1 true Hwait).
  rewrite (run_bind _ _ c1 c1 c1) by reflexivity.
  destruct (delete_loop_skips ctl path false (diff_delete (self c1)) "" NoResponse c1)
    as (names_ & Hdel & Hnames).
  { rewrite Hdd. apply List.Forall_forall.
    intros kv Hin. apply in_map_iff in Hin as (kv0 & <- & _). reflexivity. }
  rewrite (run_bind _ _ c1 c1 _ Hdel).
  assert (Hnonempty : String.eqb ("" ++ names_)%string "" = false).
  { rewrite append_nil_l. apply String.eqb_neq. apply Hnames. rewrite Hdd.
    destruct (diff_delete (self c)); [contradiction | discriminate]. }
  cbv beta iota. rewrite Hnonempty. cbn [negb].
  unfold bind, modify, failure, ret. cbn [fst snd].
  eexists. split; [reflexivity|].
  unfold on_self. cbn [self trace]. rewrite Htr, Hself, List.filter_app, polls_no_delete.
  rewrite app_nil_r. repeat split; reflexivity.
Qed.

(** X17: while every answer to the attachment query shows, after
    attachments in state NA only, an attachment in a state other than NA,
    OUT-OF-SYNC and FAILED, the wait before a delete never ends: for every
    amount of fuel [push_to_remote_delete] is still polling, and no DELETE
    request has been sent. *)
Theorem push_to_remote_delete_waits_forever (ctl : controller) (fuel : nat) (path : string)
    (is_rollback : bool) (c : cfg) :
  (forall n method path, busy (ctl n method path)) ->
  diff_delete (self c) <> [] ->
  fst (push_to_remote_delete fuel ctl path is_rollback c) = OutOfFuel
  /\ List.filter is_delete (trace (snd (push_to_remote_delete fuel ctl path is_rollback c)))
     = List.filter is_delete (trace c).
Proof.
  intros Hbusy Hne.
  assert (Hloop : forall network iter fuel (c0 : cfg),
             exists c1, del_ready_loop fuel ctl network iter c0 = (OutOfFuel, c1)
                        /\ List.filter is_delete (trace c1)
                           = List.filter is_delete (trace c0)).
  { intros network iter fuel0. revert iter.
    induction fuel0 as [|fuel0 IH]; intros iter c0; [exists c0; auto|].
    destruct (Hbusy (calls c0) "GET" (GET_NET_ATTACH (fabric (self c0)) network))
      as (na & rest & idle & a & more & Hd & Hl & Hidle & H1 & H2 & H3).
    rewrite (del_ready_pass _ _ _ _ _ _ _ Hd). cbv zeta.
    rewrite Hl, (scan_busy _ _ _ _ Hidle H1 H2 H3).
    match goal with
    | |- exists c1, del_ready_loop fuel0 ctl network (S iter) ?c2 = _ /\ _ =>
        destruct (IH (S iter) c2) as (c1 & Hrun & Htr)
    end.
    exists c1. split; [exact Hrun|]. rewrite Htr. unfold on_self. cbn [trace].
    rewrite !List.filter_app. cbn. rewrite !app_nil_r. reflexivity. }
  destruct (diff_delete (self c)) as [|[network st] items] eqn:Ed; [contradiction|].
  destruct (Hloop network 0%nat fuel c) as (c1 & Hrun & Htr).
  assert (Hwait : wait_for_del_ready fuel ctl c = (OutOfFuel, c1)).
  { unfold wait_for_del_ready. unfold bind at 1, get. cbn [fst snd]. rewrite Ed.
    cbn [List.map fst for_each].
    apply run_bind_out_of_fuel. apply run_bind_out_of_fuel. exact Hrun. }
  unfold push_to_remote_delete.
  rewrite (run_bind_out_of_fuel _ _ c c1 Hwait). split; [reflexivity | exact Htr].
Qed.

End DeleteReady.

(** ** Instances of the statements above *)

Lemma handle_response_verdicts_witness :
  fst (DcnmNetworkv2.handle_response (accepts_all 0%nat "POST" "/attachments")
         DcnmNetworkv2.attach) = false.
Proof.
  apply (handle_response_verdicts (accepts_all 0%nat "POST" "/attachments") DcnmNetworkv2.attach).
  - discriminate.
  - split; [reflexivity|]. split; [reflexivity|]. split; [left; reflexivity|].
    intros _. split; reflexivity.
Defined.

Lemma stays_out_of_sync_stuck n method path : Usage.stuck (stays_out_of_sync n method path).
Proof.
  eexists _, _, _, _. split; [reflexivity|]. split; [reflexivity|]. left. reflexivity.
Defined.

Lemma module_deleting_keys :
  List.NoDup (List.map fst (DcnmNetworkv2.diff_delete (DcnmNetworkv2.self module_deleting))).
Proof.
  apply List.NoDup_cons; [|apply List.NoDup_cons; [|apply List.NoDup_nil]].
  - intros [H|[]]. discriminate H.
  - intros [].
Defined.

Lemma wait_for_del_ready_gives_up_witness :
  exists c',
    DcnmNetworkv2.wait_for_del_ready 10%nat stays_out_of_sync module_deleting = (Ret true, c')
    /\ DcnmNetworkv2.diff_delete (DcnmNetworkv2.self c')
       = [("old", "OUT-OF-SYNC"); ("older", "OUT-OF-SYNC")]
    /\ DcnmNetworkv2.calls c' = 20%nat.
Proof.
  destruct (wait_for_del_ready_gives_up stays_out_of_sync 10%nat module_deleting)
    as (c' & Hrun & Hdd & _ & Hcalls).
  - exact stays_out_of_sync_stuck.
  - apply le_n.
  - discriminate.
  - exact module_deleting_keys.
  - exists c'. split; [exact Hrun|]. split; [exact Hdd | exact Hcalls].
Defined.

Lemma push_to_remote_delete_skips_stuck_witness :
  exists c',
    DcnmNetworkv2.push_to_remote_delete 10%nat stays_out_of_sync
      (DcnmNetworkv2.GET_NET "f1") false module_deleting = (Ret tt, c')
    /\ List.filter Usage.is_delete (DcnmNetworkv2.trace c') = []
    /\ DcnmNetworkv2.result_response (DcnmNetworkv2.self c') = [DcnmNetworkv2.NoResponse].
Proof.
  destruct (push_to_remote_delete_skips_stuck stays_out_of_sync 10%nat
              (DcnmNetworkv2.GET_NET "f1") module_deleting)
    as (c' & Hrun & Htr & _ & _ & _ & Hresp).
  - exact stays_out_of_sync_stuck.
  - apply le_n.
  - discriminate.
  - exact module_deleting_keys.
  - exists c'. split; [exact Hrun|]. split; [exact Htr | exact Hresp].
Defined.

Lemma push_to_remote_delete_waits_forever_witness :
  fst (DcnmNetworkv2.push_to_remote_delete 25%nat stays_deployed
         (DcnmNetworkv2.GET_NET "f1") false module_deleting) = OutOfFuel.
Proof.
  apply (push_to_remote_delete_waits_forever stays_deployed 25%nat
           (DcnmNetworkv2.GET_NET "f1") false module_deleting).
  - intros n method path. exists
      {| DcnmNetworkv2.na_networkName := "old";
         DcnmNetworkv2.lanAttachList :=
           [{| DcnmNetworkv2.isLanAttached := PBool true;
               DcnmNetworkv2.lanAttachState := "DEPLOYED";
               DcnmNetworkv2.switchSerialNo := "FDO211218HH";
               DcnmNetworkv2.networkName := "old" |}] |}, [], [],
      {| DcnmNetworkv2.isLanAttached := PBool true;
         DcnmNetworkv2.lanAttachState := "DEPLOYED";
         DcnmNetworkv2.switchSerialNo := "FDO211218HH";
         DcnmNetworkv2.networkName := "old" |}, [].
    split; [reflexivity|]. split; [reflexivity|]. split; [apply List.Forall_nil|].
    split; [discriminate|]. split; discriminate.
  - discriminate.
Defined.

(** ** Attaching: retries and multi-site fabrics *)

Section Attach.

Import DcnmNetworkv2.

Lemma attach_attempts_calls ctl attach_path : forall attempts last (c : cfg),
  (calls (snd (attach_attempts attempts ctl attach_path last c)) <= calls c + attempts)%nat.
Proof.
  induction attempts as [|attempts IH]; intros last c.
  - simpl. lia.
  - rewrite attach_attempts_S. unfold bind at 1, dcnm_send. cbn [fst snd].
    destruct (update_in_progress (DATA (ctl (calls c) "POST" attach_path))) as [[|]|].
    + unfold bind at 1, sleep, modify. cbn [fst snd].
      etransitivity; [apply IH|]. cbn [calls]. lia.
    + cbn. lia.
    + cbn. lia.
Qed.

Lemma attach_attempts_exhausted ctl attach_path :
  (forall n, update_in_progress (DATA (ctl n "POST" attach_path)) = Some true) ->
  forall attempts last (c : cfg),
    exists c' resp,
      attach_attempts (S attempts) ctl attach_path last c = (Ret (resp, true), c')
      /\ calls c' = (calls c + S attempts)%nat
      /\ self c' = self c.
Proof.
  intros Hretry. induction attempts as [|attempts IH]; intros last c.
  - rewrite attach_attempts_S. unfold bind at 1, dcnm_send. cbn [fst snd].
    rewrite Hretry. unfold bind, sleep, modify. cbn [fst snd attach_attempts].
    eexists _, _. split; [reflexivity|]. cbn. split; [lia | reflexivity].
  - rewrite attach_attempts_S. unfold bind at 1, dcnm_send. cbn [fst snd].
    rewrite Hretry. unfold bind at 1, sleep, modify. cbn [fst snd].
    match goal with
    | |- exists c' resp, attach_attempts (S attempts) ctl attach_path ?l ?c2 = _ /\ _ =>
        destruct (IH l c2) as (c' & resp & Hrun & Hcalls & Hself)
    end.
    exists c', resp. split; [exact Hrun|]. cbn [calls self] in *.
    split; [lia | exact Hself].
Qed.

(** What follows the retry loop makes no request. *)
Lemma after_attach_calls resp in_progress is_rollback (c : cfg) :
  let r := (let* fail := handle resp attach in
            let* stop := on_fail (fail || in_progress) is_rollback (Logged resp) in
            if stop then ret tt else sleep 10) c in
  fst r = Ret tt /\ calls (snd r) = calls c
  /\ failed_to_rollback (self (snd r))
     = (failed_to_rollback (self c)
        || (fst (handle_response resp attach) || in_progress) && is_rollback).
Proof.
  unfold handle, on_fail, bind, modify, ret, failure, sleep. cbn [fst snd].
  destruct (handle_response resp attach) as [[|] changed]; cbn [fst snd orb];
    destruct in_progress, is_rollback; cbn;
    rewrite ?orb_true_r, ?orb_false_r; auto.
Qed.

(** X18: [push_to_remote_attach] sends at most fifty attach requests,
    whatever the controller answers.  When every answer asks to try again
    later it sends exactly fifty and then returns: with [is_rollback] set,
    after setting [failed_to_rollback]; without it, leaving the flag as it
    was. *)
Theorem push_to_remote_attach_retries_bounded (ctl : controller) (path : string) :
  (forall is_rollback (c : cfg),
     (calls (snd (push_to_remote_attach ctl path is_rollback c)) <= calls c + 50)%nat)
  /\
  (forall is_rollback (c : cfg),
     (forall n, update_in_progress (DATA (ctl n "POST" (path ++ "/attachments")%string))
                = Some true) ->
     snd (update_ms_fabric (self c) (diff_attach (self c))) = None ->
     exists c',
       push_to_remote_attach ctl path is_rollback c = (Ret tt, c')
       /\ calls c' = (calls c + 50)%nat
       /\ failed_to_rollback (self c') = (failed_to_rollback (self c) || is_rollback)).
Proof.
  split.
  - intros is_rollback c. unfold push_to_remote_attach.
    unfold bind at 1, get. cbn [fst snd].
    destruct (update_ms_fabric (self c) (diff_attach (self c))) as [d [e|]].
    + cbn. lia.
    + unfold bind at 1, modify. cbn [fst snd].
      unfold bind at 1. cbn [fst snd].
      set (c1 := on_self (set_diff_attach (strip_d_key d)) (on_self (set_diff_attach d) c)).
      pose proof (attach_attempts_calls ctl (path ++ "/attachments")%string 50
                    (no_response, false) c1) as Hloop.
      unfold bind at 1.
      destruct (attach_attempts 50 ctl (path ++ "/attachments")%string (no_response, false) c1)
        as [[[resp in_progress]|e|] c2]; cbn [fst snd] in *; try exact Hloop.
      destruct (after_attach_calls resp in_progress is_rollback c2) as (_ & Hc & _).
      cbv zeta in Hc. rewrite Hc. exact Hloop.
  - intros is_rollback c Hretry Hms. unfold push_to_remote_attach.
    unfold bind at 1, get. cbn [fst snd].
    destruct (update_ms_fabric (self c) (diff_attach (self c))) as [d err].
    cbn [snd] in Hms. subst err.
    unfold bind at 1, modify. cbn [fst snd].
    unfold bind at 1. cbn [fst snd].
    set (c1 := on_self (set_diff_attach (strip_d_key d)) (on_self (set_diff_attach d) c)).
    destruct (attach_attempts_exhausted ctl (path ++ "/attachments")%string Hretry 49
                (no_response, false) c1) as (c2 & resp & Hrun & Hcalls & Hself).
    rewrite (run_bind _ _ c1 c2 (resp, true) Hrun). cbv beta iota.
    destruct (after_attach_calls resp true is_rollback c2) as (Hret & Hc & Hf).
    cbv zeta in Hret, Hc, Hf.
    match goal with
    | |- exists c', ?m c2 = _ /\ _ => destruct (m c2) as [o c'] eqn:E
    end.
    cbn [fst snd] in *. subst o. exists c'. split; [reflexivity|].
    split; [rewrite Hc, Hcalls; reflexivity|].
    rewrite Hf, Hself. rewrite orb_true_r. reflexivity.
Qed.

Lemma update_ms_fabric_nodes_known (m : gmap string string) : forall l,
  (forall n, In n l -> is_Some (m !! serialNumber n)) ->
  update_ms_fabric_nodes m l
  = (List.map (fun n => {| serialNumber := serialNumber n;
                           node_fabric := default (node_fabric n) (m !! serialNumber n);
                           d_key := d_key n |}) l,
     None).
Proof.
  induction l as [|n l IH]; intros Hknown; [reflexivity|].
  cbn [update_ms_fabric_nodes List.map].
  destruct (Hknown n (or_introl eq_refl)) as [f Hf]. rewrite Hf.
  rewrite IH by (intros n' Hn'; apply Hknown; right; exact Hn'). reflexivity.
Qed.

Lemma update_ms_fabric_nodes_unknown (m : gmap string string) : forall l,
  (exists n, In n l /\ m !! serialNumber n = None) ->
  exists sn, snd (update_ms_fabric_nodes m l) = Some (KeyError sn) /\ m !! sn = None.
Proof.
  induction l as [|n l IH]; intros (n0 & Hin & Hn0); [contradiction|].
  cbn [update_ms_fabric_nodes].
  destruct (m !! serialNumber n) as [f|] eqn:Hf.
  - destruct Hin as [->|Hin]; [congruence|].
    destruct (IH (ex_intro _ n0 (conj Hin Hn0))) as (sn & Hsn & Hnone).
    destruct (update_ms_fabric_nodes m l) as [rest' err]. cbn [snd] in *. eauto.
  - cbn [snd]. eauto.
Qed.

Lemma update_ms_fabric_nodes_error (m : gmap string string) : forall l l' e,
  update_ms_fabric_nodes m l = (l', Some e) ->
  exists sn, e = KeyError sn /\ m !! sn = None.
Proof.
  induction l as [|n l IH]; intros l' e H; [discriminate H|].
  cbn [update_ms_fabric_nodes] in H.
  destruct (m !! serialNumber n) as [f|] eqn:Hf.
  - destruct (update_ms_fabric_nodes m l) as [rest' [e'|]] eqn:El; inversion H; subst.
    apply (IH rest' e). reflexivity.
  - inversion H; subst. eauto.
Qed.

(** X19: [update_ms_fabric] leaves the payloads alone in a fabric that is
    not multi-site.  In a multi-site fabric it replaces the fabric of every
    switch of every payload by the fabric [sn_fab] gives for its serial
    number, when [sn_fab] knows them all; and it raises [KeyError], for a
    serial number that [sn_fab] lacks, as soon as one switch is unknown. *)
Theorem update_ms_fabric_retags (x : t) (d : list attach_payload) :
  (is_ms_fabric x = false -> update_ms_fabric x d = (d, None))
  /\
  (is_ms_fabric x = true ->
   (forall a n, In a d -> In n (ap_lanAttachList a) -> is_Some (sn_fab x !! serialNumber n)) ->
   update_ms_fabric x d
   = (List.map
        (fun a =>
           {| ap_networkName := ap_networkName a;
              ap_lanAttachList :=
                List.map
                  (fun n => {| serialNumber := serialNumber n;
                               node_fabric := default (node_fabric n)
                                                (sn_fab x !! serialNumber n);
                               d_key := d_key n |})
                  (ap_lanAttachList a) |}) d,
      None))
  /\
  (is_ms_fabric x = true ->
   (exists a n, In a d /\ In n (ap_lanAttachList a) /\ sn_fab x !! serialNumber n = None) ->
   exists sn, snd (update_ms_fabric x d) = Some (KeyError sn) /\ sn_fab x !! sn = None).
Proof.
  unfold update_ms_fabric. split; [|split].
  - intros ->. reflexivity.
  - intros -> Hknown. cbn [negb]. induction d as [|a d IH]; [reflexivity|].
    cbn [update_ms_fabric_list List.map].
    rewrite update_ms_fabric_nodes_known
      by (intros n Hn; apply (Hknown a n); [left; reflexivity | exact Hn]).
    rewrite IH by (intros a' n Ha' Hn; apply (Hknown a' n); [right; exact Ha' | exact Hn]).
    reflexivity.
  - intros -> (a0 & n0 & Ha0 & Hn0 & Hnone). cbn [negb].
    induction d as [|a d IH]; [contradiction|].
    cbn [update_ms_fabric_list].
    destruct (update_ms_fabric_nodes (sn_fab x) (ap_lanAttachList a)) as [l [e|]] eqn:El.
    + destruct (update_ms_fabric_nodes_error _ _ _ _ El) as (sn & -> & Hsn).
      cbn [snd]. eauto.
    + destruct Ha0 as [->|Ha0].
      * destruct (update_ms_fabric_nodes_unknown (sn_fab x) (ap_lanAttachList a0)
                    (ex_intro _ n0 (conj Hn0 Hnone))) as (sn & Hsn & _).
        rewrite El in Hsn. discriminate Hsn.
      * destruct (IH Ha0) as (sn & Hsn & Hsn').
        destruct (update_ms_fabric_list (sn_fab x) d) as [rest' err]. cbn [snd] in *. eauto.
Qed.

End Attach.

(** ** Creating networks *)

Section Create.

Import DcnmNetworkv2 Usage.

(** The handling of a response neither sends nor stops the loop when no
    rollback is under way. *)
Lemma handle_no_rollback resp o (c : cfg) :
  exists c',
    (let* fail := handle resp o in on_fail fail false (Logged resp)) c = (Ret false, c')
    /\ trace c' = trace c /\ calls c' = calls c /\ fabric (self c') = fabric (self c).
Proof.
  unfold handle, on_fail, bind, modify, ret, failure. cbn [fst snd].
  destruct (handle_response resp o) as [[|] changed]; cbn [fst snd];
    (eexists; split; [reflexivity|]; cbn; auto).
Qed.

Lemma create_loop_posts_all ctl path :
  (forall n p, RETURN_CODE (ctl n "GET" p) = 200) ->
  forall nets i (c : cfg),
    exists c',
      create_loop ctl path false nets i c = (Ret tt, c')
      /\ trace c'
         = (trace c ++ concat (List.map (create_requests (fabric (self c)) path) nets))%list
      /\ fabric (self c') = fabric (self c).
Proof.
  intros Hvlan. induction nets as [|n nets IH]; intros i c.
  - exists c. cbn. rewrite app_nil_r. auto.
  - cbn [create_loop List.map concat]. unfold create_requests at 1.
    destruct (truthy (vlanId n)) eqn:Hv; cbn [negb].
    + rewrite (run_bind _ _ c c tt) by reflexivity.
      unfold bind at 1, dcnm_send. cbn [fst snd].
      set (c1 := {| self := self c; trace := trace c ++ [Send L_create "POST" path];
                    calls := S (calls c) |}).
      destruct (handle_no_rollback (ctl (calls c) "POST" path) create c1)
        as (c2 & Hh & Htr & _ & Hfab).
      unfold bind in Hh |- *.
      destruct (handle (ctl (calls c) "POST" path) create c1) as [[fail|e|] c1'];
        try discriminate Hh.
      destruct (on_fail fail false (Logged (ctl (calls c) "POST" path)) c1')
        as [[stop|e|] c2'] eqn:Ef; inversion Hh; subst.
      destruct (IH (S i) c2) as (c' & Hrun & Htr' & Hfab').
      exists c'. split; [exact Hrun|]. rewrite Htr', Htr, Hfab, Hfab'.
      unfold c1. cbn [trace self app]. rewrite <- app_assoc. auto.
    + unfold bind at 1. unfold bind at 1, get. cbn [fst snd].
      unfold bind at 1, dcnm_send. cbn [fst snd]. rewrite Hvlan. cbn [Z.eqb Pos.eqb negb].
      unfold modify. cbn [fst snd].
      unfold bind at 1, dcnm_send. cbn [fst snd self trace calls on_self].
      match goal with
      | |- context [handle ?r create] =>
          match goal with
          | |- context [(let* fail := handle r create in _) ?c1] =>
              destruct (handle_no_rollback r create c1) as (c2 & Hh & Htr & _ & Hfab);
                unfold bind in Hh |- *;
                destruct (handle r create c1) as [[fail|e|] c1']; try discriminate Hh;
                destruct (on_fail fail false (Logged r) c1') as [[stop|e|] c2'] eqn:Ef;
                inversion Hh; subst
          end
      end.
      destruct (IH (S i) c2) as (c' & Hrun & Htr' & Hfab').
      exists c'. split; [exact Hrun|]. rewrite Htr', Htr, Hfab, Hfab'.
      cbn [trace self fabric set_diff_create app]. rewrite <- !app_assoc. auto.
Qed.

(** X20: without a rollback under way, [push_to_remote_create] sends a POST
    for every network of [diff_create], in their order and whatever the
    controller answers to the POSTs: a failed create does not stop the
    following ones.  A VLAN query precedes the POST of exactly the networks
    that have no [vlanId]; here every such query is answered with
    [RETURN_CODE] 200 (another answer ends the module with [fail_json]). *)
Theorem push_to_remote_create_posts_all (ctl : controller) (path : string) (c : cfg) :
  (forall n p, RETURN_CODE (ctl n "GET" p) = 200) ->
  exists c',
    push_to_remote_create ctl path false c = (Ret tt, c')
    /\ trace c'
       = (trace c
          ++ concat (List.map (create_requests (fabric (self c)) path)
                       (diff_create (self c))))%list.
Proof.
  intros Hvlan. unfold push_to_remote_create.
  rewrite (run_bind _ _ c c c) by reflexivity.
  destruct (create_loop_posts_all ctl path Hvlan (diff_create (self c)) 0 c)
    as (c' & Hrun & Htr & _).
  exists c'. auto.
Qed.

End Create.

(** ** Instances of the statements above *)

Lemma push_to_remote_create_posts_all_witness :
  exists c',
    DcnmNetworkv2.push_to_remote_create rejects_posts "/networks" false module_creating_two
    = (Ret tt, c')
    /\ DcnmNetworkv2.trace c'
       = [DcnmNetworkv2.Send DcnmNetworkv2.L_create "GET" (DcnmNetworkv2.GET_VLAN "f1");
          DcnmNetworkv2.Send DcnmNetworkv2.L_create "POST" "/networks";
          DcnmNetworkv2.Send DcnmNetworkv2.L_create "POST" "/networks"].
Proof.
  destruct (push_to_remote_create_posts_all rejects_posts "/networks" module_creating_two)
    as (c' & Hrun & Htr).
  - intros n p. reflexivity.
  - exists c'. split; [exact Hrun | exact Htr].
Defined.

(** Fifty attach requests, a second apart, when the controller keeps asking
    to try again; and the fabric of a switch replaced in a multi-site
    fabric. *)
Example attach_gives_up_after_fifty :
  let r := DcnmNetworkv2.push_to_remote_attach always_retry "/networks" true module_attaching in
  fst r = Ret tt
  /\ DcnmNetworkv2.calls (snd r) = 50%nat
  /\ length (DcnmNetworkv2.trace (snd r)) = 100%nat
  /\ DcnmNetworkv2.failed_to_rollback (DcnmNetworkv2.self (snd r)) = true.
Proof. repeat split; vm_compute; reflexivity. Qed.

Example multi_site_retag :
  DcnmNetworkv2.update_ms_fabric multi_site (DcnmNetworkv2.diff_attach multi_site)
  = ([{| DcnmNetworkv2.ap_networkName := "net1";
         DcnmNetworkv2.ap_lanAttachList :=
           [{| DcnmNetworkv2.serialNumber := "FDO211218HH";
               DcnmNetworkv2.node_fabric := "f1";
               DcnmNetworkv2.d_key := Some "serialNumber" |}] |}], None).
Proof. vm_compute. reflexivity. Qed.

(** ** The diff of the states deleted and overridden *)

Section DiffDelete.

Import NetworkDiff Usage.

Lemma dict_update_keys key v (d : list (string * string)) k :
  In k (List.map fst (DcnmNetworkv2.dict_update key v d)) <-> k = key \/ In k (List.map fst d).
Proof.
  induction d as [|[k0 v0] d IH]; simpl.
  - split; [intros [H|[]]; auto | intros [H|[]]; auto].
  - destruct (String.eqb_spec k0 key) as [->|Hne]; simpl.
    + split; [intros [H|H]; auto | intros [H|[H|H]]; auto].
    + rewrite IH. split; [intros [H|[H|H]]; auto | intros [H|[H|H]]; auto].
Qed.

Lemma dict_update_values key (d : list (string * string)) :
  Forall (fun kv => snd kv = "DEPLOYED") d ->
  Forall (fun kv => snd kv = "DEPLOYED") (DcnmNetworkv2.dict_update key "DEPLOYED" d).
Proof.
  induction 1 as [|[k0 v0] d Hv Hd IH]; simpl.
  - apply List.Forall_cons; [reflexivity | apply List.Forall_nil].
  - destruct (String.eqb k0 key); apply List.Forall_cons; auto.
Qed.

Lemma dict_update_nodup key v (d : list (string * string)) :
  List.NoDup (List.map fst d) -> List.NoDup (List.map fst (DcnmNetworkv2.dict_update key v d)).
Proof.
  induction d as [|[k0 v0] d IH]; simpl; intros Hnd.
  - apply List.NoDup_cons; [intros [] | apply List.NoDup_nil].
  - inversion Hnd as [|? ? Hnot Hrest]; subst.
    destruct (String.eqb_spec k0 key) as [->|Hne]; simpl.
    + apply List.NoDup_cons; assumption.
    + apply List.NoDup_cons; [|apply IH; exact Hrest].
      rewrite dict_update_keys. intros [H|H]; [congruence | contradiction].
Qed.

(** What the shared block keeps. *)
Lemma detach_network_keeps i have_a (x : t) :
  diff_delete (detach_network i have_a x) = diff_delete x
  /\ want_create (detach_network i have_a x) = want_create x
  /\ have_create (detach_network i have_a x) = have_create x
  /\ config (detach_network i have_a x) = config x.
Proof.
  unfold detach_network.
  destruct (release (lanAttachList have_a) (diff_undeploy x)) as [[|a to_del] du];
    repeat split; reflexivity.
Qed.

Lemma delete_found_keys (x : t) entry k :
  In k (List.map fst (diff_delete (delete_found x entry)))
  <-> k = na_networkName (snd entry) \/ In k (List.map fst (diff_delete x)).
Proof.
  unfold delete_found. cbn [diff_delete set_diff_delete]. rewrite dict_update_keys.
  destruct (detach_network_keeps (fst entry) (snd entry) x) as (-> & _). reflexivity.
Qed.

Lemma indexed_snd {A} (l : list A) : List.map snd (indexed l) = l.
Proof.
  unfold indexed. generalize 0%nat. induction l as [|a l IH]; intros n; simpl;
    [reflexivity | rewrite IH; reflexivity].
Qed.

Lemma find_network_some name (l : list network) :
  find_network name l <> None <-> In name (List.map n_networkName l).
Proof.
  unfold find_network. induction l as [|n l IH]; simpl.
  - split; [intros H; contradiction | intros []].
  - destruct (String.eqb_spec (n_networkName n) name) as [->|Hne].
    + split; [auto | discriminate].
    + rewrite IH. split; [auto | intros [H|H]; [contradiction | exact H]].
Qed.

Lemma delete_found_marked x entry : marked_deployed x -> marked_deployed (delete_found x entry).
Proof.
  intros [Hv Hn]. unfold delete_found, marked_deployed. cbn [diff_delete set_diff_delete].
  destruct (detach_network_keeps (fst entry) (snd entry) x) as (-> & _).
  split; [apply dict_update_values; exact Hv | apply dict_update_nodup; exact Hn].
Qed.

Lemma delete_wanted_marked x want_c : marked_deployed x -> marked_deployed (delete_wanted x want_c).
Proof.
  intros [Hv Hn]. unfold delete_wanted.
  destruct (find_network (n_networkName want_c) (have_create x)); [|split; assumption].
  destruct (find_attach (n_networkName want_c) _ 0) as [[i have_a]|];
    unfold marked_deployed;
    [destruct (detach_network_keeps i have_a
                 (set_diff_delete
                    (DcnmNetworkv2.dict_update (n_networkName want_c) "DEPLOYED" (diff_delete x))
                    x)) as (-> & _)|];
    cbn [diff_delete set_diff_delete];
    (split; [apply dict_update_values; exact Hv | apply dict_update_nodup; exact Hn]).
Qed.

Lemma delete_wanted_keeps x want_c :
  have_create (delete_wanted x want_c) = have_create x.
Proof.
  unfold delete_wanted.
  destruct (find_network (n_networkName want_c) (have_create x)); [|reflexivity].
  destruct (find_attach (n_networkName want_c) _ 0) as [[i have_a]|]; [|reflexivity].
  destruct (detach_network_keeps i have_a
              (set_diff_delete
                 (DcnmNetworkv2.dict_update (n_networkName want_c) "DEPLOYED" (diff_delete x))
                 x)) as (_ & _ & -> & _).
  reflexivity.
Qed.

Lemma delete_wanted_keys (x : t) want_c k :
  In k (List.map fst (diff_delete (delete_wanted x want_c)))
  <-> (k = n_networkName want_c /\ In k (List.map n_networkName (have_create x)))
      \/ In k (List.map fst (diff_delete x)).
Proof.
  unfold delete_wanted.
  destruct (find_network (n_networkName want_c) (have_create x)) as [have_c|] eqn:Ef.
  - assert (Hin : In (n_networkName want_c) (List.map n_networkName (have_create x))).
    { apply find_network_some. rewrite Ef. discriminate. }
    assert (Hk : In k (List.map fst
                         (DcnmNetworkv2.dict_update (n_networkName want_c) "DEPLOYED"
                            (diff_delete x)))
                 <-> (k = n_networkName want_c
                      /\ In k (List.map n_networkName (have_create x)))
                     \/ In k (List.map fst (diff_delete x))).
    { rewrite dict_update_keys. split; [intros [->|H]; auto | intros [[-> _]|H]; auto]. }
    destruct (find_attach (n_networkName want_c) _ 0) as [[i have_a]|]; [|exact Hk].
    destruct (detach_network_keeps i have_a
                (set_diff_delete
                   (DcnmNetworkv2.dict_update (n_networkName want_c) "DEPLOYED" (diff_delete x))
                   x)) as (-> & _).
    exact Hk.
  - split; [auto|]. intros [[-> Hin]|H]; [|exact H].
    apply find_network_some in Hin. contradiction.
Qed.

(** X21: [get_diff_delete] marks for deletion, with the state "DEPLOYED"
    and once each, exactly these networks: without a playbook
    configuration, every network that has an entry in [have_attach]; with
    one, every network of [want_create] that the controller has (in
    [have_create]). *)
Theorem get_diff_delete_marks (x : t) :
  (truthy (config x) = false ->
   forall k, In k (List.map fst (diff_delete (get_diff_delete x)))
             <-> In k (List.map na_networkName (have_attach x)))
  /\
  (truthy (config x) = true ->
   forall k, In k (List.map fst (diff_delete (get_diff_delete x)))
             <-> In k (List.map n_networkName (want_create x))
                 /\ In k (List.map n_networkName (have_create x)))
  /\ Forall (fun kv => snd kv = "DEPLOYED") (diff_delete (get_diff_delete x))
  /\ List.NoDup (List.map fst (diff_delete (get_diff_delete x))).
Proof.
  set (x0 := set_diff_delete [] (set_diff_undeploy ∅ (set_diff_detach [] x))).
  assert (H0 : marked_deployed x0).
  { split; [apply List.Forall_nil | apply List.NoDup_nil]. }
  assert (Hfound : forall entries y k,
             In k (List.map fst (diff_delete (foldl delete_found y entries)))
             <-> In k (List.map na_networkName (List.map snd entries))
                 \/ In k (List.map fst (diff_delete y))).
  { induction entries as [|e entries IH]; intros y k; cbn [foldl List.map].
    - split; [auto | intros [[]|H]; exact H].
    - rewrite IH, delete_found_keys. cbn [In]. split.
      + intros [H|[H|H]]; auto.
      + intros [[H|H]|H]; auto. }
  assert (Hwanted : forall wants y k,
             In k (List.map fst (diff_delete (foldl delete_wanted y wants)))
             <-> (In k (List.map n_networkName wants)
                  /\ In k (List.map n_networkName (have_create y)))
                 \/ In k (List.map fst (diff_delete y))).
  { induction wants as [|w wants IH]; intros y k; cbn [foldl List.map].
    - split; [auto | intros [[[] _]|H]; exact H].
    - rewrite IH, delete_wanted_keys, delete_wanted_keeps. cbn [In]. split.
      + intros [[H1 H2]|[[-> H]|H]]; auto.
      + intros [[[H|H] H2]|H]; auto. }
  assert (Hmf : forall entries y, marked_deployed y -> marked_deployed (foldl delete_found y entries)).
  { induction entries as [|e entries IH]; intros y Hy; [exact Hy|].
    cbn [foldl]. apply IH, delete_found_marked, Hy. }
  assert (Hmw : forall wants y, marked_deployed y -> marked_deployed (foldl delete_wanted y wants)).
  { induction wants as [|w wants IH]; intros y Hy; [exact Hy|].
    cbn [foldl]. apply IH, delete_wanted_marked, Hy. }
  unfold get_diff_delete. fold x0.
  split; [|split].
  - intros Hc k. rewrite Hc, Hfound, indexed_snd. cbn.
    split; [intros [H|[]]; exact H | auto].
  - intros Hc k. rewrite Hc, Hwanted. cbn.
    split; [intros [H|[]]; exact H | auto].
  - destruct (truthy (config x)); [apply (Hmw _ _ H0) | apply (Hmf _ _ H0)].
Qed.


(** What [release] returns and what it notes. *)
Lemma release_to_del l du :
  fst (release l du) = List.map released (List.filter (fun a => truthy (deployment a)) l).
Proof.
  revert du. induction l as [|a l IH]; intros du; [reflexivity|].
  cbn [release List.filter]. destruct (truthy (deployment a)); [|apply IH].
  specialize (IH (note_undeploy
                    {| deployment := PBool false; serialNumber := serialNumber a;
                       networkName := networkName a; other := other a |} du)).
  destruct (release l _) as [to_del du']. cbn [fst List.map] in *. rewrite IH. reflexivity.
Qed.

Lemma note_undeploy_lookup a du sn :
  note_undeploy a du !! sn
  = if String.eqb (serialNumber a) sn then grow (du !! sn) [networkName a] else du !! sn.
Proof.
  unfold note_undeploy, grow. cbn [foldl].
  destruct (String.eqb_spec (serialNumber a) sn) as [<-|Hne].
  - destruct (du !! serialNumber a) as [[|n ns]|]; rewrite lookup_insert_eq; reflexivity.
  - destruct (du !! serialNumber a) as [[|n ns]|]; rewrite lookup_insert_ne by exact Hne;
      reflexivity.
Qed.

Lemma release_undeploy l du sn :
  snd (release l du) !! sn = grow (du !! sn) (deployed_names sn l).
Proof.
  revert du. induction l as [|a l IH]; intros du; [reflexivity|].
  unfold deployed_names. cbn [release List.filter].
  destruct (truthy (deployment a)); cbn [andb]; [|apply IH].
  specialize (IH (note_undeploy
                    {| deployment := PBool false; serialNumber := serialNumber a;
                       networkName := networkName a; other := other a |} du)).
  destruct (release l _) as [to_del du']. cbn [snd] in *. rewrite IH.
  rewrite note_undeploy_lookup. cbn [serialNumber networkName].
  destruct (String.eqb (serialNumber a) sn); reflexivity.
Qed.

Lemma grow_app cur l1 l2 : grow cur (l1 ++ l2) = grow (grow cur l1) l2.
Proof. unfold grow. apply foldl_app. Qed.

Lemma grow_some n ns names :
  grow (Some (n :: ns)) names = Some (n :: ns ++ concat (List.map chars names))%list.
Proof.
  revert ns. induction names as [|m names IH]; intros ns; cbn [grow foldl List.map concat].
  - rewrite app_nil_r. reflexivity.
  - change (grow (Some ((n :: ns) ++ chars m)%list) names
            = Some (n :: ns ++ chars m ++ concat (List.map chars names))%list).
    cbn [app]. rewrite IH, <- app_assoc. reflexivity.
Qed.

Lemma grow_none names : grow None names = noted names.
Proof.
  destruct names as [|n names]; [reflexivity|].
  change (grow (Some [n]) names = noted (n :: names)). rewrite grow_some. reflexivity.
Qed.

Lemma deployed_names_app sn l1 l2 :
  deployed_names sn (l1 ++ l2) = (deployed_names sn l1 ++ deployed_names sn l2)%list.
Proof. unfold deployed_names. rewrite List.filter_app, List.map_app. reflexivity. Qed.

Lemma deployed_names_none sn l :
  List.filter (fun a => truthy (deployment a)) l = [] -> deployed_names sn l = [].
Proof.
  unfold deployed_names. induction l as [|a l IH]; [reflexivity|]. cbn [List.filter].
  destruct (truthy (deployment a)); [discriminate|]. exact IH.
Qed.

(** The shared block, by what [release] gives. *)
Lemma detach_network_eq i e x :
  detach_network i e x
  = match detached e with
    | [] => x
    | l => set_diff_undeploy (snd (release (lanAttachList e) (diff_undeploy x)))
             (set_diff_detach
                (diff_detach x ++ [{| na_networkName := na_networkName e; lanAttachList := l |}])%list
                (set_have_attach
                   (<[i := {| na_networkName := na_networkName e; lanAttachList := l |}]>
                      (have_attach x)) x))
    end.
Proof.
  unfold detach_network, detached. rewrite <- release_to_del with (du := diff_undeploy x).
  destruct (release (lanAttachList e) (diff_undeploy x)) as [[|a to_del] du]; reflexivity.
Qed.

Lemma detach_network_undeploy i e x sn :
  diff_undeploy (detach_network i e x) !! sn
  = grow (diff_undeploy x !! sn) (deployed_names sn (lanAttachList e)).
Proof.
  rewrite detach_network_eq. unfold detached.
  destruct (List.filter _ (lanAttachList e)) as [|a l] eqn:Ef; cbn [List.map].
  - rewrite deployed_names_none by exact Ef. reflexivity.
  - cbn [diff_undeploy set_diff_undeploy]. apply release_undeploy.
Qed.

Lemma delete_found_undeploy entries : forall y sn,
  diff_undeploy (foldl delete_found y entries) !! sn
  = grow (diff_undeploy y !! sn)
      (deployed_names sn (concat (List.map lanAttachList (List.map snd entries)))).
Proof.
  induction entries as [|e entries IH]; intros y sn; cbn [foldl List.map concat];
    [reflexivity|].
  rewrite IH, deployed_names_app, grow_app. f_equal.
  unfold delete_found. cbn [diff_undeploy set_diff_delete]. apply detach_network_undeploy.
Qed.

(** X22: without a playbook configuration, [get_diff_delete] leaves in
    [diff_undeploy], for each switch, the name of the first deployed
    attachment on it followed by the single characters of the names of the
    later ones ([list.extend] with a [str]); a switch without a deployed
    attachment has no entry. *)
Theorem get_diff_delete_undeploy_splits_names (x : t) (sn : string) :
  truthy (config x) = false ->
  diff_undeploy (get_diff_delete x) !! sn
  = noted (deployed_names sn (concat (List.map lanAttachList (have_attach x)))).
Proof.
  intros Hc. unfold get_diff_delete. rewrite Hc, delete_found_undeploy, indexed_snd.
  cbn [diff_undeploy set_diff_delete set_diff_undeploy]. rewrite lookup_empty. apply grow_none.
Qed.

Lemma delete_found_detach l : forall pre y,
  have_attach y = (pre ++ l)%list ->
  diff_detach (foldl delete_found y (combine (seq (length pre) (length l)) l))
  = (diff_detach y ++ flat_map to_detach l)%list
  /\ have_attach (foldl delete_found y (combine (seq (length pre) (length l)) l))
     = (pre ++ List.map trimmed l)%list.
Proof.
  induction l as [|e l IH]; intros pre y Hy; cbn [length seq combine foldl flat_map List.map].
  - rewrite app_nil_r. split; [reflexivity | rewrite Hy, app_nil_r; reflexivity].
  - assert (Hstep : have_attach (delete_found y (length pre, e))
                    = ((pre ++ [trimmed e]) ++ l)%list
                    /\ diff_detach (delete_found y (length pre, e))
                       = (diff_detach y ++ to_detach e)%list).
    { unfold delete_found. cbn [fst snd have_attach diff_detach set_diff_delete].
      rewrite detach_network_eq. unfold trimmed, to_detach.
      destruct (detached e) as [|a to_del].
      - rewrite app_nil_r, Hy, <- app_assoc. split; reflexivity.
      - cbn [have_attach diff_detach set_diff_undeploy set_diff_detach set_have_attach].
        split; [|reflexivity].
        rewrite Hy, <- app_assoc. cbn [app].
        replace (length pre) with (length pre + 0)%nat by lia.
        rewrite insert_app_r. reflexivity. }
    destruct Hstep as [Hh Hd].
    specialize (IH (pre ++ [trimmed e])%list (delete_found y (length pre, e)) Hh).
    rewrite length_app in IH. cbn [length] in IH.
    replace (length pre + 1)%nat with (S (length pre)) in IH by lia.
    destruct IH as [IHd IHh]. rewrite IHd, IHh, Hd, <- !app_assoc. split; reflexivity.
Qed.

(** X23: without a playbook configuration, [get_diff_delete] puts in
    [diff_detach], in the order of [have_attach], every network that has a
    deployed attachment, with exactly its deployed attachments, their
    [deployment] set to False; and the entries of [have_attach] themselves
    lose, in place, the attachments that were not deployed. *)
Theorem get_diff_delete_detaches_deployed (x : t) :
  truthy (config x) = false ->
  diff_detach (get_diff_delete x) = flat_map to_detach (have_attach x)
  /\ have_attach (get_diff_delete x) = List.map trimmed (have_attach x).
Proof.
  intros Hc. unfold get_diff_delete, indexed. rewrite Hc.
  apply (delete_found_detach (have_attach x) []
           (set_diff_delete [] (set_diff_undeploy ∅ (set_diff_detach [] x)))).
  reflexivity.
Qed.


Lemma detach_network_set_diff_delete i e d x :
  detach_network i e (set_diff_delete d x) = set_diff_delete d (detach_network i e x).
Proof.
  rewrite !detach_network_eq. destruct (detached e); reflexivity.
Qed.

Lemma grow_keeps n ns names : exists n' ns', grow (Some (n :: ns)) names = Some (n' :: ns').
Proof. rewrite grow_some. eauto. Qed.

Lemma deployed_names_in sn l a :
  In a l -> truthy (deployment a) = true -> serialNumber a = sn ->
  deployed_names sn l <> [].
Proof.
  intros Hin Ht Hsn. unfold deployed_names. intros Hnil.
  apply List.map_eq_nil in Hnil.
  assert (Hf : In a (List.filter
                       (fun a => truthy (deployment a) && String.eqb (serialNumber a) sn) l)).
  { apply List.filter_In. split; [exact Hin|]. rewrite Ht, Hsn, String.eqb_refl. reflexivity. }
  rewrite Hnil in Hf. exact Hf.
Qed.

(** The shared block keeps [detach_sound] when the network is marked. *)
Lemma detach_network_sound i e x :
  detach_sound x -> In (na_networkName e) (List.map fst (diff_delete x)) ->
  detach_sound (detach_network i e x).
Proof.
  intros Hx Hkey d Hd.
  assert (Hgrown : forall sn n ns, diff_undeploy x !! sn = Some (n :: ns) ->
             exists n' ns', diff_undeploy (detach_network i e x) !! sn = Some (n' :: ns')).
  { intros sn n ns Hsn. rewrite detach_network_undeploy, Hsn. apply grow_keeps. }
  assert (Hold : In d (diff_detach x) ->
             In (na_networkName d) (List.map fst (diff_delete (detach_network i e x)))
             /\ lanAttachList d <> []
             /\ forall a, In a (lanAttachList d) ->
                  deployment a = PBool false
                  /\ exists n ns,
                       diff_undeploy (detach_network i e x) !! serialNumber a = Some (n :: ns)).
  { intros Hin. destruct (Hx d Hin) as (Hk & Hne & Hall).
    destruct (detach_network_keeps i e x) as (-> & _).
    split; [exact Hk|]. split; [exact Hne|].
    intros a Ha. destruct (Hall a Ha) as (Hfalse & n & ns & Hsn).
    split; [exact Hfalse | exact (Hgrown _ _ _ Hsn)]. }
  revert Hd. rewrite detach_network_eq at 1.
  destruct (detached e) as [|a0 to_del] eqn:Edet; [exact Hold|].
  cbn [diff_detach set_diff_undeploy set_diff_detach]. intros Hd.
  apply List.in_app_or in Hd. destruct Hd as [Hd|[<-|[]]]; [exact (Hold Hd)|].
  cbn [na_networkName lanAttachList].
  destruct (detach_network_keeps i e x) as (-> & _).
  split; [exact Hkey|]. split; [discriminate|].
  intros a Ha. rewrite <- Edet in Ha. unfold detached in Ha.
  apply List.in_map_iff in Ha. destruct Ha as (a' & <- & Ha').
  apply List.filter_In in Ha'. destruct Ha' as [Hin Ht].
  split; [reflexivity|]. cbn [released serialNumber].
  rewrite detach_network_undeploy.
  pose proof (deployed_names_in (serialNumber a') _ a' Hin Ht eq_refl) as Hne.
  destruct (deployed_names (serialNumber a') (lanAttachList e)) as [|m names];
    [contradiction|].
  destruct (diff_undeploy x !! serialNumber a') as [[|n ns]|];
    cbn [grow foldl]; apply grow_keeps.
Qed.

Lemma detach_sound_mark key x :
  detach_sound x ->
  detach_sound (set_diff_delete (DcnmNetworkv2.dict_update key "DEPLOYED" (diff_delete x)) x).
Proof.
  intros Hx d Hd. destruct (Hx d Hd) as (Hk & Hrest).
  split; [|exact Hrest]. cbn [diff_delete set_diff_delete].
  apply dict_update_keys. right. exact Hk.
Qed.

Lemma mark_key key x :
  In key (List.map fst
            (diff_delete
               (set_diff_delete (DcnmNetworkv2.dict_update key "DEPLOYED" (diff_delete x)) x))).
Proof. cbn [diff_delete set_diff_delete]. apply dict_update_keys. left. reflexivity. Qed.

Lemma find_attach_name name l : forall i j e,
  find_attach name l i = Some (j, e) -> na_networkName e = name.
Proof.
  induction l as [|a l IH]; intros i j e; cbn [find_attach]; [discriminate|].
  destruct (String.eqb_spec (na_networkName a) name) as [Heq|Hne].
  - intros [= _ <-]. exact Heq.
  - apply IH.
Qed.

Lemma delete_found_eq x entry :
  delete_found x entry
  = detach_network (fst entry) (snd entry)
      (set_diff_delete
         (DcnmNetworkv2.dict_update (na_networkName (snd entry)) "DEPLOYED" (diff_delete x)) x).
Proof.
  unfold delete_found. rewrite detach_network_set_diff_delete.
  destruct (detach_network_keeps (fst entry) (snd entry) x) as (-> & _). reflexivity.
Qed.

Lemma delete_found_sound x entry : detach_sound x -> detach_sound (delete_found x entry).
Proof.
  intros Hx. rewrite delete_found_eq.
  apply detach_network_sound; [apply detach_sound_mark, Hx | apply mark_key].
Qed.

Lemma delete_wanted_sound x want_c : detach_sound x -> detach_sound (delete_wanted x want_c).
Proof.
  intros Hx. unfold delete_wanted.
  destruct (find_network (n_networkName want_c) (have_create x)); [|exact Hx].
  destruct (find_attach (n_networkName want_c) _ 0) as [[i have_a]|] eqn:Ef;
    [|apply detach_sound_mark, Hx].
  apply detach_network_sound; [apply detach_sound_mark, Hx|].
  rewrite (find_attach_name _ _ _ _ _ Ef). apply mark_key.
Qed.

(** X24: with or without a playbook configuration, every entry that
    [get_diff_delete] puts in [diff_detach] is a network it also marks in
    [diff_delete]; the entry has at least one attachment, every attachment
    in it has [deployment] False, and the switch of each has names in
    [diff_undeploy]. *)
Theorem get_diff_delete_detaches_only_deleted (x : t) :
  detach_sound (get_diff_delete x).
Proof.
  assert (H0 : detach_sound (set_diff_delete [] (set_diff_undeploy ∅ (set_diff_detach [] x)))).
  { intros d []. }
  unfold get_diff_delete.
  destruct (truthy (config x)).
  - revert H0. generalize (set_diff_delete [] (set_diff_undeploy ∅ (set_diff_detach [] x))).
    induction (want_create x) as [|w l IH]; intros y Hy; [exact Hy|].
    cbn [foldl]. apply IH, delete_wanted_sound, Hy.
  - revert H0. generalize (set_diff_delete [] (set_diff_undeploy ∅ (set_diff_detach [] x))).
    induction (indexed (have_attach x)) as [|e l IH]; intros y Hy; [exact Hy|].
    cbn [foldl]. apply IH, delete_found_sound, Hy.
Qed.

(** The loop of [get_diff_override]. *)
Lemma override_found_keeps x entry :
  want_create (override_found x entry) = want_create x.
Proof.
  unfold override_found.
  destruct (find_network (na_networkName (snd entry)) (want_create x)); [reflexivity|].
  cbn [want_create set_diff_delete].
  destruct (detach_network_keeps (fst entry) (snd entry) x) as (_ & -> & _). reflexivity.
Qed.

Lemma override_found_keys x entry k :
  In k (List.map fst (diff_delete (override_found x entry)))
  <-> (k = na_networkName (snd entry) /\ ~ In k (List.map n_networkName (want_create x)))
      \/ In k (List.map fst (diff_delete x)).
Proof.
  unfold override_found.
  destruct (find_network (na_networkName (snd entry)) (want_create x)) as [found|] eqn:Ef.
  - split; [auto|]. intros [[-> Hnot]|H]; [|exact H].
    exfalso. apply Hnot, find_network_some. rewrite Ef. discriminate.
  - cbn [diff_delete set_diff_delete]. rewrite dict_update_keys.
    destruct (detach_network_keeps (fst entry) (snd entry) x) as (-> & _).
    split; [|intros [[-> _]|H]; auto].
    intros [->|H]; [|auto]. left. split; [reflexivity|].
    intros Hin. apply find_network_some in Hin. contradiction.
Qed.

Lemma override_found_marked x entry : marked_deployed x -> marked_deployed (override_found x entry).
Proof.
  intros Hx. unfold override_found.
  destruct (find_network (na_networkName (snd entry)) (want_create x)); [exact Hx|].
  apply (delete_found_marked x entry Hx).
Qed.

Lemma override_found_detach x entry :
  exists more, diff_detach (override_found x entry) = (diff_detach x ++ more)%list.
Proof.
  unfold override_found.
  destruct (find_network (na_networkName (snd entry)) (want_create x));
    [exists []; rewrite app_nil_r; reflexivity|].
  cbn [diff_detach set_diff_delete]. rewrite detach_network_eq.
  destruct (detached (snd entry)) as [|a l]; [exists []; rewrite app_nil_r; reflexivity|].
  cbn [diff_detach set_diff_undeploy set_diff_detach]. eauto.
Qed.

Lemma override_loop entries : forall y,
  (forall k, In k (List.map fst (diff_delete (foldl override_found y entries)))
             <-> (In k (List.map na_networkName (List.map snd entries))
                  /\ ~ In k (List.map n_networkName (want_create y)))
                 \/ In k (List.map fst (diff_delete y)))
  /\ (marked_deployed y -> marked_deployed (foldl override_found y entries))
  /\ (exists more, diff_detach (foldl override_found y entries) = (diff_detach y ++ more)%list)
  /\ want_create (foldl override_found y entries) = want_create y.
Proof.
  induction entries as [|e entries IH]; intros y; cbn [foldl List.map].
  - split; [|split; [|split]]; [|auto|exists []; rewrite app_nil_r; reflexivity|reflexivity].
    intros k. split; [auto | intros [[[] _]|H]; exact H].
  - destruct (IH (override_found y e)) as (Hk & Hm & (more & Hd) & Hw).
    split; [|split; [|split]].
    + intros k. rewrite Hk, override_found_keys, override_found_keeps. cbn [In]. split.
      * intros [[H1 H2]|[[-> H]|H]]; auto.
      * intros [[[H|H] H2]|H]; auto.
    + intros Hy. apply Hm, override_found_marked, Hy.
    + destruct (override_found_detach y e) as (more0 & Hd0).
      exists (more0 ++ more)%list. rewrite Hd, Hd0, app_assoc. reflexivity.
    + rewrite Hw. apply override_found_keeps.
Qed.

(** X25: when [get_diff_replace] returns, [get_diff_override] returns its
    warning and marks in [diff_delete], as "DEPLOYED" and once each, exactly
    the networks of [have_attach] that are not in [want_create]: a network
    of the playbook is never marked.  What [get_diff_replace] left in
    [diff_detach] stays at its front. *)
Theorem get_diff_override_marks_unwanted
    (get_diff_replace : M t (option string)) (s x1 : t) (warn_msg : option string) :
  get_diff_replace s = (Ret warn_msg, x1) ->
  exists x',
    get_diff_override get_diff_replace s = (Ret warn_msg, x')
    /\ (forall k, In k (List.map fst (diff_delete x'))
                  <-> In k (List.map na_networkName (have_attach x1))
                      /\ ~ In k (List.map n_networkName (want_create x1)))
    /\ marked_deployed x'
    /\ (exists more, diff_detach x' = (diff_detach x1 ++ more)%list)
    /\ want_create x' = want_create x1.
Proof.
  intros Hrep.
  exists (foldl override_found (set_diff_delete [] x1) (indexed (have_attach x1))).
  split.
  { unfold get_diff_override. rewrite (run_bind _ _ _ _ _ Hrep).
    unfold bind, modify, ret. reflexivity. }
  destruct (override_loop (indexed (have_attach x1)) (set_diff_delete [] x1))
    as (Hk & Hm & Hd & Hw).
  split; [|split; [|split]].
  - intros k. rewrite Hk, indexed_snd. cbn.
    split; [intros [H|[]]; exact H | auto].
  - apply Hm. split; [apply List.Forall_nil | apply List.NoDup_nil].
  - exact Hd.
  - exact Hw.
Qed.

End DiffDelete.

Lemma get_diff_delete_undeploy_splits_names_witness :
  truthy (NetworkDiff.config (three_networks PNone [])) = false
  /\ NetworkDiff.diff_undeploy (NetworkDiff.get_diff_delete (three_networks PNone [])) !! "SN1"
     = Some ["netA"; "n"; "e"; "t"; "B"]
  /\ NetworkDiff.diff_undeploy (NetworkDiff.get_diff_delete (three_networks PNone [])) !! "SN2"
     = None.
Proof.
  split; [reflexivity|]. split.
  - rewrite (get_diff_delete_undeploy_splits_names (three_networks PNone []) "SN1" eq_refl).
    vm_compute. reflexivity.
  - rewrite (get_diff_delete_undeploy_splits_names (three_networks PNone []) "SN2" eq_refl).
    vm_compute. reflexivity.
Defined.

Lemma get_diff_delete_detaches_deployed_witness :
  truthy (NetworkDiff.config (three_networks PNone [])) = false
  /\ NetworkDiff.diff_detach (NetworkDiff.get_diff_delete (three_networks PNone []))
     = [{| NetworkDiff.na_networkName := "netA";
           NetworkDiff.lanAttachList := [attached "netA" "SN1" false] |};
        {| NetworkDiff.na_networkName := "netB";
           NetworkDiff.lanAttachList := [attached "netB" "SN1" false] |}]
  /\ NetworkDiff.have_attach (NetworkDiff.get_diff_delete (three_networks PNone []))
     = [{| NetworkDiff.na_networkName := "netA";
           NetworkDiff.lanAttachList := [attached "netA" "SN1" false] |};
        {| NetworkDiff.na_networkName := "netB";
           NetworkDiff.lanAttachList := [attached "netB" "SN1" false] |};
        {| NetworkDiff.na_networkName := "netC";
           NetworkDiff.lanAttachList := [attached "netC" "SN2" false] |}].
Proof.
  split; [reflexivity|].
  destruct (get_diff_delete_detaches_deployed (three_networks PNone []) eq_refl) as [Hd Hh].
  split; [rewrite Hd | rewrite Hh]; reflexivity.
Defined.

Lemma get_diff_override_marks_unwanted_witness :
  exists x',
    NetworkDiff.get_diff_override (ret None) (three_networks (PList [PNone]) ["netA"; "netD"])
    = (Ret None, x')
    /\ (forall k, In k (List.map fst (NetworkDiff.diff_delete x'))
                  <-> In k ["netA"; "netB"; "netC"] /\ ~ In k ["netA"; "netD"])
    /\ Usage.marked_deployed x'
    /\ (exists more, NetworkDiff.diff_detach x' = ([] ++ more)%list)
    /\ NetworkDiff.want_create x' = [named "netA"; named "netD"].
Proof.
  exact (get_diff_override_marks_unwanted (ret None)
           (three_networks (PList [PNone]) ["netA"; "netD"])
           (three_networks (PList [PNone]) ["netA"; "netD"]) None eq_refl).
Defined.

(** The same inputs, evaluated. *)
Example delete_without_config :
  NetworkDiff.diff_delete (NetworkDiff.get_diff_delete (three_networks PNone []))
  = [("netA", "DEPLOYED"); ("netB", "DEPLOYED"); ("netC", "DEPLOYED")].
Proof. vm_compute. reflexivity. Qed.

Example delete_with_config :
  let x' := NetworkDiff.get_diff_delete (three_networks (PList [PNone]) ["netB"; "netD"; "netB"]) in
  NetworkDiff.diff_delete x' = [("netB", "DEPLOYED")]
  /\ NetworkDiff.diff_detach x'
     = [{| NetworkDiff.na_networkName := "netB";
           NetworkDiff.lanAttachList := [attached "netB" "SN1" false] |}]
  /\ NetworkDiff.diff_undeploy x' !! "SN1" = Some ["netB"].
Proof. vm_compute. repeat split; reflexivity. Qed.

Example override_keeps_wanted :
  let x' := snd (NetworkDiff.get_diff_override (ret None)
                   (three_networks (PList [PNone]) ["netA"; "netD"])) in
  NetworkDiff.diff_delete x' = [("netB", "DEPLOYED"); ("netC", "DEPLOYED")]
  /\ NetworkDiff.diff_detach x'
     = [{| NetworkDiff.na_networkName := "netB";
           NetworkDiff.lanAttachList := [attached "netB" "SN1" false] |}].
Proof. vm_compute. repeat split; reflexivity. Qed.

Lemma push_to_remote_attach_retries_bounded_witness :
  exists c',
    DcnmNetworkv2.push_to_remote_attach always_retry "/networks" true module_attaching
    = (Ret tt, c')
    /\ DcnmNetworkv2.calls c' = (DcnmNetworkv2.calls module_attaching + 50)%nat
    /\ DcnmNetworkv2.failed_to_rollback (DcnmNetworkv2.self c')
       = (DcnmNetworkv2.failed_to_rollback (DcnmNetworkv2.self module_attaching) || true).
Proof.
  destruct (push_to_remote_attach_retries_bounded always_retry "/networks") as [_ Hfifty].
  apply (Hfifty true module_attaching); [intros n; reflexivity | reflexivity].
Defined.

Lemma update_ms_fabric_retags_witness :
  DcnmNetworkv2.is_ms_fabric multi_site = true
  /\ DcnmNetworkv2.update_ms_fabric multi_site (DcnmNetworkv2.diff_attach multi_site)
     = ([{| DcnmNetworkv2.ap_networkName := "net1";
            DcnmNetworkv2.ap_lanAttachList :=
              [{| DcnmNetworkv2.serialNumber := "FDO211218HH";
                  DcnmNetworkv2.node_fabric := "f1";
                  DcnmNetworkv2.d_key := Some "serialNumber" |}] |}], None).
Proof.
  split; [reflexivity|].
  destruct (update_ms_fabric_retags multi_site (DcnmNetworkv2.diff_attach multi_site))
    as (_ & Hknown & _).
  rewrite Hknown; [vm_compute; reflexivity | reflexivity |].
  intros a n [<-|[]] [<-|[]]. vm_compute. eauto.
Defined.

(** ** The ports detached when an attachment is replaced *)

Section AttachedPorts.

Import AttachPorts Usage.

Lemma split_comma_cons s : exists h tl, split_comma s = h :: tl.
Proof.
  induction s as [|c rest (h & tl & IH)]; cbn [split_comma]; [eauto|].
  destruct (Ascii.eqb c ","); [eauto|]. rewrite IH. eauto.
Qed.

Lemma split_comma_free p : comma_free p = true -> split_comma p = [p].
Proof.
  induction p as [|c p IH]; cbn [comma_free split_comma]; [reflexivity|].
  destruct (Ascii.eqb c ","); cbn [negb andb]; [discriminate|].
  intros Hp. rewrite (IH Hp). reflexivity.
Qed.

Lemma split_comma_app p s :
  comma_free p = true -> split_comma (p ++ "," ++ s) = p :: split_comma s.
Proof.
  induction p as [|c p IH]; cbn [comma_free].
  - intros _. rewrite append_nil_l, append_cons, append_nil_l. reflexivity.
  - destruct (Ascii.eqb c ",") eqn:Ec; cbn [negb andb]; [discriminate|].
    intros Hp. rewrite append_cons. cbn [split_comma]. rewrite Ec, (IH Hp). reflexivity.
Qed.

Lemma split_comma_join l :
  l <> [] -> List.Forall (fun p => comma_free p = true) l ->
  split_comma (DcnmNetworkv2.join "," l) = l.
Proof.
  induction l as [|x [|y rest] IH]; intros Hne Hfree; [contradiction| |].
  - cbn [DcnmNetworkv2.join]. apply split_comma_free.
    inversion Hfree; assumption.
  - inversion Hfree as [|? ? Hx Hrest]; subst.
    change (DcnmNetworkv2.join "," (x :: y :: rest))
      with (x ++ "," ++ DcnmNetworkv2.join "," (y :: rest)).
    rewrite (split_comma_app _ _ Hx), IH; [reflexivity | discriminate | exact Hrest].
Qed.

Lemma split_comma_elements s p : In p (split_comma s) -> comma_free p = true.
Proof.
  revert p. induction s as [|c rest IH]; intros p; cbn [split_comma].
  - intros [<-|[]]. reflexivity.
  - destruct (Ascii.eqb c ",") eqn:Ec.
    + intros [<-|Hin]; [reflexivity | exact (IH p Hin)].
    + destruct (split_comma_cons rest) as (h & tl & Hs). rewrite Hs in *.
      intros [<-|Hin].
      * cbn [comma_free]. rewrite Ec, (IH h (or_introl eq_refl)). reflexivity.
      * apply IH. right. exact Hin.
Qed.

Lemma ports_elements s p : In p (ports s) -> comma_free p = true.
Proof.
  unfold ports. destruct (String.eqb s ""); [intros [] | apply split_comma_elements].
Qed.

Lemma existsb_eqb p l : existsb (String.eqb p) l = true <-> In p l.
Proof.
  rewrite List.existsb_exists. split.
  - intros (q & Hq & Heq). apply String.eqb_eq in Heq. subst q. exact Hq.
  - intros Hin. exists p. split; [exact Hin | apply String.eqb_refl].
Qed.

Section Listing.

Variable listing : list string -> list string.
Hypothesis listing_spec :
  forall l, List.NoDup (listing l) /\ forall p, In p (listing l) <-> In p l.

(** X26: when the wanted and the existing [switchPorts] are the same string
    [get_attach_ports] changes nothing.  Otherwise it sets
    [detachSwitchPorts] to a string whose ports, each once, are exactly the
    ports the switch has that are no longer wanted, and leaves
    [switchPorts] as it is. *)
Theorem get_attach_ports_detaches_unwanted (w_attach h_attach : t) :
  (switchPorts w_attach = switchPorts h_attach ->
   get_attach_ports listing w_attach h_attach = w_attach)
  /\
  (switchPorts w_attach <> switchPorts h_attach ->
   exists d,
     detachSwitchPorts (get_attach_ports listing w_attach h_attach) = Some d
     /\ switchPorts (get_attach_ports listing w_attach h_attach) = switchPorts w_attach
     /\ List.NoDup (ports d)
     /\ forall p, p <> "" ->
          (In p (ports d)
           <-> In p (ports (switchPorts h_attach)) /\ ~ In p (ports (switchPorts w_attach)))).
Proof.
  unfold get_attach_ports. split.
  - intros ->. rewrite String.eqb_refl. reflexivity.
  - intros Hne. apply String.eqb_neq in Hne. rewrite Hne. cbv zeta.
    set (gone := List.filter
                   (fun p => negb (existsb (String.eqb p) (ports (switchPorts w_attach))))
                   (ports (switchPorts h_attach))).
    assert (Hgone : forall p, In p gone
                              <-> In p (ports (switchPorts h_attach))
                                  /\ ~ In p (ports (switchPorts w_attach))).
    { intros p. unfold gone. rewrite List.filter_In, Bool.negb_true_iff.
      split; intros [Hh Hw]; (split; [exact Hh|]).
      - intros Hin. apply existsb_eqb in Hin. congruence.
      - destruct (existsb (String.eqb p) (ports (switchPorts w_attach))) eqn:Ex;
          [|reflexivity].
        apply existsb_eqb in Ex. contradiction. }
    destruct (listing_spec gone) as [Hnd Hin].
    eexists. split; [reflexivity|]. split; [reflexivity|].
    destruct (listing gone) as [|x rest] eqn:El.
    + split; [apply List.NoDup_nil|]. intros p _. rewrite <- Hgone, <- Hin. reflexivity.
    + assert (Hsplit : split_comma (DcnmNetworkv2.join "," (x :: rest)) = x :: rest).
      { apply split_comma_join; [discriminate|]. apply List.Forall_forall. intros p Hp.
        apply Hin, Hgone in Hp. destruct Hp as [Hp _]. exact (ports_elements _ _ Hp). }
      assert (Hports : ports (DcnmNetworkv2.join "," (x :: rest))
                       = if String.eqb (DcnmNetworkv2.join "," (x :: rest)) ""
                         then [] else x :: rest).
      { unfold ports. rewrite Hsplit. reflexivity. }
      rewrite Hports. clear Hports.
      destruct (String.eqb_spec (DcnmNetworkv2.join "," (x :: rest)) "") as [Hempty|_].
      * split; [apply List.NoDup_nil|]. intros p Hp.
        rewrite Hempty in Hsplit. cbn [split_comma] in Hsplit.
        rewrite <- Hgone, <- Hin, <- Hsplit. cbn [In].
        split; [intros [] | intros [H|[]]; congruence].
      * split; [exact Hnd|]. intros p _. rewrite <- Hgone. apply Hin.
Qed.

End Listing.

End AttachedPorts.

Lemma get_attach_ports_detaches_unwanted_witness :
  AttachPorts.switchPorts want_ports <> AttachPorts.switchPorts have_ports
  /\ AttachPorts.get_attach_ports (List.nodup string_dec) want_ports have_ports
     = {| AttachPorts.switchPorts := "Ethernet1/2,Ethernet1/4";
          AttachPorts.detachSwitchPorts := Some "Ethernet1/1,Ethernet1/3" |}
  /\ exists d,
       AttachPorts.detachSwitchPorts
         (AttachPorts.get_attach_ports (List.nodup string_dec) want_ports have_ports) = Some d
       /\ AttachPorts.switchPorts
            (AttachPorts.get_attach_ports (List.nodup string_dec) want_ports have_ports)
          = AttachPorts.switchPorts want_ports
       /\ List.NoDup (AttachPorts.ports d)
       /\ forall p, p <> "" ->
            (In p (AttachPorts.ports d)
             <-> In p (AttachPorts.ports (AttachPorts.switchPorts have_ports))
                 /\ ~ In p (AttachPorts.ports (AttachPorts.switchPorts want_ports))).
Proof.
  assert (Hne : AttachPorts.switchPorts want_ports <> AttachPorts.switchPorts have_ports)
    by discriminate.
  split; [exact Hne|]. split; [vm_compute; reflexivity|].
  apply (get_attach_ports_detaches_unwanted (List.nodup string_dec)
           (fun l => conj (List.NoDup_nodup string_dec l)
                          (fun p => List.nodup_In string_dec l p))
           want_ports have_ports).
  exact Hne.
Defined.

(** ** The answers that make an attach wait *)

Section RetryLater.

Import DcnmNetworkv2 Usage.

Lemma prefix_app needle str :
  String.prefix needle str = true <-> exists c, str = (needle ++ c)%string.
Proof.
  revert str. induction needle as [|a needle IH]; intros str.
  - split; [intros _; exists str; rewrite append_nil_l; reflexivity|].
    intros _. destruct str; reflexivity.
  - destruct str as [|b str]; cbn [String.prefix].
    + split; [discriminate | intros (c & Hc); rewrite append_cons in Hc; discriminate].
    + destruct (Ascii.ascii_dec a b) as [->|Hne].
      * rewrite IH. split; intros (c & Hc); exists c.
        -- rewrite append_cons, Hc. reflexivity.
        -- rewrite append_cons in Hc. injection Hc as Hc. exact Hc.
      * split; [discriminate|]. intros (c & Hc). rewrite append_cons in Hc.
        injection Hc as Hb _. congruence.
Qed.

Lemma on_line_iff needle str :
  on_line needle str = true
  <-> exists b c, str = (b ++ needle ++ c)%string /\ one_line b = true.
Proof.
  induction str as [|a str IH]; cbn [on_line].
  - destruct (String.prefix needle "") eqn:Ep.
    + split; [intros _|intros _; reflexivity]. apply prefix_app in Ep. destruct Ep as (c & Hc).
      exists "", c. rewrite append_nil_l. split; [exact Hc | reflexivity].
    + split; [discriminate|]. intros (b & c & Hs & _).
      destruct b as [|b0 b]; [|rewrite append_cons in Hs; discriminate].
      rewrite append_nil_l in Hs.
      assert (String.prefix needle "" = true) by (apply prefix_app; eauto). congruence.
  - destruct (String.prefix needle (String a str)) eqn:Ep.
    + split; [intros _|intros _; reflexivity]. apply prefix_app in Ep. destruct Ep as (c & Hc).
      exists "", c. rewrite append_nil_l. split; [exact Hc | reflexivity].
    + destruct (Ascii.eqb a "010") eqn:Ea.
      * split; [discriminate|]. intros (b & c & Hs & Hb).
        destruct b as [|b0 b].
        -- rewrite append_nil_l in Hs.
           assert (String.prefix needle (String a str) = true) by (apply prefix_app; eauto).
           congruence.
        -- rewrite append_cons in Hs. injection Hs as <- _.
           cbn [one_line] in Hb. rewrite Ea in Hb. discriminate.
      * rewrite IH. split.
        -- intros (b & c & Hs & Hb). exists (String a b), c. rewrite append_cons, Hs.
           split; [reflexivity|]. cbn [one_line]. rewrite Ea, Hb. reflexivity.
        -- intros (b & c & Hs & Hb). destruct b as [|b0 b].
           ++ rewrite append_nil_l in Hs.
              assert (String.prefix needle (String a str) = true)
                by (apply prefix_app; eauto).
              congruence.
           ++ rewrite append_cons in Hs. injection Hs as <- Hs.
              cbn [one_line] in Hb. apply andb_prop in Hb. destruct Hb as [_ Hb]. eauto.
Qed.

Lemma drop_chars_failed rest : drop_chars 6 ("Failed" ++ rest) = rest.
Proof. rewrite !append_cons, append_nil_l. reflexivity. Qed.

(** X27: the test that makes [push_to_remote_attach] send the request
    again, [re.search(r"Failed.*Please try after some time", ...)], holds of
    a string exactly when it has "Failed" and, further on with no line
    break between the two, "Please try after some time". *)
Theorem retry_later_iff (str : string) :
  retry_later str = true
  <-> exists a b c,
        str = (a ++ "Failed" ++ b ++ "Please try after some time" ++ c)%string
        /\ one_line b = true.
Proof.
  induction str as [|x str IH].
  - cbn. split; [discriminate|]. intros (a & b & c & Hs & _).
    destruct a as [|a0 a]; [rewrite append_nil_l, append_cons in Hs | rewrite append_cons in Hs];
      discriminate.
  - change (retry_later (String x str))
      with (String.prefix "Failed" (String x str)
            && on_line "Please try after some time" (drop_chars 6 (String x str))
            || retry_later str).
    rewrite Bool.orb_true_iff, Bool.andb_true_iff, IH, prefix_app. split.
    + intros [[(rest & Hrest) Hline]|(a & b & c & Hs & Hb)].
      * rewrite Hrest, drop_chars_failed in Hline. apply on_line_iff in Hline.
        destruct Hline as (b & c & Hs & Hb). exists "", b, c.
        rewrite append_nil_l, Hrest, Hs. auto.
      * exists (String x a), b, c. rewrite append_cons, Hs. auto.
    + intros (a & b & c & Hs & Hb). destruct a as [|a0 a].
      * left. rewrite append_nil_l in Hs. split; [eauto|].
        rewrite Hs, drop_chars_failed. apply on_line_iff. eauto.
      * right. rewrite append_cons in Hs. injection Hs as _ Hs. eauto.
Qed.

End RetryLater.
